(** * patent-download-ui: classification, aggregation, filtering and ordering

    A shallow embedding of the catalogue logic of
    [src/dataProcessor.js] and [src/PatentDownloadInterface.js].

    Conventions of the embedding.
    - A JavaScript string is a [string]; the embedding is exact on ASCII
      text (the naming convention of the identifiers), and case mapping
      leaves every other character alone.
    - [null] is [None].
    - A plain object used as a dictionary is the list of its own properties
      in insertion order ([JS.obj]); [Object.keys] is [JS.keys].
    - A [Set] is the list of its elements in insertion order.
    - [Array.prototype.sort] is stable; it is embedded as a stable
      insertion sort driven by the comparator of the source. *)

From Stdlib Require Import String Ascii List ZArith Bool Lia Arith.
From Stdlib Require Import Permutation Sorted.
Import ListNotations.
Open Scope string_scope.
Open Scope list_scope.

(* ================================================================== *)
(** * JavaScript primitives used by the sources                        *)
(* ================================================================== *)

Module JS.

(** ** Characters *)

Definition isLowerAlpha (c : ascii) : bool :=
  (97 <=? nat_of_ascii c)%nat && (nat_of_ascii c <=? 122)%nat.

Definition isUpperAlpha (c : ascii) : bool :=
  (65 <=? nat_of_ascii c)%nat && (nat_of_ascii c <=? 90)%nat.

Definition isDigit (c : ascii) : bool :=
  (48 <=? nat_of_ascii c)%nat && (nat_of_ascii c <=? 57)%nat.

Definition upperChar (c : ascii) : ascii :=
  if isLowerAlpha c then ascii_of_nat (nat_of_ascii c - 32) else c.

Definition lowerChar (c : ascii) : ascii :=
  if isUpperAlpha c then ascii_of_nat (nat_of_ascii c + 32) else c.

(** ** Strings *)

Fixpoint mapChars (f : ascii -> ascii) (s : string) : string :=
  match s with
  | EmptyString => EmptyString
  | String c s' => String (f c) (mapChars f s')
  end.

(** [s.toLowerCase()] and [s.toUpperCase()] on ASCII strings: the letters
    a-z and A-Z are mapped and every other character is left as it is,
    where JavaScript maps characters beyond ASCII by the Unicode tables. *)
Definition toLowerCase (s : string) : string := mapChars lowerChar s.
Definition toUpperCase (s : string) : string := mapChars upperChar s.

(** [s.startsWith(p)] *)
Definition startsWith (s p : string) : bool := prefix p s.

(** [s.includes(p)]: [p] occurs in [s] at some position *)
Fixpoint includes (s p : string) : bool :=
  match s with
  | EmptyString => prefix p EmptyString
  | String _ s' => prefix p s || includes s' p
  end.

(** [s.slice(n)] for [0 <= n] *)
Fixpoint slice (n : nat) (s : string) : string :=
  match n, s with
  | O, _ => s
  | S n', String _ s' => slice n' s'
  | S _, EmptyString => EmptyString
  end.

(** [s.charAt(0)]: the first character as a string, or the empty string *)
Definition charAt0 (s : string) : string :=
  match s with
  | EmptyString => EmptyString
  | String c _ => String c EmptyString
  end.

(** [s.split(sep)] for a one-character separator *)
Fixpoint split (sep : ascii) (s : string) : list string :=
  match s with
  | EmptyString => [EmptyString]
  | String c s' =>
      if Ascii.eqb c sep then EmptyString :: split sep s'
      else match split sep s' with
           | w :: ws => String c w :: ws
           | [] => [String c EmptyString]
           end
  end.

(** [words.join(sep)] *)
Fixpoint join (sep : string) (ws : list string) : string :=
  match ws with
  | [] => EmptyString
  | [w] => w
  | w :: ws' => (w ++ sep ++ join sep ws')%string
  end.

(** [s.replace(/c/g, d)] for single characters [c] and [d] *)
Definition replaceAllChar (c d : ascii) (s : string) : string :=
  mapChars (fun x => if Ascii.eqb x c then d else x) s.

(** [s.replace(/^(g|pg)_/, '')] *)
Definition stripTypePrefix (s : string) : string :=
  if prefix "g_" s then slice 2 s
  else if prefix "pg_" s then slice 3 s
  else s.

Fixpoint allDigits (s : string) : bool :=
  match s with
  | EmptyString => true
  | String c s' => isDigit c && allDigits s'
  end.

(** [s.match(/_(\d{4})$/)]: the first capture group of the leftmost match,
    [None] when the match is [null].  The matcher tries every start
    position from the left; at a start position it needs [_], then four
    digits, then the end of the input. *)
Fixpoint matchTrailingYear (s : string) : option string :=
  match s with
  | EmptyString => None
  | String c s' =>
      if Ascii.eqb c "_" && (String.length s' =? 4)%nat && allDigits s'
      then Some s'
      else matchTrailingYear s'
  end.

(** A literal pattern matched at the start of [s] under the [i] flag:
    characters are compared after canonicalisation to upper case. *)
Fixpoint matchesHereCI (pat s : string) : bool :=
  match pat, s with
  | EmptyString, _ => true
  | String _ _, EmptyString => false
  | String p pat', String c s' =>
      Ascii.eqb (upperChar p) (upperChar c) && matchesHereCI pat' s'
  end.

(** [s.replace(new RegExp(pat, 'i'), pat)] for a literal pattern without
    regex or replacement metacharacters: the leftmost match only. *)
Fixpoint replaceFirstCI (pat s : string) : string :=
  if matchesHereCI pat s then (pat ++ slice (String.length pat) s)%string
  else match s with
       | EmptyString => EmptyString
       | String c s' => String c (replaceFirstCI pat s')
       end.

(** Truthiness of a value that is [null] or a string. *)
Definition truthy (v : option string) : bool :=
  match v with
  | None => false
  | Some s => negb (s =? "")
  end.

(** [x === y] for values that are [null] or a string, against a string. *)
Definition strictEq (v : option string) (s : string) : bool :=
  match v with
  | None => false
  | Some x => x =? s
  end.

(** ** Objects as dictionaries *)

Definition obj (V : Type) : Type := list (string * V).

Definition keys {V} (o : obj V) : list string := map fst o.

Fixpoint get {V} (o : obj V) (k : string) : option V :=
  match o with
  | [] => None
  | (k', v) :: o' => if k' =? k then Some v else get o' k
  end.

(** [o[k] = v]: overwrite in place, or append a new property *)
Fixpoint set {V} (o : obj V) (k : string) (v : V) : obj V :=
  match o with
  | [] => [(k, v)]
  | (k', v') :: o' =>
      if k' =? k then (k', v) :: o' else (k', v') :: set o' k v
  end.

(** ** Arrays *)

(** [arr.includes(x)] on an array of strings *)
Definition arrayIncludes (arr : list string) (x : string) : bool :=
  existsb (fun y => y =? x) arr.

(** [arr.indexOf(x)]: [-1] when absent *)
Fixpoint indexOf (arr : list string) (x : string) : Z :=
  match arr with
  | [] => (-1)%Z
  | y :: arr' =>
      if y =? x then 0%Z
      else let i := indexOf arr' x in
           if (i =? -1)%Z then (-1)%Z else (i + 1)%Z
  end.

(** [set.add(x)] on a [Set] of strings kept in insertion order *)
Definition setAdd (s : list string) (x : string) : list string :=
  if arrayIncludes s x then s else s ++ [x].

Section Sort.
Context {A : Type} (cmp : A -> A -> Z).

(** Stable insertion: [x] precedes, in the source array, every element
    of [l]; it stays in front of those it does not compare greater to. *)
Fixpoint insertSorted (x : A) (l : list A) : list A :=
  match l with
  | [] => [x]
  | y :: l' =>
      if (cmp x y <=? 0)%Z then x :: y :: l' else y :: insertSorted x l'
  end.

(** [[...l].sort(cmp)] *)
Fixpoint sort (l : list A) : list A :=
  match l with
  | [] => []
  | x :: l' => insertSorted x (sort l')
  end.
End Sort.

(** [Number(s)] for a string of decimal digits. *)
Definition digitValue (c : ascii) : Z := Z.of_nat (nat_of_ascii c - 48).

Definition toNumber (s : string) : Z :=
  fold_left (fun acc c => (10 * acc + digitValue c)%Z)
            (list_ascii_of_string s) 0%Z.

End JS.

(* ================================================================== *)
(** * Data model                                                       *)
(* ================================================================== *)

(** One entry of [links.json]. *)
Record descriptor : Type := mkDescriptor {
  table_name : string;
  description : string;
  shareable_link : string
}.

Inductive patentType : Type := granted | pregrant.

(** The object returned by [categorizeItem]:
    [{...item, displayName, type, category, contentType, year}]. *)
Record classified : Type := mkClassified {
  item : descriptor;
  displayName : string;
  type : patentType;
  category : string;
  contentType : option string;
  year : option string
}.

(** Content-type detection, shared text of both [categorizeItem]s. *)
Definition detectContentType (name : string) : option string :=
  if JS.includes name "brf_sum_text_" then Some "Brief Summary"
  else if JS.includes name "claims_" then Some "Claims"
  else if JS.includes name "detail_desc_text_" then Some "Detailed Description"
  else if JS.includes name "draw_desc_text_" then Some "Drawing Description"
  else if JS.includes name "abstract" then Some "Abstract"
  else None.

Definition detectType (name : string) : patentType :=
  if JS.startsWith name "pg_" then pregrant else granted.

Definition extractYear (name : string) (contentType : option string)
  : option string :=
  match contentType with
  | Some _ => JS.matchTrailingYear name
  | None => None
  end.

(** [capitalize]: [word.charAt(0).toUpperCase() + word.slice(1)] *)
Definition capitalize (word : string) : string :=
  (JS.toUpperCase (JS.charAt0 word) ++ JS.slice 1 word)%string.

Definition makeDisplayName (name : string) : string :=
  JS.replaceAllChar "_" " "
    (JS.join " " (map capitalize (JS.split "_" (JS.stripTypePrefix name)))).

(* ------------------------------------------------------------------ *)
(** ** src/dataProcessor.js                                            *)
(* ------------------------------------------------------------------ *)

Module DataProcessor.

Definition categoryOf (name : string) (contentType : option string) : string :=
  match contentType with
  | Some _ => "Content"
  | None =>
    if JS.includes name "inventor" || JS.includes name "attorney"
       || JS.includes name "lawyer" || JS.includes name "assignee"
       || JS.includes name "applicant" || JS.includes name "examiner"
    then "People"
    else if JS.includes name "location" || JS.includes name "geography"
    then "Geography"
    else if JS.includes name "cpc" || JS.includes name "uspc"
            || JS.includes name "ipc" || JS.includes name "wipo"
    then "Classification"
    else if JS.includes name "citation" || JS.includes name "reference"
    then "Citations"
    else if JS.includes name "gov_interest" || JS.includes name "federal"
    then "Government"
    else if JS.includes name "priority" || JS.includes name "rel_"
            || JS.includes name "term" || JS.includes name "pct"
    then "Legal"
    else if JS.includes name "persistent" || JS.includes name "crosswalk"
            || JS.includes name "granted_pgpubs"
    then "Mapping"
    else if JS.includes name "figures" || JS.includes name "botanic"
    then "Other Documentation"
    else "General"
  end.

Definition categorizeItem (it : descriptor) : classified :=
  let name := table_name it in
  let contentType := detectContentType name in
  let category := categoryOf name contentType in
  let type := detectType name in
  let year := extractYear name contentType in
  let displayName := makeDisplayName (table_name it) in
  mkClassified it displayName type category contentType year.

End DataProcessor.

(* ------------------------------------------------------------------ *)
(** ** src/PatentDownloadInterface.js                                  *)
(* ------------------------------------------------------------------ *)

Definition categoryOf (name : string) (contentType : option string) : string :=
  match contentType with
  | Some _ => "Content"
  | None =>
    if JS.includes name "inventor" || JS.includes name "attorney"
       || JS.includes name "lawyer" || JS.includes name "assignee"
       || JS.includes name "applicant" || JS.includes name "examiner"
    then "People"
    else if JS.includes name "location" || JS.includes name "geography"
    then "Geography"
    else if JS.includes name "cpc" || JS.includes name "uspc"
            || JS.includes name "ipc" || JS.includes name "wipo"
    then "Classification"
    else if JS.includes name "citation" || JS.includes name "reference"
    then "Citations"
    else if JS.includes name "gov_interest" || JS.includes name "federal"
    then "Government"
    else if JS.includes name "priority" || JS.includes name "rel_"
            || JS.includes name "term" || JS.includes name "pct"
    then "Legal"
    else if JS.includes name "persistent" || JS.includes name "crosswalk"
            || JS.includes name "granted_pgpubs"
    then "Mapping"
    else if JS.includes name "figures" || JS.includes name "botanic"
    then "Other Documentation"
    else if JS.includes name "patent" || JS.includes name "application"
    then "General"
    else "Other"
  end.

Definition categorizeItem (it : descriptor) : classified :=
  let name := table_name it in
  let contentType := detectContentType name in
  let category := categoryOf name contentType in
  let type := detectType name in
  let year := extractYear name contentType in
  let displayName := makeDisplayName (table_name it) in
  mkClassified it displayName type category contentType year.

(** A category of the result object: an array, or the object built by
    [organizeByDisambiguation] (whose [main] property exists only once an
    item was pushed to it). *)
Record groups : Type := mkGroups {
  disambiguated : list classified;
  raw : list classified;
  main : option (list classified)
}.

Inductive bucket : Type :=
| Flat (items : list classified)
| Grouped (g : groups).

(** An object with the two properties [granted] and [pregrant]. *)
Record perType (V : Type) : Type := mkPerType {
  ofGranted : V;
  ofPregrant : V
}.
Arguments mkPerType {V} _ _.
Arguments ofGranted {V} _.
Arguments ofPregrant {V} _.

(** [data[type]] *)
Definition tab {V} (d : perType V) (t : patentType) : V :=
  match t with
  | granted => ofGranted d
  | pregrant => ofPregrant d
  end.

Definition setTab {V} (d : perType V) (t : patentType) (v : V) : perType V :=
  match t with
  | granted => mkPerType v (ofPregrant d)
  | pregrant => mkPerType (ofGranted d) v
  end.

Definition taxonomy : Type := perType (JS.obj bucket).

(** [organizeByDisambiguation]: one step of the [forEach], then the loop. *)
Definition organizeStep (result : groups) (it : classified) : groups :=
  if JS.includes (table_name (item it)) "_not_disambiguated" then
    mkGroups (disambiguated result) (raw result ++ [it]) (main result)
  else if JS.includes (table_name (item it)) "_disambiguated" then
    mkGroups (disambiguated result ++ [it]) (raw result) (main result)
  else
    mkGroups (disambiguated result) (raw result)
             (Some (match main result with
                    | None => [it]
                    | Some m => m ++ [it]
                    end)).

Definition organizeByDisambiguation (items : list classified) : groups :=
  fold_left organizeStep items (mkGroups [] [] None).

Definition essentialFiles : list string :=
  [ "g_assignee_disambiguated";
    "g_inventor_disambiguated";
    "g_cpc_at_issue";
    "g_location_disambiguated";
    "g_us_patent_citation";
    "g_application";
    "g_patent";
    "pg_assignee_disambiguated";
    "pg_inventor_disambiguated";
    "pg_cpc_at_issue";
    "pg_location_disambiguated";
    "pg_published_application" ].

(** [o[k].push(x)] on an object of arrays.  The property exists at both
    uses below (it was created just before, or eagerly). *)
Definition pushAt (o : JS.obj (list classified)) (k : string) (x : classified)
  : JS.obj (list classified) :=
  match JS.get o k with
  | Some arr => JS.set o k (arr ++ [x])
  | None => o
  end.

(** The body of the first [forEach] of [processData]; until the second
    loop every property of [result[type]] is an array. *)
Definition addItem (result : perType (JS.obj (list classified)))
           (it : classified) : perType (JS.obj (list classified)) :=
  let isEssential := JS.arrayIncludes essentialFiles (table_name (item it)) in
  let r := tab result (type it) in
  let r := match JS.get r (category it) with
           | None => JS.set r (category it) []
           | Some _ => r
           end in
  let r := pushAt r (category it) it in
  let r := if isEssential then pushAt r "Essentials" it else r in
  setTab result (type it) r.

(** The body of the inner loop over [['People', 'Geography']]. *)
Definition organizeCategory (r : JS.obj bucket) (cat : string) : JS.obj bucket :=
  match JS.get r cat with
  | Some (Flat items) =>
      if (0 <? length items)%nat then
        let organized := organizeByDisambiguation items in
        if (0 <? length (disambiguated organized))%nat
           || (0 <? length (raw organized))%nat
        then JS.set r cat (Grouped organized)
        else r
      else r
  | _ => r
  end.

Definition organizeType (r : JS.obj bucket) : JS.obj bucket :=
  fold_left organizeCategory ["People"; "Geography"] r.

Definition asBuckets (o : JS.obj (list classified)) : JS.obj bucket :=
  map (fun kv => (fst kv, Flat (snd kv))) o.

Definition initialResult : perType (JS.obj (list classified)) :=
  mkPerType [("Essentials", [])] [("Essentials", [])].

Definition aggregate (categorizedItems : list classified)
  : perType (JS.obj (list classified)) :=
  fold_left addItem categorizedItems initialResult.

Definition processData (rawData : list descriptor) : taxonomy :=
  let categorizedItems := map categorizeItem rawData in
  let result := aggregate categorizedItems in
  mkPerType (organizeType (asBuckets (ofGranted result)))
            (organizeType (asBuckets (ofPregrant result))).

(** [Array.from(years).sort((a, b) => b - a)] *)
Definition sortYearsDesc (years : list string) : list string :=
  JS.sort (fun a b => (JS.toNumber b - JS.toNumber a)%Z) years.

Definition collectYear (contentTypeArg : string) (years : list string)
           (it : classified) : list string :=
  match year it with
  | Some y =>
      if JS.truthy (Some y)
         && ((contentTypeArg =? "all") || JS.strictEq (contentType it) contentTypeArg)
      then JS.setAdd years y
      else years
  | None => years
  end.

(** [getYearsForContentType]; [None] stands for the [TypeError] raised by
    [forEach] on a [Content] property that is not an array. *)
Definition getYearsForContentType (data : option taxonomy)
           (activeTab : patentType) (contentTypeArg : string)
  : option (list string) :=
  match data with
  | None => Some (sortYearsDesc [])
  | Some d =>
      match JS.get (tab d activeTab) "Content" with
      | None => Some (sortYearsDesc [])
      | Some (Flat items) =>
          Some (sortYearsDesc (fold_left (collectYear contentTypeArg) items []))
      | Some (Grouped _) => None
      end
  end.

Definition matchesSearch (search : string) (it : classified) : bool :=
  JS.includes (JS.toLowerCase (displayName it)) (JS.toLowerCase search)
  || JS.includes (JS.toLowerCase (description (item it))) (JS.toLowerCase search).

Definition keepFlat (search yearFilter contentTypeFilter cat : string)
           (it : classified) : bool :=
  let matchesYear :=
    if negb (yearFilter =? "all") && (cat =? "Content")
    then JS.strictEq (year it) yearFilter else true in
  let matchesContentType :=
    if negb (contentTypeFilter =? "all") && (cat =? "Content")
    then JS.strictEq (contentType it) contentTypeFilter else true in
  matchesSearch search it && matchesYear && matchesContentType.

Definition filterGroups (search : string) (g : groups) : groups :=
  mkGroups (filter (matchesSearch search) (disambiguated g))
           (filter (matchesSearch search) (raw g))
           (Some (match main g with
                  | Some m => filter (matchesSearch search) m
                  | None => []
                  end)).

(** The body of the [forEach] over [Object.keys(currentTabData)].  The
    key comes from the object itself, so the lookup finds a value. *)
Definition filterCategory (currentTabData : JS.obj bucket)
           (search yearFilter contentTypeFilter : string)
           (filtered : JS.obj bucket) (cat : string) : JS.obj bucket :=
  match JS.get currentTabData cat with
  | Some (Grouped g) => JS.set filtered cat (Grouped (filterGroups search g))
  | Some (Flat items) =>
      JS.set filtered cat
             (Flat (filter (keepFlat search yearFilter contentTypeFilter cat) items))
  | None => filtered
  end.

Definition filterData (data : option taxonomy) (activeTab : patentType)
           (search yearFilter contentTypeFilter : string) : JS.obj bucket :=
  match data with
  | None => []
  | Some d =>
      let currentTabData := tab d activeTab in
      fold_left (filterCategory currentTabData search yearFilter contentTypeFilter)
                (JS.keys currentTabData) []
  end.

Definition categoryOrder : list string :=
  [ "Essentials"; "General"; "People"; "Classification"; "Legal";
    "Government"; "Geography"; "Other Documentation"; "Citations";
    "Mapping"; "Other"; "Content" ].

Record categoryCount : Type := mkCategoryCount {
  name : string;
  count : nat
}.

(** The comparator handed to [sort] by [sortCategories]. *)
Definition compareCategories (a b : categoryCount) : Z :=
  let aIndex := JS.indexOf categoryOrder (name a) in
  let bIndex := JS.indexOf categoryOrder (name b) in
  if (aIndex =? -1)%Z && (bIndex =? -1)%Z then 0%Z
  else if (aIndex =? -1)%Z then 1%Z
  else if (bIndex =? -1)%Z then (-1)%Z
  else (aIndex - bIndex)%Z.

Definition sortCategories (categories : list categoryCount) : list categoryCount :=
  JS.sort compareCategories categories.

Definition countBucket (categoryData : bucket) : nat :=
  match categoryData with
  | Flat items => length items
  | Grouped g =>
      length (disambiguated g) + length (raw g)
      + match main g with Some m => length m | None => 0 end
  end.

Definition categoryWithCount (filteredData : JS.obj bucket) (cat : string)
  : categoryCount :=
  mkCategoryCount cat
    (match JS.get filteredData cat with
     | Some categoryData => countBucket categoryData
     | None => 0
     end).

(** [filteredData] is always an object, so the guard on it never fires. *)
Definition getCategoriesWithCounts (filteredData : JS.obj bucket)
  : list categoryCount :=
  sortCategories
    (filter (fun cat => (0 <? count cat)%nat)
            (map (categoryWithCount filteredData) (JS.keys filteredData))).

Definition abbreviations : list string :=
  ["PCT"; "WIPO"; "CPC"; "IPC"; "USPC"; "US"].

Definition formatDisplayName (nm : string) : string :=
  fold_left (fun displayName abbr => JS.replaceFirstCI abbr displayName)
            abbreviations nm.

(* ================================================================== *)
(** * The specification's wording, as definitions                      *)
(* ================================================================== *)

Module Spec.

(** Section 4.1, content-type table, in its order. *)
Definition contentTypePatterns : list (string * string) :=
  [ ("brf_sum_text_", "Brief Summary");
    ("claims_", "Claims");
    ("detail_desc_text_", "Detailed Description");
    ("draw_desc_text_", "Drawing Description");
    ("abstract", "Abstract") ].

(** First row of an ordered table whose pattern the identifier contains. *)
Fixpoint firstMatch (id : string) (table : list (string * string))
  : option string :=
  match table with
  | [] => None
  | (pat, label) :: rest =>
      if JS.includes id pat then Some label else firstMatch id rest
  end.

(** Section 4.1, functional-area rules 1 to 8. *)
Definition areaRules1to8 : list (list string * string) :=
  [ (["inventor"; "attorney"; "lawyer"; "assignee"; "applicant"; "examiner"],
     "People");
    (["location"; "geography"], "Geography");
    (["cpc"; "uspc"; "ipc"; "wipo"], "Classification");
    (["citation"; "reference"], "Citations");
    (["gov_interest"; "federal"], "Government");
    (["priority"; "rel_"; "term"; "pct"], "Legal");
    (["persistent"; "crosswalk"; "granted_pgpubs"], "Mapping");
    (["figures"; "botanic"], "Other Documentation") ].

Definition containsAny (id : string) (pats : list string) : bool :=
  existsb (JS.includes id) pats.

Definition matchesNoContentPattern (id : string) : bool :=
  negb (containsAny id (map fst contentTypePatterns)).

Definition matchesNoRule1to8 (id : string) : bool :=
  forallb (fun rule => negb (containsAny id (fst rule))) areaRules1to8.

Definition decimalDigits : list ascii :=
  ["0"; "1"; "2"; "3"; "4"; "5"; "6"; "7"; "8"; "9"]%char.

Definition fourDigits (y : string) : Prop :=
  String.length y = 4
  /\ Forall (fun c => In c decimalDigits) (list_ascii_of_string y).

(** [y] is the trailing year of [id]: [id] ends with an underscore
    followed by the four digits [y]. *)
Definition trailingYear (id y : string) : Prop :=
  exists p, id = (p ++ "_" ++ y)%string /\ fourDigits y.

(** Section 4.7: case-insensitive substring match on the display name or
    the description. *)
Definition textMatch (query : string) (it : classified) : bool :=
  JS.includes (JS.toLowerCase (displayName it)) (JS.toLowerCase query)
  || JS.includes (JS.toLowerCase (description (item it))) (JS.toLowerCase query).

Definition facetMatch (facet : string) (value : option string) : bool :=
  (facet =? "all") || match value with Some v => v =? facet | None => false end.

Definition flatKeep (query yearFilter contentTypeFilter cat : string)
           (it : classified) : bool :=
  textMatch query it
  && (if cat =? "Content"
      then facetMatch yearFilter (year it)
           && facetMatch contentTypeFilter (contentType it)
      else true).

(** The residual sub-sequence of a grouped category. *)
Definition mainItems (g : groups) : list classified :=
  match main g with Some m => m | None => [] end.

(** What a category holds, whatever its representation: a flat sequence,
    or the three sub-sequences disambiguated / raw / main. *)
Definition contents (b : bucket)
  : list classified + (list classified * list classified * list classified) :=
  match b with
  | Flat items => inl items
  | Grouped g => inr (disambiguated g, raw g, mainItems g)
  end.

Definition filterContents (query yearFilter contentTypeFilter cat : string)
           (b : bucket)
  : list classified + (list classified * list classified * list classified) :=
  match b with
  | Flat items =>
      inl (filter (flatKeep query yearFilter contentTypeFilter cat) items)
  | Grouped g =>
      inr (filter (textMatch query) (disambiguated g),
           filter (textMatch query) (raw g),
           filter (textMatch query) (mainItems g))
  end.

Definition isFlat (b : bucket) : bool :=
  match b with Flat _ => true | Grouped _ => false end.

(** Section 4.4 *)
Definition isRaw (it : classified) : bool :=
  JS.includes (table_name (item it)) "_not_disambiguated".

Definition isDisambiguated (it : classified) : bool :=
  negb (isRaw it) && JS.includes (table_name (item it)) "_disambiguated".

Definition isMain (it : classified) : bool :=
  negb (isRaw it) && negb (isDisambiguated it).

Definition typeEqb (a b : patentType) : bool :=
  match a, b with
  | granted, granted | pregrant, pregrant => true
  | _, _ => false
  end.

(** The classified items of patent type [t] whose category is [c]. *)
Definition ofCategory (t : patentType) (c : string) (its : list classified)
  : list classified :=
  filter (fun x => typeEqb (type x) t && (category x =? c)) its.

Definition ofType (t : patentType) (its : list classified) : list classified :=
  filter (fun x => typeEqb (type x) t) its.

Definition isEssential (it : classified) : bool :=
  existsb (fun e => e =? table_name (item it)) essentialFiles.

(** The items held by a category of a taxonomy, absent categories
    holding none. *)
Definition bucketItems (ob : option bucket) : list classified :=
  match ob with
  | None => []
  | Some (Flat items) => items
  | Some (Grouped g) => disambiguated g ++ raw g ++ mainItems g
  end.

(** Section 4.8: per-category count. *)
Definition itemCount (b : bucket) : nat :=
  match b with
  | Flat items => length items
  | Grouped g => length (disambiguated g) + length (raw g) + length (mainItems g)
  end.

(** Sum of the per-category counts over every category but Essentials. *)
Definition naturalTotal (r : JS.obj bucket) : nat :=
  list_sum (map (fun kv => itemCount (snd kv))
                (filter (fun kv => negb (fst kv =? "Essentials")) r)).

(** Section 4.8: the place of a category in the fixed priority sequence;
    a category absent from it gets the length of the sequence. *)
Fixpoint position (l : list string) (x : string) : nat :=
  match l with
  | [] => 0
  | y :: l' => if y =? x then 0 else S (position l' x)
  end.

Definition prioritySequence : list string :=
  [ "Essentials"; "General"; "People"; "Classification"; "Legal";
    "Government"; "Geography"; "Other Documentation"; "Citations";
    "Mapping"; "Other"; "Content" ].

Definition priority (cat : string) : nat := position prioritySequence cat.

Definition listed (cat : string) : bool :=
  (priority cat <? length prioritySequence)%nat.

Definition hasItems (fd : JS.obj bucket) (cat : string) : bool :=
  match JS.get fd cat with
  | Some b => (0 <? itemCount b)%nat
  | None => false
  end.

(** Section 4.2 *)
Definition stripPrefix (id : string) : string :=
  if prefix "g_" id then JS.slice 2 id
  else if prefix "pg_" id then JS.slice 3 id
  else id.

Definition capitalizeFirst (w : string) : string :=
  match w with
  | EmptyString => EmptyString
  | String c w' => String (JS.upperChar c) w'
  end.

Definition acronyms : list string :=
  ["PCT"; "WIPO"; "CPC"; "IPC"; "USPC"; "US"].

(** Two strings equal up to the case of their letters. *)
Definition ciEqual (a b : string) : Prop :=
  JS.toUpperCase a = JS.toUpperCase b.

(** [pat] occurs in [s], ignoring case, right after the prefix [pre]. *)
Definition occursAfter (pat s pre : string) : Prop :=
  exists m post, s = (pre ++ m ++ post)%string /\ ciEqual m pat.

(** [s'] is [s] with its first case-insensitive occurrence of [pat]
    replaced by [pat]; [s] itself when [pat] does not occur. *)
Definition firstOccurrenceReplaced (pat s s' : string) : Prop :=
  (exists pre m post,
      s = (pre ++ m ++ post)%string /\ ciEqual m pat
      /\ (forall pre', occursAfter pat s pre' ->
                       String.length pre <= String.length pre')
      /\ s' = (pre ++ pat ++ post)%string)
  \/ ((forall pre, ~ occursAfter pat s pre) /\ s' = s).

(** The acronyms are handled one after the other, each on the result of
    the previous one. *)
Fixpoint acronymsFixed (acrs : list string) (s s' : string) : Prop :=
  match acrs with
  | [] => s' = s
  | a :: rest =>
      exists mid, firstOccurrenceReplaced a s mid /\ acronymsFixed rest mid s'
  end.

Definition plainDisplayName (id : string) : string :=
  JS.join " " (map capitalizeFirst (JS.split "_" (stripPrefix id))).

(** Section 4.6: the years present in a type's Content bucket. *)
Definition contentYear (r : JS.obj bucket) (y : string) : Prop :=
  exists it, In it (bucketItems (JS.get r "Content")) /\ year it = Some y.

(** A well-formed type of a taxonomy, as far as the facets go: Content is
    a flat bucket when present, and a year is four digits. *)
Definition contentWellFormed (r : JS.obj bucket) : bool :=
  match JS.get r "Content" with
  | None => true
  | Some (Flat items) =>
      forallb (fun it => match year it with
                         | None => true
                         | Some y => (String.length y =? 4)%nat && JS.allDigits y
                         end) items
  | Some (Grouped _) => false
  end.

(** What section 4.4 makes of the items of a People or Geography
    category: nothing when there are none, the flat sequence when no item
    is disambiguated or raw, the three sub-sequences otherwise. *)
Definition splitContents (l : list classified)
  : option (list classified
            + (list classified * list classified * list classified)) :=
  match l with
  | [] => None
  | _ :: _ =>
      match filter isDisambiguated l, filter isRaw l with
      | [], [] => Some (inl l)
      | _, _ => Some (inr (filter isDisambiguated l, filter isRaw l,
                           filter isMain l))
      end
  end.

End Spec.

(* ================================================================== *)
(** * Auxiliary functions of the proofs                                *)
(* ================================================================== *)

(** The effect of [organizeCategory] on the value of its category. *)
Definition regroup (b : bucket) : bucket :=
  match b with
  | Flat items =>
      let organized := organizeByDisambiguation items in
      if (0 <? length (disambiguated organized))%nat
         || (0 <? length (raw organized))%nat
      then Grouped organized
      else Flat items
  | Grouped g => Grouped g
  end.

(** A string on which [replace(/_/g, ' ')] changes nothing. *)
Definition noUnderscore (w : string) : Prop :=
  JS.replaceAllChar "_" " " w = w.

(** The value [filterCategory] stores for a category. *)
Definition filterBucket (search yearFilter contentTypeFilter cat : string)
           (b : bucket) : bucket :=
  match b with
  | Grouped g => Grouped (filterGroups search g)
  | Flat items =>
      Flat (filter (keepFlat search yearFilter contentTypeFilter cat) items)
  end.

(** Sum of a measure over the properties of an object, Essentials apart. *)
Definition totalOutsideEssentials {V} (m : V -> nat) (o : JS.obj V) : nat :=
  list_sum (map (fun kv => m (snd kv))
                (filter (fun kv => negb (fst kv =? "Essentials")) o)).

(** The value [aggregate] leaves under key [c] for patent type [t]. *)
Definition aggregated (t : patentType) (c : string) (its : list classified)
  : option (list classified) :=
  if c =? "Essentials"
  then Some (filter (fun x => Spec.typeEqb (type x) t && Spec.isEssential x) its)
  else match Spec.ofCategory t c its with
       | [] => None
       | l => Some l
       end.

(* ================================================================== *)
(** * Further functions of the sources                                 *)
(* ================================================================== *)

(** [arr.sort()] on an array of strings: the default order compares the
    strings code unit by code unit. *)
Definition defaultCompare (a b : string) : Z :=
  match String.compare a b with
  | Lt => (-1)%Z
  | Eq => 0%Z
  | Gt => 1%Z
  end.

Definition sortDefault (arr : list string) : list string :=
  JS.sort defaultCompare arr.

(** [if (item.year) years.add(item.year)] *)
Definition collectAnyYear (years : list string) (it : classified) : list string :=
  match year it with
  | Some y => if JS.truthy (Some y) then JS.setAdd years y else years
  | None => years
  end.

(** [if (item.contentType) contentTypes.add(item.contentType)] *)
Definition collectContentType (contentTypes : list string) (it : classified)
  : list string :=
  match contentType it with
  | Some ct => if JS.truthy (Some ct) then JS.setAdd contentTypes ct
               else contentTypes
  | None => contentTypes
  end.

(* ------------------------------------------------------------------ *)
(** ** src/dataProcessor.js: [processData] and the facet lists         *)
(* ------------------------------------------------------------------ *)

Module DataProcessorLib.

(** The body of the [forEach] of [processData]. *)
Definition addItem (result : perType (JS.obj (list classified)))
           (it : classified) : perType (JS.obj (list classified)) :=
  let r := tab result (type it) in
  let r := match JS.get r (category it) with
           | None => JS.set r (category it) []
           | Some _ => r
           end in
  setTab result (type it) (pushAt r (category it) it).

Definition processData (rawData : list descriptor)
  : perType (JS.obj (list classified)) :=
  let categorizedItems := map DataProcessor.categorizeItem rawData in
  fold_left addItem categorizedItems (mkPerType [] []).

(** The body of the loop over [['granted', 'pregrant']], for a
    per-item action [f] on the set being filled. *)
Definition overContent (f : list string -> classified -> list string)
           (data : perType (JS.obj (list classified)))
           (acc : list string) (t : patentType) : list string :=
  match JS.get (tab data t) "Content" with
  | Some items => fold_left f items acc
  | None => acc
  end.

Definition getAvailableYears (data : perType (JS.obj (list classified)))
  : list string :=
  sortYearsDesc
    (fold_left (overContent collectAnyYear data) [granted; pregrant] []).

Definition getContentTypes (data : perType (JS.obj (list classified)))
  : list string :=
  sortDefault
    (fold_left (overContent collectContentType data) [granted; pregrant] []).

End DataProcessorLib.

(* ------------------------------------------------------------------ *)
(** ** src/PatentDownloadInterface.js: facet lists                     *)
(* ------------------------------------------------------------------ *)

(** [if (data[type] && data[type].Content) data[type].Content.forEach(f)];
    [None] stands for the [TypeError] of [forEach] on a value that is not
    an array. *)
Definition overContent (f : list string -> classified -> list string)
           (data : taxonomy) (acc : option (list string)) (t : patentType)
  : option (list string) :=
  match acc with
  | None => None
  | Some s =>
      match JS.get (tab data t) "Content" with
      | None => Some s
      | Some (Flat items) => Some (fold_left f items s)
      | Some (Grouped _) => None
      end
  end.

Definition getAvailableYears (data : taxonomy) : option (list string) :=
  option_map sortYearsDesc
    (fold_left (overContent collectAnyYear data) [granted; pregrant] (Some [])).

Definition getContentTypes (data : taxonomy) : option (list string) :=
  option_map sortDefault
    (fold_left (overContent collectContentType data) [granted; pregrant]
               (Some [])).

(* ------------------------------------------------------------------ *)
(** ** src/PatentDownloadInterface.js: person types and matched pairs  *)
(* ------------------------------------------------------------------ *)

Definition getPersonType (tableName : string) : string :=
  if JS.includes tableName "assignee" then "Assignee"
  else if JS.includes tableName "attorney" || JS.includes tableName "lawyer"
  then "Attorney"
  else if JS.includes tableName "inventor" then "Inventor"
  else if JS.includes tableName "applicant" then "Applicant"
  else if JS.includes tableName "examiner" then "Examiner"
  else if JS.includes tableName "persistent" then "Persistent"
  else "Other".

Module People.

Record pair : Type := mkPair {
  personType : string;
  disambiguated : list classified;
  raw : list classified;
  main : list classified
}.

(** The body of the [forEach] of [groupFilesByType]. *)
Definition groupStep (grouped : JS.obj (list classified)) (file : classified)
  : JS.obj (list classified) :=
  let personType := getPersonType (table_name (item file)) in
  let grouped := match JS.get grouped personType with
                 | None => JS.set grouped personType []
                 | Some _ => grouped
                 end in
  pushAt grouped personType file.

Definition groupFilesByType (files : list classified)
  : JS.obj (list classified) :=
  fold_left groupStep files [].

(** [groups[personType] || []] *)
Definition orEmpty (groups : JS.obj (list classified)) (personType : string)
  : list classified :=
  match JS.get groups personType with
  | Some files => files
  | None => []
  end.

Definition createMatchedPairs (disambiguated raw main : list classified)
  : list pair :=
  let disGroups := groupFilesByType disambiguated in
  let rawGroups := groupFilesByType raw in
  let mainGroups := groupFilesByType main in
  let allPersonTypes :=
    sortDefault
      (fold_left JS.setAdd
                 (JS.keys disGroups ++ JS.keys rawGroups ++ JS.keys mainGroups)
                 []) in
  map (fun personType =>
         mkPair personType (orEmpty disGroups personType)
                (orEmpty rawGroups personType)
                (orEmpty mainGroups personType))
      allPersonTypes.

End People.

(** The "Other Files" block under the pairs:
    [files.main.filter(file => getPersonType(file.table_name) === 'Other')],
    nothing when [files.main] is missing. *)
Definition otherFiles (files : groups) : list classified :=
  match main files with
  | Some m =>
      filter (fun file => getPersonType (table_name (item file)) =? "Other") m
  | None => []
  end.

(* ------------------------------------------------------------------ *)
(** ** src/PatentDownloadInterface.js: content groups                  *)
(* ------------------------------------------------------------------ *)

(** The body of the [forEach] of [groupContentByType], for content types
    that name no member of [Object.prototype] and are not integer-like
    (the labels of the classifier and "Other"): [grouped[key]] is then the
    own property or [undefined], and the keys keep their insertion order. *)
Definition groupContentStep (grouped : JS.obj (list classified))
           (it : classified) : JS.obj (list classified) :=
  let key := match contentType it with
             | Some ct => if JS.truthy (Some ct) then ct else "Other"
             | None => "Other"
             end in
  let grouped := match JS.get grouped key with
                 | None => JS.set grouped key []
                 | Some _ => grouped
                 end in
  pushAt grouped key it.

Definition groupContentByType (contentItems : list classified)
  : JS.obj (list classified) :=
  fold_left groupContentStep contentItems [].

Definition contentTypeOrder : list string :=
  [ "Abstract"; "Brief Summary"; "Claims"; "Detailed Description";
    "Drawing Description"; "Other" ].

(** [order.indexOf(x) === -1 ? 999 : order.indexOf(x)] *)
Definition orderIndex (x : string) : Z :=
  if (JS.indexOf contentTypeOrder x =? -1)%Z then 999%Z
  else JS.indexOf contentTypeOrder x.

(** [Object.entries(groupedContent).sort(...)] *)
Definition sortContentTypes (groupedContent : JS.obj (list classified))
  : list (string * list classified) :=
  JS.sort (fun a b => (orderIndex (fst a) - orderIndex (fst b))%Z)
          groupedContent.

(* ------------------------------------------------------------------ *)
(** ** src/PatentDownloadInterface.js: totals and view state           *)
(* ------------------------------------------------------------------ *)

(** [getTotalFiles]: the [reduce] over [Object.keys(filteredData)]. *)
Definition getTotalFiles (filteredData : JS.obj bucket) : nat :=
  fold_left (fun sum cat =>
               match JS.get filteredData cat with
               | Some categoryData => sum + countBucket categoryData
               | None => sum
               end)
            (JS.keys filteredData) 0.

Module View.

(** The state variables of the component that the filters depend on. *)
Record state : Type := mkState {
  activeTab : patentType;
  search : string;
  yearFilter : string;
  contentTypeFilter : string;
  filteredYears : list string;
  expandedGroups : JS.obj bool
}.

Definition handleTabChange (t : patentType) (st : state) : state :=
  mkState t (search st) "all" "all" (filteredYears st) (expandedGroups st).

Definition handleContentTypeChange (ct : string) (st : state) : state :=
  mkState (activeTab st) (search st) (yearFilter st) ct (filteredYears st)
          (expandedGroups st).

(** [!prev[groupName]] where the property is missing or a boolean, that
    is for a group name that names no member of [Object.prototype] (the
    category names). *)
Definition notProp (prev : JS.obj bool) (groupName : string) : bool :=
  match JS.get prev groupName with
  | Some b => negb b
  | None => true
  end.

(** [{...prev, [groupName]: !prev[groupName]}] *)
Definition toggleGroup (groupName : string) (st : state) : state :=
  mkState (activeTab st) (search st) (yearFilter st) (contentTypeFilter st)
          (filteredYears st)
          (JS.set (expandedGroups st) groupName
                  (notProp (expandedGroups st) groupName)).

(** [expandedGroups[category.name] === true] *)
Definition isExpanded (st : state) (cat : string) : bool :=
  match JS.get (expandedGroups st) cat with
  | Some b => b
  | None => false
  end.

(** The expanded state set after loading: both loops over
    [Object.keys(processedData.granted)] and [...pregrant]. *)
Definition initialExpandedState (processedData : taxonomy) : JS.obj bool :=
  let expand := fun (st : JS.obj bool) (cat : string) =>
                  JS.set st cat (negb (cat =? "Content")) in
  fold_left expand (JS.keys (ofPregrant processedData))
            (fold_left expand (JS.keys (ofGranted processedData)) []).

(** The effect that follows a change of the content-type filter, of the
    data, of the tab or of the year filter.  [None] stands for the
    [TypeError] of [getYearsForContentType]. *)
Definition yearsEffect (data : option taxonomy) (st : state) : option state :=
  match data with
  | None => Some st
  | Some d =>
      match getYearsForContentType (Some d) (activeTab st)
                                   (contentTypeFilter st) with
      | None => None
      | Some years =>
          Some (mkState (activeTab st) (search st)
                        (if negb (yearFilter st =? "all")
                            && negb (JS.arrayIncludes years (yearFilter st))
                         then "all" else yearFilter st)
                        (contentTypeFilter st) years (expandedGroups st))
      end
  end.

(** [filterData()] in the state [st]. *)
Definition filteredData (data : option taxonomy) (st : state) : JS.obj bucket :=
  filterData data (activeTab st) (search st) (yearFilter st)
             (contentTypeFilter st).

End View.

(* ------------------------------------------------------------------ *)
(** ** Auxiliary notions of the further proofs                         *)
(* ------------------------------------------------------------------ *)

(** The strings of a list are in strictly ascending default order. *)
Definition ascending (l : list string) : Prop :=
  StronglySorted (fun a b => String.compare a b = Lt) l.

(** The years of a list are in strictly descending numeric order. *)
Definition descendingYears (l : list string) : Prop :=
  StronglySorted (fun a b => (JS.toNumber b < JS.toNumber a)%Z) l.

(** [y] is the year of an item of the Content bucket of [r]. *)
Definition yearIn (r : JS.obj bucket) (y : string) : Prop :=
  exists it, In it (Spec.bucketItems (JS.get r "Content")) /\ year it = Some y.

(** One step of the grouping loops of the sources: give the key an
    array if it has none, then push the item to it. *)
Definition groupByStep (key : classified -> string)
           (o : JS.obj (list classified)) (x : classified)
  : JS.obj (list classified) :=
  pushAt (match JS.get o (key x) with
          | None => JS.set o (key x) []
          | Some _ => o
          end) (key x) x.

(** The items of a list that have a given key, in their order. *)
Definition selected (key : classified -> string) (k : string)
           (xs : list classified) : list classified :=
  filter (fun x => key x =? k) xs.

Definition personTypeOf (file : classified) : string :=
  getPersonType (table_name (item file)).

(** The key under which [groupContentByType] files an item. *)
Definition contentKey (it : classified) : string :=
  match contentType it with
  | Some ct => if JS.truthy (Some ct) then ct else "Other"
  | None => "Other"
  end.

(** Sum of a measure over all the properties of an object. *)
Definition totalOf {V} (m : V -> nat) (o : JS.obj V) : nat :=
  list_sum (map (fun kv => m (snd kv)) o).

(** What the loops of the facet functions add to their set for an
    item, if anything. *)
Definition yearPick (contentTypeArg : string) (it : classified)
  : option string :=
  match year it with
  | Some y =>
      if JS.truthy (Some y)
         && ((contentTypeArg =? "all")
             || JS.strictEq (contentType it) contentTypeArg)
      then Some y else None
  | None => None
  end.

Definition anyYearPick (it : classified) : option string :=
  match year it with
  | Some y => if JS.truthy (Some y) then Some y else None
  | None => None
  end.

Definition contentTypePick (it : classified) : option string :=
  match contentType it with
  | Some ct => if JS.truthy (Some ct) then Some ct else None
  | None => None
  end.

(** The Content items of a patent type of a taxonomy. *)
Definition contentItems (T : taxonomy) (t : patentType) : list classified :=
  Spec.bucketItems (JS.get (tab T t) "Content").

(** The Content property of a patent type is an array, or is missing. *)
Definition contentIsArray (T : taxonomy) (t : patentType) : bool :=
  match JS.get (tab T t) "Content" with
  | Some (Grouped _) => false
  | _ => true
  end.

(** The characters of a string are all ASCII. *)
Definition isAscii (s : string) : bool :=
  forallb (fun c => (nat_of_ascii c <? 128)%nat) (list_ascii_of_string s).

(** The content types of the files are the labels that
    [sortContentTypes] knows, a missing one counting as "Other". *)
Definition knownContentTypes (files : list classified) : bool :=
  forallb (fun it => JS.arrayIncludes contentTypeOrder (contentKey it)) files.

(* ================================================================== *)
(** * The classifier                                                   *)
(* ================================================================== *)

Section Classifier.

Local Ltac split_false H :=
  repeat match type of H with
         | (_ || _) = false => apply orb_false_iff in H; destruct H as [? H]
         | (_ && _) = true => apply andb_true_iff in H; destruct H as [? H]
         | negb _ = true => apply negb_true_iff in H
         end.

Local Ltac use_false :=
  repeat match goal with
         | E : JS.includes _ _ = false |- _ => rewrite E; clear E
         end.

Lemma isDigit_decimal (c : ascii) :
  JS.isDigit c = true <-> In c Spec.decimalDigits.
Proof.
  destruct c as [[] [] [] [] [] [] [] []]; vm_compute; split; intros H;
    solve [ discriminate | reflexivity | tauto
          | repeat (destruct H as [H | H]; [discriminate H |]); destruct H ].
Qed.

Lemma allDigits_Forall (s : string) :
  JS.allDigits s = true
  <-> Forall (fun c => In c Spec.decimalDigits) (list_ascii_of_string s).
Proof.
  induction s as [| c s IH]; simpl.
  - split; [constructor | reflexivity].
  - rewrite andb_true_iff, IH, isDigit_decimal. split.
    + intros [? ?]. now constructor.
    + intros H. inversion H; subst. now split.
Qed.

Lemma length_append (a b : string) :
  String.length (a ++ b)%string = String.length a + String.length b.
Proof. induction a; simpl; congruence. Qed.

Lemma fourDigits_bool (y : string) :
  Spec.fourDigits y
  <-> ((String.length y =? 4)%nat && JS.allDigits y = true).
Proof.
  unfold Spec.fourDigits.
  rewrite andb_true_iff, Nat.eqb_eq, allDigits_Forall. tauto.
Qed.

(** The regular expression [/_(\d{4})$/] captures [y] exactly when the
    name ends with an underscore and the four digits [y]. *)
Lemma matchTrailingYear_spec (s y : string) :
  JS.matchTrailingYear s = Some y <-> Spec.trailingYear s y.
Proof.
  unfold Spec.trailingYear. split.
  - induction s as [| c s IH]; simpl; [discriminate |].
    destruct (Ascii.eqb c "_" && (String.length s =? 4)%nat && JS.allDigits s)
      eqn:E.
    + intros [= ->]. rewrite <- andb_assoc in E.
      apply andb_true_iff in E as [Ec E].
      apply Ascii.eqb_eq in Ec. subst c.
      exists EmptyString. split; [reflexivity | now apply fourDigits_bool].
    + intros H. destruct (IH H) as [p [-> Hy]].
      exists (String c p). split; [reflexivity | exact Hy].
  - intros [p [-> Hy]]. apply fourDigits_bool in Hy.
    induction p as [| c p IH]; simpl.
    + now rewrite Hy.
    + replace (String.length (p ++ String "_" y) =? 4)%nat with false.
      * now rewrite andb_false_r.
      * symmetry. apply Nat.eqb_neq. rewrite length_append. simpl.
        apply andb_true_iff in Hy as [Hl _]. apply Nat.eqb_eq in Hl. lia.
Qed.

Lemma detectContentType_firstMatch (nm : string) :
  detectContentType nm = Spec.firstMatch nm Spec.contentTypePatterns.
Proof. reflexivity. Qed.

Lemma category_listed (it : descriptor) :
  In (category (categorizeItem it)) categoryOrder.
Proof.
  unfold categorizeItem, categoryOf; simpl.
  destruct (detectContentType (table_name it)); simpl; [tauto |].
  repeat match goal with
         | |- context [if ?b then _ else _] => destruct b; simpl; [tauto |]
         end.
  tauto.
Qed.

Lemma category_not_Essentials (it : descriptor) :
  category (categorizeItem it) <> "Essentials".
Proof.
  unfold categorizeItem, categoryOf; simpl.
  destruct (detectContentType (table_name it)); simpl; [discriminate |].
  repeat match goal with
         | |- context [if ?b then _ else _] => destruct b; simpl; [discriminate |]
         end.
  discriminate.
Qed.

(** The worked examples of section 8 of the specification. *)
Example classify_inventor_disambiguated :
  let c := categorizeItem (mkDescriptor "g_inventor_disambiguated" "" "") in
  (type c, category c, contentType c, displayName c)
  = (granted, "People", None, "Inventor Disambiguated").
Proof. vm_compute. reflexivity. Qed.

Example classify_pg_claims_2020 :
  let c := categorizeItem (mkDescriptor "pg_claims_2020" "" "") in
  (type c, category c, contentType c, year c)
  = (pregrant, "Content", Some "Claims", Some "2020").
Proof. vm_compute. reflexivity. Qed.

Example classify_brf_sum_text_2019 :
  let c := categorizeItem (mkDescriptor "g_brf_sum_text_2019" "" "") in
  (category c, contentType c, year c)
  = ("Content", Some "Brief Summary", Some "2019").
Proof. vm_compute. reflexivity. Qed.

Example classify_cpc_at_issue :
  let c := categorizeItem (mkDescriptor "g_cpc_at_issue" "" "") in
  (category c, contentType c, year c, Spec.isEssential c)
  = ("Classification", None, None, true).
Proof. vm_compute. reflexivity. Qed.

(** A malformed year segment leaves the year unset. *)
Example classify_five_digit_year :
  year (categorizeItem (mkDescriptor "g_claims_20201" "" "")) = None.
Proof. vm_compute. reflexivity. Qed.

(** C1, as the code has it.  When the identifier contains none of the
    five content-type patterns and none of the patterns of the
    functional-area rules 1 to 8, the classifier of the interface answers
    "General" if the identifier contains "patent" or "application", and
    "Other" if it does not; the classifier of dataProcessor.js, whose chain
    ends with [else General], answers "General" in both cases. *)
Theorem categorize_fallback_by_classifier (it : descriptor) :
  Spec.matchesNoContentPattern (table_name it) = true ->
  Spec.matchesNoRule1to8 (table_name it) = true ->
  category (categorizeItem it)
  = (if JS.includes (table_name it) "patent"
        || JS.includes (table_name it) "application"
     then "General" else "Other")
  /\ category (DataProcessor.categorizeItem it) = "General".
Proof.
  intros Hc Hr.
  unfold Spec.matchesNoContentPattern, Spec.containsAny in Hc.
  unfold Spec.matchesNoRule1to8, Spec.containsAny in Hr.
  cbn [map fst Spec.contentTypePatterns existsb] in Hc.
  cbn [forallb fst Spec.areaRules1to8 existsb] in Hr.
  split_false Hc. split_false Hr.
  repeat match goal with
         | E : negb _ = true |- _ => split_false E
         end.
  split.
  - unfold categorizeItem, categoryOf, detectContentType. cbn [category].
    use_false. reflexivity.
  - unfold DataProcessor.categorizeItem, DataProcessor.categoryOf,
      detectContentType.
    cbn [category]. use_false. reflexivity.
Qed.

Lemma categorize_fallback_by_classifier_witness :
  (category (categorizeItem (mkDescriptor "g_patent" "Patent data" "u"))
   = "General"
   /\ category (DataProcessor.categorizeItem
                  (mkDescriptor "g_patent" "Patent data" "u")) = "General")
  /\ (category (categorizeItem (mkDescriptor "g_misc" "Misc data" "u"))
      = "Other"
      /\ category (DataProcessor.categorizeItem
                     (mkDescriptor "g_misc" "Misc data" "u")) = "General").
Proof.
  split.
  - apply (categorize_fallback_by_classifier
             (mkDescriptor "g_patent" "Patent data" "u")); reflexivity.
  - apply (categorize_fallback_by_classifier
             (mkDescriptor "g_misc" "Misc data" "u")); reflexivity.
Defined.

(** C1, as stated, fails for the classifier of dataProcessor.js: the
    identifier "g_misc" is outside every pattern and contains neither
    "patent" nor "application", and is classified "General", not "Other". *)
Lemma dataProcessor_fallback_is_never_Other :
  ~ (forall it : descriptor,
        Spec.matchesNoContentPattern (table_name it) = true ->
        Spec.matchesNoRule1to8 (table_name it) = true ->
        category (DataProcessor.categorizeItem it)
        = if JS.includes (table_name it) "patent"
             || JS.includes (table_name it) "application"
          then "General" else "Other").
Proof.
  intros H.
  specialize (H (mkDescriptor "g_misc" "Misc data" "u") eq_refl eq_refl).
  discriminate H.
Qed.

(** C2.  Both classifiers take the content type from the first of the
    five patterns, in table order, that the identifier contains.  When a
    content type is assigned the category is "Content" and the year is the
    trailing underscore-and-four-digits suffix exactly when there is one;
    without a content type no year is set. *)
Theorem content_type_first_match_and_year (it : descriptor) :
  let c := categorizeItem it in
  let c' := DataProcessor.categorizeItem it in
  contentType c = Spec.firstMatch (table_name it) Spec.contentTypePatterns
  /\ contentType c' = contentType c
  /\ year c' = year c
  /\ match contentType c with
     | Some _ =>
         category c = "Content" /\ category c' = "Content"
         /\ (forall y, year c = Some y <-> Spec.trailingYear (table_name it) y)
         /\ ((forall y, ~ Spec.trailingYear (table_name it) y) -> year c = None)
     | None => year c = None
     end.
Proof.
  cbn zeta. unfold categorizeItem, DataProcessor.categorizeItem.
  cbn [contentType year category].
  rewrite <- detectContentType_firstMatch.
  repeat split.
  destruct (detectContentType (table_name it)) as [ct |]; cbn; [| reflexivity].
  repeat split.
  - apply matchTrailingYear_spec.
  - apply matchTrailingYear_spec.
  - intros Hno. destruct (JS.matchTrailingYear (table_name it)) as [y |] eqn:E;
      [| reflexivity].
    exfalso. apply (Hno y). now apply matchTrailingYear_spec.
Qed.

(** C10, as the code has it.  The two [categorizeItem]s agree on the
    descriptor, the display name, the patent type, the content type and
    the year; on the category they agree except where the interface
    answers "Other", where [dataProcessor.js] answers "General". *)
Theorem categorizeItem_versions_differ_only_on_Other (it : descriptor) :
  let c := categorizeItem it in
  let c' := DataProcessor.categorizeItem it in
  item c' = item c
  /\ displayName c' = displayName c
  /\ type c' = type c
  /\ contentType c' = contentType c
  /\ year c' = year c
  /\ category c' = if category c =? "Other" then "General" else category c.
Proof.
  cbn zeta. unfold categorizeItem, DataProcessor.categorizeItem.
  cbn [item displayName type contentType year category].
  repeat split.
  unfold DataProcessor.categoryOf, categoryOf.
  destruct (detectContentType (table_name it)); [reflexivity |].
  repeat match goal with
         | |- context [if ?b then _ else _] =>
             match b with
             | (_ =? _) => fail 1
             | _ => destruct b; [reflexivity |]
             end
         end.
  reflexivity.
Qed.

(** C10, as stated, fails: an identifier outside every rule is "General"
    for [dataProcessor.js] and "Other" for the interface. *)
Lemma categorizeItem_versions_not_equal :
  ~ (forall it : descriptor, DataProcessor.categorizeItem it = categorizeItem it).
Proof.
  intros H. specialize (H (mkDescriptor "g_misc" "Misc data" "u")).
  discriminate H.
Qed.

End Classifier.

(* ================================================================== *)
(** * Objects                                                          *)
(* ================================================================== *)

Section Objects.
Context {V : Type}.
Implicit Types (o : JS.obj V) (k : string) (v : V).

Lemma get_set_eq o k v : JS.get (JS.set o k v) k = Some v.
Proof.
  induction o as [| [k' v'] o IH]; simpl.
  - now rewrite String.eqb_refl.
  - destruct (k' =? k) eqn:E; simpl; now rewrite E.
Qed.

Lemma get_set_ne o k k' v :
  k <> k' -> JS.get (JS.set o k v) k' = JS.get o k'.
Proof.
  intros Hne. induction o as [| [k0 v0] o IH]; simpl.
  - apply String.eqb_neq in Hne. now rewrite Hne.
  - destruct (k0 =? k) eqn:E; simpl.
    + apply String.eqb_eq in E. subst k0.
      apply String.eqb_neq in Hne. now rewrite Hne.
    + now rewrite IH.
Qed.

Lemma get_set o k k' v :
  JS.get (JS.set o k v) k' = if k =? k' then Some v else JS.get o k'.
Proof.
  destruct (k =? k') eqn:E.
  - apply String.eqb_eq in E. subst. apply get_set_eq.
  - apply String.eqb_neq in E. now apply get_set_ne.
Qed.

Lemma get_Some_In_keys o k v : JS.get o k = Some v -> In k (JS.keys o).
Proof.
  induction o as [| [k' v'] o IH]; simpl; [discriminate |].
  destruct (k' =? k) eqn:E.
  - apply String.eqb_eq in E. now left.
  - intros H. right. now apply IH.
Qed.

Lemma In_keys_get o k : In k (JS.keys o) -> exists v, JS.get o k = Some v.
Proof.
  induction o as [| [k' v'] o IH]; simpl; [tauto |].
  intros [-> | H].
  - rewrite String.eqb_refl. now exists v'.
  - destruct (k' =? k); [now exists v' | now apply IH].
Qed.

Lemma keys_set_In o k v k' :
  In k' (JS.keys (JS.set o k v)) <-> k' = k \/ In k' (JS.keys o).
Proof.
  induction o as [| [k0 v0] o IH]; simpl.
  - intuition.
  - destruct (k0 =? k) eqn:E; simpl.
    + apply String.eqb_eq in E. subst. intuition.
    + rewrite IH. intuition.
Qed.

Lemma keys_set_NoDup o k v : NoDup (JS.keys o) -> NoDup (JS.keys (JS.set o k v)).
Proof.
  induction o as [| [k0 v0] o IH]; cbn [JS.set JS.keys map fst]; intros H.
  - repeat constructor. intros [].
  - inversion H as [| ? ? Hk0 Ho]; subst.
    destruct (String.eqb_spec k0 k) as [-> | Hne];
      cbn [JS.keys map fst]; constructor; auto.
    fold (JS.keys (JS.set o k v)). rewrite keys_set_In. intros [-> | Hin]; auto.
Qed.

Variable m : V -> nat.

Lemma total_set o k v :
  totalOutsideEssentials m (JS.set o k v)
  + (if k =? "Essentials" then 0
     else match JS.get o k with Some v0 => m v0 | None => 0 end)
  = totalOutsideEssentials m o + (if k =? "Essentials" then 0 else m v).
Proof.
  unfold totalOutsideEssentials.
  induction o as [| [k0 v0] o IH]; simpl.
  - destruct (k =? "Essentials"); simpl; lia.
  - destruct (k0 =? k) eqn:E; simpl.
    + apply String.eqb_eq in E. subst k0.
      destruct (k =? "Essentials"); simpl; lia.
    + destruct (k0 =? "Essentials"); simpl; lia.
Qed.
End Objects.

(* ================================================================== *)
(** * The disambiguation splitter                                      *)
(* ================================================================== *)

Section Splitter.

Lemma organize_snoc (l : list classified) (x : classified) :
  organizeByDisambiguation (l ++ [x])
  = organizeStep (organizeByDisambiguation l) x.
Proof. unfold organizeByDisambiguation. now rewrite fold_left_app. Qed.

Lemma organize_filters (l : list classified) :
  let g := organizeByDisambiguation l in
  raw g = filter Spec.isRaw l
  /\ disambiguated g = filter Spec.isDisambiguated l
  /\ Spec.mainItems g = filter Spec.isMain l.
Proof.
  induction l as [| x l IH] using rev_ind; [now cbn |].
  cbn zeta in *. destruct IH as (Hr & Hd & Hm).
  rewrite organize_snoc, !filter_app. unfold organizeStep.
  unfold Spec.mainItems in *.
  unfold Spec.isMain, Spec.isDisambiguated, Spec.isRaw in *. cbn [filter].
  destruct (JS.includes (table_name (item x)) "_not_disambiguated");
    [| destruct (JS.includes (table_name (item x)) "_disambiguated")];
    cbn [raw disambiguated main negb andb];
    rewrite ?app_nil_r; repeat split; try congruence.
  destruct (main (organizeByDisambiguation l)); now rewrite <- Hm.
Qed.

Lemma three_way_length (l : list classified) :
  length (filter Spec.isDisambiguated l) + length (filter Spec.isRaw l)
  + length (filter Spec.isMain l) = length l.
Proof.
  induction l as [| x l IH]; [reflexivity |].
  unfold Spec.isMain, Spec.isDisambiguated in *. cbn [filter].
  destruct (Spec.isRaw x), (JS.includes (table_name (item x)) "_disambiguated");
    cbn [negb andb length]; lia.
Qed.

Lemma three_way_In (l : list classified) (x : classified) :
  In x (filter Spec.isDisambiguated l ++ filter Spec.isRaw l
        ++ filter Spec.isMain l) <-> In x l.
Proof.
  rewrite !in_app_iff, !filter_In. unfold Spec.isMain.
  destruct (Spec.isRaw x) eqn:Er, (Spec.isDisambiguated x) eqn:Ed;
    cbn; intuition congruence.
Qed.

Lemma itemCount_organize (l : list classified) :
  Spec.itemCount (Grouped (organizeByDisambiguation l)) = length l.
Proof.
  destruct (organize_filters l) as (Hr & Hd & Hm). cbn [Spec.itemCount].
  rewrite Hr, Hd, Hm. apply three_way_length.
Qed.

Lemma itemCount_regroup (b : bucket) :
  Spec.itemCount (regroup b) = Spec.itemCount b.
Proof.
  destruct b as [l | g]; [| reflexivity]. unfold regroup. cbn zeta.
  destruct ((0 <? length (disambiguated (organizeByDisambiguation l)))%nat
            || (0 <? length (raw (organizeByDisambiguation l)))%nat);
    [apply itemCount_organize | reflexivity].
Qed.

Lemma bucketItems_regroup (b : bucket) (x : classified) :
  In x (Spec.bucketItems (Some (regroup b))) <-> In x (Spec.bucketItems (Some b)).
Proof.
  destruct b as [l | g]; [| reflexivity]. unfold regroup. cbn zeta.
  destruct ((0 <? length (disambiguated (organizeByDisambiguation l)))%nat
            || (0 <? length (raw (organizeByDisambiguation l)))%nat);
    [| reflexivity].
  destruct (organize_filters l) as (Hr & Hd & Hm). cbn [Spec.bucketItems].
  rewrite Hr, Hd, Hm. apply three_way_In.
Qed.

Lemma organizeCategory_regroup (r : JS.obj bucket) (cat : string) :
  organizeCategory r cat
  = match JS.get r cat with
    | Some b => JS.set r cat (regroup b)
    | None => r
    end
  \/ organizeCategory r cat = r
     /\ exists b, JS.get r cat = Some b /\ regroup b = b.
Proof.
  unfold organizeCategory.
  destruct (JS.get r cat) as [[l | g] |] eqn:E; [| | now left].
  - destruct l as [| x l].
    + right. split; [reflexivity |]. exists (Flat []). split; reflexivity.
    + change (0 <? length (x :: l))%nat with true. cbv iota zeta.
      unfold regroup. cbv zeta.
      destruct ((0 <? length (disambiguated (organizeByDisambiguation (x :: l))))%nat
                || (0 <? length (raw (organizeByDisambiguation (x :: l))))%nat)
        eqn:E'.
      * now left.
      * right. split; [reflexivity |]. exists (Flat (x :: l)).
        split; [reflexivity |]. unfold regroup. cbv zeta. now rewrite E'.
  - right. split; [reflexivity |]. exists (Grouped g). split; reflexivity.
Qed.

Lemma get_organizeCategory (r : JS.obj bucket) (cat c : string) :
  JS.get (organizeCategory r cat) c
  = if cat =? c then option_map regroup (JS.get r cat) else JS.get r c.
Proof.
  destruct (organizeCategory_regroup r cat) as [H | [H [b [Hb Hfix]]]];
    rewrite H.
  - destruct (JS.get r cat) as [b |] eqn:E.
    + rewrite get_set. destruct (cat =? c); reflexivity.
    + destruct (cat =? c) eqn:Ec; [| reflexivity].
      apply String.eqb_eq in Ec. subst c. now rewrite E.
  - destruct (cat =? c) eqn:Ec; [| reflexivity].
    apply String.eqb_eq in Ec. subst c. rewrite Hb. cbn. now rewrite Hfix.
Qed.

Lemma total_organizeCategory (r : JS.obj bucket) (cat : string) :
  totalOutsideEssentials Spec.itemCount (organizeCategory r cat)
  = totalOutsideEssentials Spec.itemCount r.
Proof.
  destruct (organizeCategory_regroup r cat) as [H | [H _]]; rewrite H;
    [| reflexivity].
  destruct (JS.get r cat) as [b |] eqn:E; [| reflexivity].
  pose proof (total_set Spec.itemCount r cat (regroup b)) as T.
  rewrite E, itemCount_regroup in T. destruct (cat =? "Essentials"); lia.
Qed.

Lemma get_organizeType (r : JS.obj bucket) (c : string) :
  JS.get (organizeType r) c
  = if (c =? "People") || (c =? "Geography")
    then option_map regroup (JS.get r c)
    else JS.get r c.
Proof.
  unfold organizeType. cbn [fold_left].
  rewrite !get_organizeCategory.
  destruct (String.eqb_spec "Geography" c) as [<- | Hg].
  - reflexivity.
  - destruct (String.eqb_spec "People" c) as [<- | Hp]; [reflexivity |].
    apply String.eqb_neq in Hg, Hp. rewrite String.eqb_sym in Hg, Hp.
    now rewrite Hg, Hp.
Qed.

End Splitter.

(* ================================================================== *)
(** * The aggregator                                                   *)
(* ================================================================== *)

Section Aggregator.

Lemma typeEqb_eq (a b : patentType) : Spec.typeEqb a b = true <-> a = b.
Proof. destruct a, b; cbn; split; congruence. Qed.

Lemma typeEqb_refl (a : patentType) : Spec.typeEqb a a = true.
Proof. now destruct a. Qed.

Lemma tab_setTab {V} (d : perType V) (t t' : patentType) (v : V) :
  tab (setTab d t v) t' = if Spec.typeEqb t t' then v else tab d t'.
Proof. destruct t, t'; reflexivity. Qed.

Lemma aggregate_snoc (l : list classified) (x : classified) :
  aggregate (l ++ [x]) = addItem (aggregate l) x.
Proof. unfold aggregate. now rewrite fold_left_app. Qed.

Lemma get_pushAt (o : JS.obj (list classified)) (k c : string) (x : classified) :
  JS.get (pushAt o k x) c
  = if k =? c then option_map (fun a => a ++ [x]) (JS.get o k) else JS.get o c.
Proof.
  unfold pushAt. destruct (JS.get o k) as [a |] eqn:E.
  - rewrite get_set. now destruct (k =? c).
  - destruct (k =? c) eqn:Ec; [| reflexivity].
    apply String.eqb_eq in Ec. subst c. now rewrite E.
Qed.

Lemma nonempty_snoc {A B} (a : list A) (x : A) (f : list A -> B) (d : B) :
  match a ++ [x] with [] => d | y :: l => f (y :: l) end = f (a ++ [x]).
Proof. now destruct a. Qed.

Lemma get_ensure (r : JS.obj (list classified)) (cat c : string) :
  JS.get (match JS.get r cat with
          | None => JS.set r cat []
          | Some _ => r
          end) c
  = if cat =? c
    then Some (match JS.get r cat with Some a => a | None => [] end)
    else JS.get r c.
Proof.
  destruct (JS.get r cat) as [a |] eqn:E.
  - destruct (cat =? c) eqn:Ec; [| reflexivity].
    apply String.eqb_eq in Ec. now subst c.
  - apply get_set.
Qed.

Lemma aggregated_at_category (t : patentType) (cat : string)
      (its : list classified) :
  cat <> "Essentials" ->
  match aggregated t cat its with Some a => a | None => [] end
  = Spec.ofCategory t cat its.
Proof.
  intros Hne. unfold aggregated. apply String.eqb_neq in Hne. rewrite Hne.
  now destruct (Spec.ofCategory t cat its).
Qed.

(** After the first loop of [processData], each key holds the items of
    its type and category, in input order; Essentials holds the
    allow-listed ones. *)
Lemma aggregate_get (its : list classified) (t : patentType) (c : string) :
  Forall (fun x => category x <> "Essentials") its ->
  JS.get (tab (aggregate its) t) c = aggregated t c its.
Proof.
  revert c. induction its as [| x its IH] using rev_ind; intros c Hall.
  - unfold aggregated, Spec.ofCategory. cbn [filter].
    replace (tab (aggregate []) t) with [("Essentials", @nil classified)]
      by now destruct t.
    cbn [JS.get]. rewrite String.eqb_sym. now destruct (c =? "Essentials").
  - apply Forall_app in Hall as [Hall Hx]. inversion Hx as [| ? ? Hcat _]; subst.
    assert (IH' := fun c => IH c Hall). clear IH.
    rewrite aggregate_snoc. unfold addItem. rewrite tab_setTab.
    unfold aggregated, Spec.ofCategory. rewrite !filter_app. cbn [filter].
    destruct (Spec.typeEqb (type x) t) eqn:Et; cbn [andb].
    + apply typeEqb_eq in Et. subst t.
      set (r0 := tab (aggregate its) (type x)) in *.
      set (cat := category x) in *.
      assert (H2 : forall c',
                 JS.get (pushAt (match JS.get r0 cat with
                                 | None => JS.set r0 cat []
                                 | Some _ => r0
                                 end) cat x) c'
                 = if cat =? c'
                   then Some (Spec.ofCategory (type x) cat its ++ [x])
                   else JS.get r0 c').
      { intros c'. rewrite get_pushAt, !get_ensure, String.eqb_refl.
        destruct (cat =? c'); [| reflexivity]. cbn [option_map].
        now rewrite IH', aggregated_at_category. }
      assert (Hec : ("Essentials" =? cat) = false)
        by (apply String.eqb_neq; congruence).
      destruct (String.eqb_spec c "Essentials") as [-> | Hc].
      * replace (JS.arrayIncludes essentialFiles (table_name (item x)))
          with (Spec.isEssential x) by reflexivity.
        destruct (Spec.isEssential x).
        -- rewrite get_pushAt, String.eqb_refl, H2.
           rewrite String.eqb_sym, Hec. rewrite IH'. unfold aggregated.
           now rewrite String.eqb_refl.
        -- rewrite H2, String.eqb_sym, Hec, IH', app_nil_r. unfold aggregated.
           now rewrite String.eqb_refl.
      * assert (Hc' : ("Essentials" =? c) = false)
          by (apply String.eqb_neq; congruence).
        assert (H3 : JS.get
                       (if JS.arrayIncludes essentialFiles (table_name (item x))
                        then pushAt (pushAt (match JS.get r0 cat with
                                             | None => JS.set r0 cat []
                                             | Some _ => r0
                                             end) cat x) "Essentials" x
                        else pushAt (match JS.get r0 cat with
                                     | None => JS.set r0 cat []
                                     | Some _ => r0
                                     end) cat x) c
                     = if cat =? c
                       then Some (Spec.ofCategory (type x) cat its ++ [x])
                       else JS.get r0 c).
        { destruct (JS.arrayIncludes essentialFiles (table_name (item x)));
            [rewrite get_pushAt, Hc' |]; apply H2. }
        rewrite H3. destruct (String.eqb_spec cat c) as [<- | Hcc].
        -- unfold Spec.ofCategory. now rewrite nonempty_snoc.
        -- rewrite app_nil_r, IH'. unfold aggregated, Spec.ofCategory.
           apply String.eqb_neq in Hc. now rewrite Hc.
    + rewrite !app_nil_r. apply IH'.
Qed.

Lemma total_aggregate (its : list classified) (t : patentType) :
  Forall (fun x => category x <> "Essentials") its ->
  totalOutsideEssentials (@length classified) (tab (aggregate its) t)
  = length (Spec.ofType t its).
Proof.
  induction its as [| x its IH] using rev_ind; intros Hall.
  - now destruct t.
  - apply Forall_app in Hall as [Hall Hx]. inversion Hx as [| ? ? Hcat _]; subst.
    specialize (IH Hall).
    rewrite aggregate_snoc. unfold addItem. rewrite tab_setTab.
    unfold Spec.ofType in *. rewrite filter_app, length_app. cbn [filter].
    destruct (Spec.typeEqb (type x) t) eqn:Et; cbn [length]; [| lia].
    apply typeEqb_eq in Et. subst t.
    set (r0 := tab (aggregate its) (type x)) in *.
    set (cat := category x) in *.
    set (r1 := match JS.get r0 cat with
               | None => JS.set r0 cat []
               | Some _ => r0
               end).
    assert (Hne : (cat =? "Essentials") = false) by now apply String.eqb_neq.
    assert (T1 : totalOutsideEssentials (@length classified) r1
                 = totalOutsideEssentials (@length classified) r0).
    { unfold r1. destruct (JS.get r0 cat) eqn:E; [reflexivity |].
      pose proof (total_set (@length classified) r0 cat []) as T.
      rewrite E, Hne in T. cbn in T. lia. }
    assert (T2 : totalOutsideEssentials (@length classified) (pushAt r1 cat x)
                 = S (totalOutsideEssentials (@length classified) r0)).
    { unfold pushAt. destruct (JS.get r1 cat) as [a |] eqn:E.
      - pose proof (total_set (@length classified) r1 cat (a ++ [x])) as T.
        rewrite E, Hne, length_app in T. cbn in T. lia.
      - exfalso. pose proof (get_ensure r0 cat cat) as G. fold r1 in G.
        rewrite String.eqb_refl, E in G. discriminate G. }
    destruct (JS.arrayIncludes essentialFiles (table_name (item x)));
      [| lia].
    unfold pushAt at 1.
    destruct (JS.get (pushAt r1 cat x) "Essentials") as [a |]; [| lia].
    pose proof (total_set (@length classified) (pushAt r1 cat x)
                          "Essentials" (a ++ [x])) as T.
    rewrite String.eqb_refl in T. lia.
Qed.

Lemma total_asBuckets (o : JS.obj (list classified)) :
  totalOutsideEssentials Spec.itemCount (asBuckets o)
  = totalOutsideEssentials (@length classified) o.
Proof.
  unfold totalOutsideEssentials, asBuckets.
  induction o as [| [k v] o IH]; [reflexivity |]. cbn [map filter fst snd].
  destruct (negb (k =? "Essentials")); [| exact IH].
  cbn [map fst snd Spec.itemCount]. unfold list_sum in *. cbn [fold_right].
  now rewrite IH.
Qed.

Lemma get_asBuckets (o : JS.obj (list classified)) (c : string) :
  JS.get (asBuckets o) c = option_map Flat (JS.get o c).
Proof.
  induction o as [| [k v] o IH]; [reflexivity |]. cbn [asBuckets map JS.get fst snd].
  destruct (k =? c); [reflexivity | exact IH].
Qed.

Lemma categorized_not_Essentials (rawData : list descriptor) :
  Forall (fun x => category x <> "Essentials") (map categorizeItem rawData).
Proof.
  apply Forall_forall. intros x Hx. apply in_map_iff in Hx as [d [<- _]].
  apply category_not_Essentials.
Qed.

(** The value of every key of a processed patent type. *)
Lemma processData_get (rawData : list descriptor) (t : patentType) (c : string) :
  JS.get (tab (processData rawData) t) c
  = let its := map categorizeItem rawData in
    if (c =? "People") || (c =? "Geography")
    then option_map regroup (option_map Flat (aggregated t c its))
    else option_map Flat (aggregated t c its).
Proof.
  cbn zeta.
  assert (E : tab (processData rawData) t
              = organizeType
                  (asBuckets (tab (aggregate (map categorizeItem rawData)) t)))
    by now destruct t.
  rewrite E, get_organizeType, get_asBuckets, aggregate_get
    by apply categorized_not_Essentials.
  reflexivity.
Qed.

Lemma total_processData (rawData : list descriptor) (t : patentType) :
  Spec.naturalTotal (tab (processData rawData) t)
  = length (Spec.ofType t (map categorizeItem rawData)).
Proof.
  assert (E : tab (processData rawData) t
              = organizeType
                  (asBuckets (tab (aggregate (map categorizeItem rawData)) t)))
    by now destruct t.
  rewrite E. change Spec.naturalTotal with (totalOutsideEssentials Spec.itemCount).
  unfold organizeType. cbn [fold_left].
  rewrite !total_organizeCategory, total_asBuckets.
  apply total_aggregate, categorized_not_Essentials.
Qed.

End Aggregator.

(* ================================================================== *)
(** * The taxonomy built by [processData]                              *)
(* ================================================================== *)

Section Taxonomy.

Lemma contents_regroup (l : list classified) :
  l <> [] -> Some (Spec.contents (regroup (Flat l))) = Spec.splitContents l.
Proof.
  intros Hl. destruct (organize_filters l) as (Hr & Hd & Hm).
  unfold regroup, Spec.splitContents. cbv zeta.
  destruct l as [| x l]; [congruence |].
  rewrite Hr, Hd.
  destruct (filter Spec.isDisambiguated (x :: l)) as [| d ds] eqn:Ed;
    destruct (filter Spec.isRaw (x :: l)) as [| w ws] eqn:Er;
    cbn [length Nat.ltb Nat.leb orb Spec.contents]; try reflexivity;
    now rewrite Hr, Hd, Hm, ?Ed, ?Er.
Qed.

Lemma bucketItems_aggregated (t : patentType) (c : string)
      (its : list classified) :
  c <> "Essentials" ->
  Spec.bucketItems (option_map Flat (aggregated t c its))
  = Spec.ofCategory t c its.
Proof.
  intros Hne. unfold aggregated. apply String.eqb_neq in Hne. rewrite Hne.
  now destruct (Spec.ofCategory t c its).
Qed.

Lemma bucketItems_option_regroup (ob : option bucket) (x : classified) :
  In x (Spec.bucketItems (option_map regroup ob)) <-> In x (Spec.bucketItems ob).
Proof. destruct ob as [b |]; [apply bucketItems_regroup | reflexivity]. Qed.

Lemma isEssential_In (x : classified) :
  Spec.isEssential x = true <-> In (table_name (item x)) essentialFiles.
Proof.
  unfold Spec.isEssential. rewrite existsb_exists. split.
  - intros [e [He Heq]]. apply String.eqb_eq in Heq. now subst.
  - intros H. exists (table_name (item x)). split; [exact H | apply String.eqb_refl].
Qed.

(** C4.  [organizeByDisambiguation] sends an item to raw when its
    identifier contains "_not_disambiguated", else to disambiguated when it
    contains "_disambiguated", else to main, keeping the input order.  In
    the taxonomy, the People and the Geography category of each patent type
    hold the three sub-sequences exactly when the disambiguated or the raw
    one is non-empty, and the flat sequence when both are empty. *)
Theorem disambiguation_split_and_regrouping :
  (forall items : list classified,
      let g := organizeByDisambiguation items in
      raw g = filter Spec.isRaw items
      /\ disambiguated g = filter Spec.isDisambiguated items
      /\ Spec.mainItems g = filter Spec.isMain items)
  /\ (forall (rawData : list descriptor) (t : patentType),
         let its := map categorizeItem rawData in
         option_map Spec.contents (JS.get (tab (processData rawData) t) "People")
         = Spec.splitContents (Spec.ofCategory t "People" its)
         /\ option_map Spec.contents
                       (JS.get (tab (processData rawData) t) "Geography")
            = Spec.splitContents (Spec.ofCategory t "Geography" its)).
Proof.
  split; [exact organize_filters |].
  intros rawData t. cbv zeta.
  rewrite !processData_get. cbv zeta.
  change (("People" =? "People") || ("People" =? "Geography")) with true.
  change (("Geography" =? "People") || ("Geography" =? "Geography")) with true.
  cbv iota. unfold aggregated.
  change ("People" =? "Essentials") with false.
  change ("Geography" =? "Essentials") with false. cbv iota.
  split.
  - destruct (Spec.ofCategory t "People" (map categorizeItem rawData))
      as [| x l] eqn:E; [reflexivity |].
    cbn [option_map]. now apply contents_regroup.
  - destruct (Spec.ofCategory t "Geography" (map categorizeItem rawData))
      as [| x l] eqn:E; [reflexivity |].
    cbn [option_map]. now apply contents_regroup.
Qed.

(** C6.  In the taxonomy of any input and for each patent type, a
    classified item of that type is in the bucket of its own category and
    in no other bucket but possibly Essentials; it is in Essentials
    exactly when its identifier is on the allow-list, and stays in its own
    category then; and the per-category counts, Essentials left out, add up
    to the number of input items of that type. *)
Theorem natural_category_partition (rawData : list descriptor) (t : patentType) :
  let its := map categorizeItem rawData in
  let T := tab (processData rawData) t in
  (forall x c, In x (Spec.ofType t its) /\ c <> "Essentials" ->
               (In x (Spec.bucketItems (JS.get T c)) <-> c = category x))
  /\ (forall x, In x (Spec.ofType t its) ->
                (In x (Spec.bucketItems (JS.get T "Essentials"))
                 <-> In (table_name (item x)) essentialFiles)
                /\ In x (Spec.bucketItems (JS.get T (category x))))
  /\ Spec.naturalTotal T = length (Spec.ofType t its).
Proof.
  cbv zeta.
  assert (Hnat : forall x c,
             In x (Spec.ofType t (map categorizeItem rawData)) ->
             c <> "Essentials" ->
             (In x (Spec.bucketItems (JS.get (tab (processData rawData) t) c))
              <-> c = category x)).
  { intros x c Hx Hc. rewrite processData_get. cbv zeta.
    assert (E : In x (Spec.bucketItems
                        (option_map Flat
                           (aggregated t c (map categorizeItem rawData))))
                <-> c = category x).
    { rewrite bucketItems_aggregated by exact Hc.
      unfold Spec.ofCategory, Spec.ofType in *.
      rewrite filter_In in *. destruct Hx as [Hin Ht]. rewrite Ht. cbn [andb].
      rewrite String.eqb_eq. intuition congruence. }
    destruct ((c =? "People") || (c =? "Geography")); [| exact E].
    now rewrite bucketItems_option_regroup. }
  split; [| split].
  - intros x c [Hx Hc]. now apply Hnat.
  - intros x Hx. split.
    + rewrite processData_get. cbv zeta.
      change (("Essentials" =? "People") || ("Essentials" =? "Geography"))
        with false.
      cbv iota. unfold aggregated.
      change ("Essentials" =? "Essentials") with true. cbv iota.
      cbn [option_map Spec.bucketItems].
      unfold Spec.ofType in Hx. rewrite filter_In in *.
      destruct Hx as [Hin Ht]. rewrite Ht. cbn [andb].
      rewrite isEssential_In. tauto.
    + apply (Hnat x (category x)); [exact Hx | | reflexivity].
      unfold Spec.ofType in Hx. apply filter_In in Hx as [Hin _].
      apply in_map_iff in Hin as [d [<- _]]. apply category_not_Essentials.
  - apply total_processData.
Qed.

Lemma natural_category_partition_witness :
  let d := mkDescriptor "g_patent" "Patents" "u" in
  let x := categorizeItem d in
  In x (Spec.bucketItems (JS.get (tab (processData [d]) granted) "General"))
  <-> "General" = category x.
Proof.
  cbv zeta.
  apply (proj1 (natural_category_partition
                  [mkDescriptor "g_patent" "Patents" "u"] granted)).
  split; [now left | discriminate].
Defined.

End Taxonomy.

(* ================================================================== *)
(** * The filter engine                                                *)
(* ================================================================== *)

Section FilterEngine.

Variables (cur : JS.obj bucket) (search yearFilter contentTypeFilter : string).

Lemma filterCategory_set (filtered : JS.obj bucket) (cat : string) :
  filterCategory cur search yearFilter contentTypeFilter filtered cat
  = match JS.get cur cat with
    | Some b =>
        JS.set filtered cat
               (filterBucket search yearFilter contentTypeFilter cat b)
    | None => filtered
    end.
Proof.
  unfold filterCategory. now destruct (JS.get cur cat) as [[l | g] |].
Qed.

Lemma get_fold_filterCategory (ks : list string) (acc : JS.obj bucket)
      (c : string) :
  (forall k, In k ks -> JS.get cur k <> None) ->
  JS.get (fold_left (filterCategory cur search yearFilter contentTypeFilter)
                    ks acc) c
  = if existsb (fun k => k =? c) ks
    then option_map (filterBucket search yearFilter contentTypeFilter c)
                    (JS.get cur c)
    else JS.get acc c.
Proof.
  revert acc. induction ks as [| k ks IH]; intros acc Hks; [reflexivity |].
  cbn [fold_left existsb]. rewrite IH by (intros; apply Hks; now right).
  rewrite filterCategory_set.
  destruct (existsb (fun k0 => k0 =? c) ks); [now rewrite orb_true_r |].
  rewrite orb_false_r.
  destruct (JS.get cur k) as [b |] eqn:E.
  - rewrite get_set. destruct (String.eqb_spec k c) as [-> | _]; [| reflexivity].
    now rewrite E.
  - exfalso. apply (Hks k); [now left | exact E].
Qed.

Lemma existsb_keys (c : string) :
  existsb (fun k => k =? c) (JS.keys cur) = false -> JS.get cur c = None.
Proof.
  intros H. destruct (JS.get cur c) eqn:E; [| reflexivity].
  apply get_Some_In_keys in E.
  assert (X : existsb (fun k => k =? c) (JS.keys cur) = true)
    by (apply existsb_exists; exists c; split; [exact E | apply String.eqb_refl]).
  congruence.
Qed.

End FilterEngine.

Section FilterEngineResults.

Variables (T : taxonomy) (activeTab : patentType).

(** Each category of the filtered view is the filtered value of the same
    category of the active tab. *)
Lemma get_filterData (search yearFilter contentTypeFilter c : string) :
  JS.get (filterData (Some T) activeTab search yearFilter contentTypeFilter) c
  = option_map (filterBucket search yearFilter contentTypeFilter c)
               (JS.get (tab T activeTab) c).
Proof.
  unfold filterData. rewrite get_fold_filterCategory.
  - destruct (existsb (fun k => k =? c) (JS.keys (tab T activeTab))) eqn:E;
      [reflexivity |].
    apply existsb_keys in E. now rewrite E.
  - intros k Hk. apply In_keys_get in Hk as [v Hv]. congruence.
Qed.

Lemma keepFlat_flatKeep (search yearFilter contentTypeFilter cat : string)
      (it : classified) :
  keepFlat search yearFilter contentTypeFilter cat it
  = Spec.flatKeep search yearFilter contentTypeFilter cat it.
Proof.
  unfold keepFlat, Spec.flatKeep, Spec.facetMatch, JS.strictEq.
  change (matchesSearch search it) with (Spec.textMatch search it).
  destruct (Spec.textMatch search it), (cat =? "Content"),
    (yearFilter =? "all"), (contentTypeFilter =? "all"),
    (year it) as [y |], (contentType it) as [ct |];
    cbn [negb andb orb]; try reflexivity;
    try destruct (y =? yearFilter); try destruct (ct =? contentTypeFilter);
    reflexivity.
Qed.

Lemma contents_filterBucket (search yearFilter contentTypeFilter cat : string)
      (b : bucket) :
  Spec.contents (filterBucket search yearFilter contentTypeFilter cat b)
  = Spec.filterContents search yearFilter contentTypeFilter cat b.
Proof.
  destruct b as [l | g]; cbn [filterBucket Spec.contents Spec.filterContents].
  - f_equal. apply filter_ext. intros it. apply keepFlat_flatKeep.
  - unfold filterGroups, Spec.mainItems. cbn [disambiguated raw main].
    now destruct (main g).
Qed.

Lemma includes_empty (s : string) : JS.includes s "" = true.
Proof. now destruct s. Qed.

Lemma matchesSearch_empty (it : classified) : matchesSearch "" it = true.
Proof. unfold matchesSearch. cbn [JS.toLowerCase JS.mapChars]. now rewrite includes_empty. Qed.

Lemma filter_all {A} (f : A -> bool) (l : list A) :
  (forall x, f x = true) -> filter f l = l.
Proof.
  intros H. induction l as [| x l IH]; [reflexivity |].
  cbn [filter]. now rewrite H, IH.
Qed.

(** C3.  In the filtered view of any taxonomy, tab, query and facet
    selection: each category holds the filtered content of the same
    category of the tab (a grouped one has each sub-sequence filtered by the
    text predicate alone; a flat one is filtered by the text predicate and,
    for "Content" only, by the year and content-type facets unless they are
    "all"); the keys are those of the tab; flat stays flat and grouped stays
    grouped. *)
Theorem filterData_filters_and_keeps_shape
        (search yearFilter contentTypeFilter : string) :
  let view := filterData (Some T) activeTab search yearFilter contentTypeFilter in
  (forall c, option_map Spec.contents (JS.get view c)
             = option_map (Spec.filterContents search yearFilter
                                               contentTypeFilter c)
                          (JS.get (tab T activeTab) c))
  /\ (forall c, In c (JS.keys view) <-> In c (JS.keys (tab T activeTab)))
  /\ (forall c, option_map Spec.isFlat (JS.get view c)
                = option_map Spec.isFlat (JS.get (tab T activeTab) c)).
Proof.
  cbv zeta. split; [| split].
  - intros c. rewrite get_filterData.
    destruct (JS.get (tab T activeTab) c) as [b |]; [| reflexivity].
    cbn [option_map]. now rewrite contents_filterBucket.
  - intros c. split; intros H.
    + apply In_keys_get in H as [v Hv]. rewrite get_filterData in Hv.
      destruct (JS.get (tab T activeTab) c) as [b |] eqn:E; [| discriminate].
      now apply get_Some_In_keys in E.
    + apply In_keys_get in H as [v Hv].
      apply (get_Some_In_keys _ _
               (filterBucket search yearFilter contentTypeFilter c v)).
      now rewrite get_filterData, Hv.
  - intros c. rewrite get_filterData.
    now destruct (JS.get (tab T activeTab) c) as [[l | g] |].
Qed.

(** C7.  With the empty query and both facets at "all", every category of
    the filtered view holds exactly the items of the same category of the
    taxonomy's active tab, and no other category exists. *)
Theorem filterData_neutral_is_identity (c : string) :
  option_map Spec.contents (JS.get (filterData (Some T) activeTab "" "all" "all") c)
  = option_map Spec.contents (JS.get (tab T activeTab) c).
Proof.
  rewrite get_filterData.
  destruct (JS.get (tab T activeTab) c) as [[l | g] |]; [| | reflexivity];
    cbn [option_map filterBucket Spec.contents]; do 2 f_equal.
  - apply filter_all. intros it. unfold keepFlat.
    now rewrite matchesSearch_empty.
  - unfold filterGroups, Spec.mainItems. cbn [disambiguated raw main].
    rewrite !(filter_all _ _ matchesSearch_empty).
    destruct (main g) as [m |]; [| reflexivity].
    now rewrite (filter_all _ _ matchesSearch_empty).
Qed.

Lemma keys_fold_filterCategory_NoDup (cur : JS.obj bucket)
      (search yearFilter contentTypeFilter : string) (ks : list string)
      (acc : JS.obj bucket) :
  NoDup (JS.keys acc) ->
  NoDup (JS.keys (fold_left (filterCategory cur search yearFilter
                                            contentTypeFilter) ks acc)).
Proof.
  revert acc. induction ks as [| k ks IH]; intros acc H; [exact H |].
  cbn [fold_left]. apply IH. rewrite filterCategory_set.
  destruct (JS.get cur k); [now apply keys_set_NoDup | exact H].
Qed.

(** The filtered view is an object: no key twice. *)
Lemma keys_filterData_NoDup (search yearFilter contentTypeFilter : string) :
  NoDup (JS.keys (filterData (Some T) activeTab search yearFilter
                             contentTypeFilter)).
Proof. apply keys_fold_filterCategory_NoDup. constructor. Qed.

Lemma keys_filterData (search yearFilter contentTypeFilter c : string) :
  In c (JS.keys (filterData (Some T) activeTab search yearFilter
                            contentTypeFilter))
  <-> In c (JS.keys (tab T activeTab)).
Proof.
  split; intros H.
  - apply In_keys_get in H as [v Hv]. rewrite get_filterData in Hv.
    destruct (JS.get (tab T activeTab) c) as [b |] eqn:E; [| discriminate].
    now apply get_Some_In_keys in E.
  - apply In_keys_get in H as [v Hv].
    apply (get_Some_In_keys _ _
             (filterBucket search yearFilter contentTypeFilter c v)).
    now rewrite get_filterData, Hv.
Qed.

End FilterEngineResults.

(* ================================================================== *)
(** * Stable sorting                                                   *)
(* ================================================================== *)

Section SortFacts.

Context {A : Type} (cmp : A -> A -> Z) (le : A -> A -> Prop).
Hypothesis cmp_le : forall x y, (cmp x y <= 0)%Z <-> le x y.
Hypothesis le_trans : forall x y z, le x y -> le y z -> le x z.
Hypothesis le_total : forall x y, le x y \/ le y x.

Lemma insertSorted_perm (x : A) (l : list A) :
  Permutation (JS.insertSorted cmp x l) (x :: l).
Proof.
  induction l as [| y l IH]; cbn [JS.insertSorted]; [reflexivity |].
  destruct (cmp x y <=? 0)%Z; [reflexivity |].
  rewrite IH. apply perm_swap.
Qed.

Lemma sort_perm (l : list A) : Permutation (JS.sort cmp l) l.
Proof.
  induction l as [| x l IH]; cbn [JS.sort]; [reflexivity |].
  rewrite insertSorted_perm. now constructor.
Qed.

Lemma insertSorted_sorted (x : A) (l : list A) :
  StronglySorted le l -> StronglySorted le (JS.insertSorted cmp x l).
Proof.
  induction 1 as [| y l Hs IH Hy]; cbn [JS.insertSorted].
  - repeat constructor.
  - destruct (Z.leb_spec (cmp x y) 0) as [Hle | Hgt].
    + apply cmp_le in Hle. constructor; [now constructor |].
      constructor; [exact Hle |].
      eapply Forall_impl; [| exact Hy]. intros z Hz. now apply (le_trans x y z).
    + assert (Hyx : le y x).
      { destruct (le_total x y) as [H | H]; [| exact H].
        apply cmp_le in H. lia. }
      constructor; [exact IH |].
      eapply Permutation_Forall; [symmetry; apply insertSorted_perm |].
      now constructor.
Qed.

Lemma sort_sorted (l : list A) : StronglySorted le (JS.sort cmp l).
Proof.
  induction l as [| x l IH]; cbn [JS.sort]; [constructor |].
  now apply insertSorted_sorted.
Qed.

(** Stability: elements that the comparator never puts one after the
    other keep their relative order. *)
Lemma filter_insertSorted (p : A -> bool) (x : A) (l : list A) :
  (forall a b, (0 < cmp a b)%Z -> p a = true -> p b = true -> False) ->
  filter p (JS.insertSorted cmp x l) = filter p (x :: l).
Proof.
  intros Hp. induction l as [| y l IH]; cbn [JS.insertSorted]; [reflexivity |].
  destruct (Z.leb_spec (cmp x y) 0) as [Hle | Hgt]; [reflexivity |].
  cbn [filter] in *. rewrite IH.
  destruct (p x) eqn:Ex, (p y) eqn:Ey; try reflexivity.
  exfalso. exact (Hp x y Hgt Ex Ey).
Qed.

Lemma filter_sort (p : A -> bool) (l : list A) :
  (forall a b, (0 < cmp a b)%Z -> p a = true -> p b = true -> False) ->
  filter p (JS.sort cmp l) = filter p l.
Proof.
  intros Hp. induction l as [| x l IH]; cbn [JS.sort]; [reflexivity |].
  rewrite filter_insertSorted by exact Hp. cbn [filter]. now rewrite IH.
Qed.

Lemma sorted_after (pre post : list A) (e : A) :
  StronglySorted le (pre ++ e :: post) -> Forall (le e) post.
Proof.
  induction pre as [| a pre IH]; cbn [app]; intros H; inversion H; subst; auto.
Qed.

End SortFacts.

(* ================================================================== *)
(** * Category ordering                                                *)
(* ================================================================== *)

Section Ordering.

Lemma position_le (l : list string) (x : string) :
  Spec.position l x <= length l.
Proof.
  induction l as [| y l IH]; cbn [Spec.position length]; [lia |].
  destruct (y =? x); lia.
Qed.

Lemma indexOf_position (l : list string) (x : string) :
  JS.indexOf l x
  = if (Spec.position l x <? length l)%nat
    then Z.of_nat (Spec.position l x) else (-1)%Z.
Proof.
  induction l as [| y l IH]; cbn [JS.indexOf Spec.position length]; [reflexivity |].
  destruct (y =? x); [reflexivity |]. cbv zeta. rewrite IH.
  change (S (Spec.position l x) <? S (length l))%nat
    with (Spec.position l x <? length l)%nat.
  destruct (Spec.position l x <? length l)%nat.
  - destruct (Z.eqb_spec (Z.of_nat (Spec.position l x)) (-1)); lia.
  - reflexivity.
Qed.

Lemma compareCategories_le (a b : categoryCount) :
  (compareCategories a b <= 0)%Z
  <-> Spec.priority (name a) <= Spec.priority (name b).
Proof.
  unfold compareCategories, Spec.priority. cbv zeta.
  change categoryOrder with Spec.prioritySequence.
  rewrite !indexOf_position.
  pose proof (position_le Spec.prioritySequence (name a)) as Ha.
  pose proof (position_le Spec.prioritySequence (name b)) as Hb.
  destruct (Nat.ltb_spec (Spec.position Spec.prioritySequence (name a))
                         (length Spec.prioritySequence)) as [La | La];
    destruct (Nat.ltb_spec (Spec.position Spec.prioritySequence (name b))
                           (length Spec.prioritySequence)) as [Lb | Lb];
    repeat match goal with
           | |- context [(?u =? ?v)%Z] => destruct (Z.eqb_spec u v)
           end;
    cbn [andb]; lia.
Qed.

Lemma compareCategories_unlisted (a b : categoryCount) :
  (0 < compareCategories a b)%Z ->
  negb (Spec.listed (name a)) = true ->
  negb (Spec.listed (name b)) = true -> False.
Proof.
  unfold compareCategories, Spec.listed, Spec.priority. cbv zeta.
  change categoryOrder with Spec.prioritySequence.
  rewrite !indexOf_position. intros Hc Ha Hb.
  apply negb_true_iff in Ha, Hb. rewrite Ha, Hb in Hc. cbn in Hc. lia.
Qed.

Lemma countBucket_itemCount (b : bucket) : countBucket b = Spec.itemCount b.
Proof.
  destruct b as [l | g]; [reflexivity |].
  unfold countBucket, Spec.itemCount, Spec.mainItems. now destruct (main g).
Qed.

Lemma nonzero_hasItems (fd : JS.obj bucket) (k : string) :
  (0 <? count (categoryWithCount fd k))%nat = Spec.hasItems fd k.
Proof.
  unfold categoryWithCount, Spec.hasItems. cbn [count].
  destruct (JS.get fd k) as [b |]; [now rewrite countBucket_itemCount | reflexivity].
Qed.

Lemma counted_filter (fd : JS.obj bucket) (ks : list string) :
  filter (fun cat => (0 <? count cat)%nat) (map (categoryWithCount fd) ks)
  = map (categoryWithCount fd) (filter (Spec.hasItems fd) ks).
Proof.
  induction ks as [| k ks IH]; [reflexivity |]. cbn [map filter].
  rewrite nonzero_hasItems, IH. now destruct (Spec.hasItems fd k).
Qed.

Lemma names_counted (fd : JS.obj bucket) (ks : list string) :
  map name (map (categoryWithCount fd) ks) = ks.
Proof. rewrite map_map. cbn [name categoryWithCount]. apply map_id. Qed.

Lemma filter_names_counted (fd : JS.obj bucket) (p : string -> bool)
      (ks : list string) :
  map name (filter (fun e => p (name e)) (map (categoryWithCount fd) ks))
  = filter p ks.
Proof.
  induction ks as [| k ks IH]; [reflexivity |]. cbn [map filter name categoryWithCount].
  destruct (p k); cbn [map name]; now rewrite IH.
Qed.

Lemma getCategoriesWithCounts_sort (fd : JS.obj bucket) :
  getCategoriesWithCounts fd
  = JS.sort compareCategories
            (map (categoryWithCount fd) (filter (Spec.hasItems fd) (JS.keys fd))).
Proof. unfold getCategoriesWithCounts, sortCategories. now rewrite counted_filter. Qed.

End Ordering.

Section OrderingResults.

Lemma position_nth (l : list string) (x : string) :
  Spec.position l x < length l -> nth (Spec.position l x) l "" = x.
Proof.
  induction l as [| y l IH]; cbn [Spec.position length]; [lia |].
  destruct (String.eqb_spec y x) as [-> | _]; intros H; [reflexivity |].
  cbn [nth]. apply IH. lia.
Qed.

Lemma priority_Content (k : string) :
  Spec.priority "Content" <= Spec.priority k ->
  k = "Content" \/ Spec.listed k = false.
Proof.
  unfold Spec.listed. change (Spec.priority "Content") with 11.
  change (length Spec.prioritySequence) with 12. intros H.
  destruct (Nat.ltb_spec (Spec.priority k) 12) as [Hlt | Hge]; [left | now right].
  assert (E : Spec.priority k = 11) by lia.
  pose proof (position_nth Spec.prioritySequence k) as N.
  fold (Spec.priority k) in N. rewrite E in N.
  change (length Spec.prioritySequence) with 12 in N.
  change (nth 11 Spec.prioritySequence "") with "Content" in N.
  symmetry. apply N. lia.
Qed.

Lemma priority_unlisted (k k' : string) :
  Spec.listed k = false -> Spec.priority k <= Spec.priority k' ->
  Spec.listed k' = false.
Proof.
  unfold Spec.listed. rewrite !Nat.ltb_ge. lia.
Qed.

Lemma position_In (l : list string) (x : string) :
  In x l -> Spec.position l x < length l.
Proof.
  induction l as [| y l IH]; cbn [In Spec.position length]; [tauto |].
  destruct (String.eqb_spec y x) as [-> | Hne]; [lia |].
  intros [-> | H]; [congruence | apply IH in H; lia].
Qed.

Lemma listed_In (k : string) :
  In k Spec.prioritySequence -> Spec.listed k = true.
Proof. intros H. apply Nat.ltb_lt. now apply position_In. Qed.

(** Every category of a taxonomy built by [processData] is in the
    priority sequence. *)
Lemma keys_processData_listed (rawData : list descriptor) (t : patentType)
      (c : string) :
  In c (JS.keys (tab (processData rawData) t)) -> Spec.listed c = true.
Proof.
  intros H. apply In_keys_get in H as [b Hb]. rewrite processData_get in Hb.
  cbv zeta in Hb.
  assert (Hagg : aggregated t c (map categorizeItem rawData) <> None).
  { intros E. rewrite E in Hb. destruct ((c =? "People") || (c =? "Geography"));
      discriminate Hb. }
  unfold aggregated in Hagg.
  destruct (String.eqb_spec c "Essentials") as [-> | _]; [reflexivity |].
  destruct (Spec.ofCategory t c (map categorizeItem rawData)) as [| x l] eqn:E;
    [congruence |].
  assert (Hx : In x (Spec.ofCategory t c (map categorizeItem rawData)))
    by (rewrite E; now left).
  unfold Spec.ofCategory in Hx. apply filter_In in Hx as [Hin Hc].
  apply andb_true_iff in Hc as [_ Hc]. apply String.eqb_eq in Hc. subst c.
  apply in_map_iff in Hin as [d [<- _]].
  apply listed_In. change Spec.prioritySequence with categoryOrder.
  apply category_listed.
Qed.

(** C8.  The ordered category-count list of a filtered view holds
    exactly its categories with a nonzero count, each with that count
    (length of a flat category, sum of the three sub-sequences of a grouped
    one); it is ordered by the priority sequence, so that every listed
    category precedes "Content" and every entry after an unlisted category
    is unlisted; the unlisted categories come in their encounter order;
    and when every category of the view is listed, as in the views of a
    built taxonomy, nothing follows "Content". *)
Theorem getCategoriesWithCounts_exact_and_ordered (fd : JS.obj bucket) :
  let out := getCategoriesWithCounts fd in
  (forall e, In e out
             <-> In (name e) (JS.keys fd)
                 /\ Spec.hasItems fd (name e) = true
                 /\ Some (count e) = option_map Spec.itemCount (JS.get fd (name e)))
  /\ Permutation (map name out) (filter (Spec.hasItems fd) (JS.keys fd))
  /\ StronglySorted
       (fun a b => Spec.priority (name a) <= Spec.priority (name b)) out
  /\ (forall pre e post x,
         out = pre ++ e :: post /\ name e = "Content" /\ In x post ->
         name x = "Content" \/ Spec.listed (name x) = false)
  /\ (forall pre e post x,
         out = pre ++ e :: post /\ Spec.listed (name e) = false /\ In x post ->
         Spec.listed (name x) = false)
  /\ map name (filter (fun e => negb (Spec.listed (name e))) out)
     = filter (fun k => negb (Spec.listed k))
              (filter (Spec.hasItems fd) (JS.keys fd))
  /\ (NoDup (JS.keys fd) /\ Forall (fun k => Spec.listed k = true) (JS.keys fd) ->
      forall pre e post,
        out = pre ++ e :: post /\ name e = "Content" -> post = []).
Proof.
  cbv zeta. rewrite getCategoriesWithCounts_sort.
  set (L := map (categoryWithCount fd) (filter (Spec.hasItems fd) (JS.keys fd))).
  set (le := fun a b : categoryCount =>
               Spec.priority (name a) <= Spec.priority (name b)).
  assert (Hsorted : StronglySorted le (JS.sort compareCategories L)).
  { apply sort_sorted.
    - apply compareCategories_le.
    - unfold le. intros; lia.
    - unfold le. intros; lia. }
  assert (Hperm : Permutation (JS.sort compareCategories L) L) by apply sort_perm.
  assert (Hnames : Permutation (map name (JS.sort compareCategories L))
                               (filter (Spec.hasItems fd) (JS.keys fd))).
  { rewrite (Permutation_map name Hperm). unfold L. now rewrite names_counted. }
  assert (Hcontent : forall pre e post x,
             JS.sort compareCategories L = pre ++ e :: post
             /\ name e = "Content" /\ In x post ->
             name x = "Content" \/ Spec.listed (name x) = false).
  { intros pre e post x (Hout & He & Hx). rewrite Hout in Hsorted.
    apply sorted_after in Hsorted. rewrite Forall_forall in Hsorted.
    specialize (Hsorted x Hx). unfold le in Hsorted. rewrite He in Hsorted.
    now apply priority_Content. }
  split; [| split; [| split; [| split; [| split; [| split]]]]].
  - intros e. split.
    + intros H. apply (Permutation_in _ Hperm) in H. unfold L in H.
      apply in_map_iff in H as [k [<- Hk]]. apply filter_In in Hk as [Hk Hh].
      split; [exact Hk | split; [exact Hh |]].
      apply In_keys_get in Hk as [b Hb]. cbn [name count categoryWithCount].
      rewrite Hb. cbn [option_map]. now rewrite countBucket_itemCount.
    + intros (Hk & Hh & Hc). apply (Permutation_in _ (Permutation_sym Hperm)).
      unfold L. apply in_map_iff. exists (name e). split.
      * destruct e as [nm n]. cbn [name count] in *. unfold categoryWithCount.
        destruct (JS.get fd nm) as [b |]; [| discriminate Hc].
        cbn [option_map] in Hc. injection Hc as ->.
        now rewrite countBucket_itemCount.
      * apply filter_In. now split.
  - exact Hnames.
  - exact Hsorted.
  - exact Hcontent.
  - intros pre e post x (Hout & He & Hx). rewrite Hout in Hsorted.
    apply sorted_after in Hsorted. rewrite Forall_forall in Hsorted.
    specialize (Hsorted x Hx). unfold le in Hsorted.
    now apply (priority_unlisted (name e)).
  - rewrite (filter_sort compareCategories
                         (fun e => negb (Spec.listed (name e))) L)
      by (intros a b; apply compareCategories_unlisted).
    unfold L.
    apply (filter_names_counted fd (fun k => negb (Spec.listed k))).
  - intros [Hnd Hall] pre e post [Hout He].
    destruct post as [| x post]; [reflexivity |]. exfalso.
    assert (Hx : In x (JS.sort compareCategories L))
      by (rewrite Hout, in_app_iff; right; right; now left).
    assert (Hnx : In (name x) (JS.keys fd)).
    { apply (in_map name) in Hx. apply (Permutation_in _ Hnames) in Hx.
      now apply filter_In in Hx as [Hx _]. }
    rewrite Forall_forall in Hall. specialize (Hall _ Hnx).
    destruct (Hcontent pre e (x :: post) x) as [Hc | Hu];
      [split; [exact Hout | split; [exact He | now left]] | | congruence].
    assert (Hnd' : NoDup (map name (JS.sort compareCategories L))).
    { apply (Permutation_NoDup (Permutation_sym Hnames)).
      now apply NoDup_filter. }
    rewrite Hout, map_app in Hnd'. apply NoDup_app_remove_l in Hnd'.
    cbn [map] in Hnd'. inversion Hnd' as [| ? ? Hnotin _]; subst.
    apply Hnotin. left. congruence.
Qed.

Lemma getCategoriesWithCounts_witness :
  let rawData := map (fun n => mkDescriptor n "data" "u")
                     [ "g_claims_2020"; "g_inventor_disambiguated";
                       "g_patent"; "g_application"; "pg_claims_2021" ] in
  let fd := filterData (Some (processData rawData)) granted "" "all" "all" in
  map name (getCategoriesWithCounts fd)
  = ["Essentials"; "General"; "People"; "Content"]
  /\ forall pre e post,
       getCategoriesWithCounts fd = pre ++ e :: post /\ name e = "Content" ->
       post = [].
Proof.
  intros rawData fd. split; [vm_compute; reflexivity |].
  apply (getCategoriesWithCounts_exact_and_ordered fd). split.
  - exact (keys_filterData_NoDup (processData rawData) granted "" "all" "all").
  - apply Forall_forall. intros k Hk.
    apply (keys_processData_listed rawData granted k).
    exact (proj1 (keys_filterData (processData rawData) granted
                                  "" "all" "all" k) Hk).
Defined.

End OrderingResults.

(* ================================================================== *)
(** * Display names                                                    *)
(* ================================================================== *)

Section DisplayNames.

Lemma capitalize_first (w : string) : capitalize w = Spec.capitalizeFirst w.
Proof. now destruct w. Qed.

Lemma upperChar_underscore (c : ascii) :
  JS.upperChar c = "_"%char -> c = "_"%char.
Proof.
  destruct c as [[] [] [] [] [] [] [] []]; vm_compute; intros H;
    solve [reflexivity | discriminate H].
Qed.

Lemma replaceAllChar_append (c d : ascii) (a b : string) :
  JS.replaceAllChar c d (a ++ b)%string
  = (JS.replaceAllChar c d a ++ JS.replaceAllChar c d b)%string.
Proof.
  unfold JS.replaceAllChar. induction a as [| x a IH]; cbn; [reflexivity |].
  now rewrite IH.
Qed.

Lemma split_noUnderscore (s : string) :
  Forall noUnderscore (JS.split "_" s).
Proof.
  induction s as [| c s IH]; cbn [JS.split].
  - constructor; [reflexivity | constructor].
  - destruct (Ascii.eqb_spec c "_") as [-> | Hc].
    + constructor; [reflexivity | exact IH].
    + destruct (JS.split "_" s) as [| w ws];
        [constructor; [| constructor] |].
      * unfold noUnderscore, JS.replaceAllChar. cbn [JS.mapChars].
        apply Ascii.eqb_neq in Hc. now rewrite Hc.
      * inversion IH as [| ? ? Hw Hws]; subst. constructor; [| exact Hws].
        unfold noUnderscore, JS.replaceAllChar in *. cbn [JS.mapChars].
        apply Ascii.eqb_neq in Hc. now rewrite Hc, Hw.
Qed.

Lemma capitalize_noUnderscore (w : string) :
  noUnderscore w -> noUnderscore (Spec.capitalizeFirst w).
Proof.
  destruct w as [| c w]; [trivial |].
  unfold noUnderscore, JS.replaceAllChar. cbn [Spec.capitalizeFirst JS.mapChars].
  destruct (Ascii.eqb_spec c "_") as [-> | Hc]; [discriminate |].
  intros [= Hw]. rewrite Hw.
  destruct (Ascii.eqb_spec (JS.upperChar c) "_") as [Hu | _]; [| reflexivity].
  now apply upperChar_underscore in Hu.
Qed.

Lemma join_noUnderscore (ws : list string) :
  Forall noUnderscore ws -> noUnderscore (JS.join " " ws).
Proof.
  induction 1 as [| w ws Hw Hws IH]; [reflexivity |].
  destruct ws as [| w' ws]; [exact Hw |].
  change (JS.join " " (w :: w' :: ws))
    with (w ++ " " ++ JS.join " " (w' :: ws))%string.
  unfold noUnderscore in *. rewrite !replaceAllChar_append, Hw, IH. reflexivity.
Qed.

(** The final [replace(/_/g, ' ')] of [categorizeItem] finds nothing to
    replace. *)
Lemma makeDisplayName_plain (id : string) :
  makeDisplayName id = Spec.plainDisplayName id.
Proof.
  unfold makeDisplayName, Spec.plainDisplayName.
  change (JS.stripTypePrefix id) with (Spec.stripPrefix id).
  rewrite (map_ext capitalize Spec.capitalizeFirst capitalize_first).
  apply join_noUnderscore, Forall_map.
  eapply Forall_impl; [| apply split_noUnderscore].
  intros w. apply capitalize_noUnderscore.
Qed.

Lemma length_mapChars (f : ascii -> ascii) (s : string) :
  String.length (JS.mapChars f s) = String.length s.
Proof. induction s; cbn; congruence. Qed.

Lemma ciEqual_length (a b : string) :
  Spec.ciEqual a b -> String.length a = String.length b.
Proof.
  unfold Spec.ciEqual, JS.toUpperCase. intros H.
  rewrite <- (length_mapChars JS.upperChar a), H. apply length_mapChars.
Qed.

Lemma slice_append (a b : string) : JS.slice (String.length a) (a ++ b) = b.
Proof. induction a; cbn; [now destruct b | assumption]. Qed.

Lemma append_inj_length (a b c d : string) :
  (a ++ b)%string = (c ++ d)%string -> String.length a = String.length c ->
  a = c /\ b = d.
Proof.
  revert c. induction a as [| x a IH]; intros [| y c]; cbn; try discriminate.
  - auto.
  - intros [= -> H] [= Hl]. destruct (IH c H Hl). now subst.
Qed.

Lemma matchesHereCI_occurs (pat s : string) :
  JS.matchesHereCI pat s = true <-> Spec.occursAfter pat s "".
Proof.
  unfold Spec.occursAfter, Spec.ciEqual, JS.toUpperCase. cbn [append].
  revert s. induction pat as [| p pat IH]; intros s.
  - split; [| reflexivity]. intros _. now exists EmptyString, s.
  - destruct s as [| c s]; cbn [JS.matchesHereCI].
    + split; [discriminate |]. intros ([| x m] & post & H & E); discriminate.
    + rewrite andb_true_iff, IH, Ascii.eqb_eq. split.
      * intros [Hc (m & post & -> & E)].
        exists (String c m), post. cbn [append JS.mapChars]. split; congruence.
      * intros ([| x m] & post & H & E); [discriminate E |].
        cbn [append JS.mapChars] in *. injection H as -> ->. injection E as Ec E.
        split; [congruence |]. now exists m, post.
Qed.

Lemma occursAfter_cons (pat s pre : string) (c c' : ascii) :
  Spec.occursAfter pat (String c s) (String c' pre)
  <-> c = c' /\ Spec.occursAfter pat s pre.
Proof.
  unfold Spec.occursAfter. cbn [append]. split.
  - intros (m & post & [= -> ->] & E). split; [reflexivity |]. now exists m, post.
  - intros [-> (m & post & -> & E)]. now exists m, post.
Qed.

Lemma occursAfter_empty (pat pre : string) :
  Spec.occursAfter pat "" pre -> Spec.occursAfter pat "" "".
Proof.
  intros (m & post & H & E). destruct pre; [| discriminate H].
  now exists m, post.
Qed.

(** [replaceFirstCI] replaces the leftmost occurrence and nothing else. *)
Lemma replaceFirstCI_first (pat s : string) :
  Spec.firstOccurrenceReplaced pat s (JS.replaceFirstCI pat s).
Proof.
  unfold Spec.firstOccurrenceReplaced.
  induction s as [| c s IH].
  - cbn [JS.replaceFirstCI]. destruct (JS.matchesHereCI pat "") eqn:E.
    + left. apply matchesHereCI_occurs in E as (m & post & H & Hm).
      exists EmptyString, m, post. cbn [append] in *.
      repeat split; [exact H | exact Hm | intros; cbn; lia |].
      rewrite H, <- (ciEqual_length _ _ Hm). now rewrite slice_append.
    + right. split; [| reflexivity]. intros pre Hpre.
      apply occursAfter_empty, matchesHereCI_occurs in Hpre. congruence.
  - cbn [JS.replaceFirstCI]. destruct (JS.matchesHereCI pat (String c s)) eqn:E.
    + left. apply matchesHereCI_occurs in E as (m & post & H & Hm).
      exists EmptyString, m, post. cbn [append] in *.
      repeat split; [exact H | exact Hm | intros; cbn; lia |].
      rewrite H, <- (ciEqual_length _ _ Hm). now rewrite slice_append.
    + assert (Hpos : forall pre, Spec.occursAfter pat (String c s) pre ->
                                 exists pre', pre = String c pre'
                                              /\ Spec.occursAfter pat s pre').
      { intros [| c' pre'] Hp.
        - apply matchesHereCI_occurs in Hp. congruence.
        - apply occursAfter_cons in Hp as [-> Hp]. now exists pre'. }
      destruct IH as [(pre & m & post & Hs & Hm & Hmin & Hr) | [Hno Hr]].
      * left. exists (String c pre), m, post. cbn [append].
        repeat split; [congruence | exact Hm | | congruence].
        intros pre0 Hp. apply Hpos in Hp as (pre' & -> & Hp).
        cbn [String.length]. apply Hmin in Hp. lia.
      * right. split; [| congruence].
        intros pre0 Hp. apply Hpos in Hp as (pre' & -> & Hp).
        exact (Hno pre' Hp).
Qed.

Lemma firstOccurrenceReplaced_unique (pat s s1 s2 : string) :
  Spec.firstOccurrenceReplaced pat s s1 ->
  Spec.firstOccurrenceReplaced pat s s2 -> s1 = s2.
Proof.
  intros [(p1 & m1 & q1 & H1 & E1 & Min1 & R1) | [No1 R1]]
         [(p2 & m2 & q2 & H2 & E2 & Min2 & R2) | [No2 R2]].
  - assert (O1 : Spec.occursAfter pat s p1) by now exists m1, q1.
    assert (O2 : Spec.occursAfter pat s p2) by now exists m2, q2.
    apply Min2 in O1. apply Min1 in O2.
    rewrite H1 in H2. apply append_inj_length in H2 as [-> H2]; [| lia].
    apply append_inj_length in H2 as [-> ->]; [congruence |].
    rewrite (ciEqual_length _ _ E1), (ciEqual_length _ _ E2). reflexivity.
  - exfalso. apply (No2 p1). now exists m1, q1.
  - exfalso. apply (No1 p2). now exists m2, q2.
  - congruence.
Qed.

Lemma acronymsFixed_fold (acrs : list string) (s : string) :
  Spec.acronymsFixed acrs s
    (fold_left (fun displayName abbr => JS.replaceFirstCI abbr displayName)
               acrs s).
Proof.
  revert s. induction acrs as [| a acrs IH]; intros s; [reflexivity |].
  cbn [Spec.acronymsFixed fold_left]. exists (JS.replaceFirstCI a s).
  split; [apply replaceFirstCI_first | apply IH].
Qed.

Lemma acronymsFixed_unique (acrs : list string) (s s1 s2 : string) :
  Spec.acronymsFixed acrs s s1 -> Spec.acronymsFixed acrs s s2 -> s1 = s2.
Proof.
  revert s. induction acrs as [| a acrs IH]; intros s; cbn [Spec.acronymsFixed].
  - congruence.
  - intros (m1 & F1 & A1) (m2 & F2 & A2).
    rewrite (firstOccurrenceReplaced_unique _ _ _ _ F1 F2) in A1.
    exact (IH _ A1 A2).
Qed.

(** C5.  The display name computed by either [categorizeItem] is the
    identifier without its leading "g_" or "pg_", split on "_", each word
    with its first letter in upper case, joined by single spaces; and
    [formatDisplayName] of it is the one string obtained by handling PCT,
    WIPO, CPC, IPC, USPC, US in this order, each time replacing the first
    case-insensitive occurrence, if any, by the upper-case acronym and
    leaving the rest as it is. *)
Theorem display_name_pipeline (it : descriptor) (shown : string) :
  displayName (categorizeItem it) = Spec.plainDisplayName (table_name it)
  /\ displayName (DataProcessor.categorizeItem it)
     = Spec.plainDisplayName (table_name it)
  /\ (Spec.acronymsFixed Spec.acronyms (Spec.plainDisplayName (table_name it))
                         shown
      <-> shown = formatDisplayName (displayName (categorizeItem it))).
Proof.
  assert (E : displayName (categorizeItem it)
              = Spec.plainDisplayName (table_name it))
    by apply makeDisplayName_plain.
  split; [exact E | split; [apply makeDisplayName_plain |]].
  rewrite E. unfold formatDisplayName.
  change abbreviations with Spec.acronyms. split.
  - intros H. eapply acronymsFixed_unique; [exact H | apply acronymsFixed_fold].
  - intros ->. apply acronymsFixed_fold.
Qed.

End DisplayNames.

(* ================================================================== *)
(** * The facet indexer                                                *)
(* ================================================================== *)

Section Facets.

Lemma arrayIncludes_In (s : list string) (x : string) :
  JS.arrayIncludes s x = true <-> In x s.
Proof.
  unfold JS.arrayIncludes. rewrite existsb_exists. split.
  - intros [y [Hy E]]. apply String.eqb_eq in E. now subst.
  - intros H. exists x. split; [exact H | apply String.eqb_refl].
Qed.

Lemma setAdd_In (s : list string) (x y : string) :
  In y (JS.setAdd s x) <-> y = x \/ In y s.
Proof.
  unfold JS.setAdd. destruct (JS.arrayIncludes s x) eqn:E.
  - apply arrayIncludes_In in E. split; [auto |]. intros [-> | H]; assumption.
  - rewrite in_app_iff. cbn [In]. intuition.
Qed.

Lemma setAdd_NoDup (s : list string) (x : string) :
  NoDup s -> NoDup (JS.setAdd s x).
Proof.
  intros H. unfold JS.setAdd. destruct (JS.arrayIncludes s x) eqn:E; [exact H |].
  apply NoDup_app; [exact H | repeat constructor; intros [] | ].
  intros y Hy [<- | []]. apply arrayIncludes_In in Hy. congruence.
Qed.

Lemma collectYear_all (items : list classified) (acc : list string) :
  NoDup acc ->
  let ys := fold_left (collectYear "all") items acc in
  NoDup ys
  /\ forall y, In y ys
               <-> In y acc
                   \/ exists it, In it items /\ year it = Some y /\ y <> "".
Proof.
  revert acc. induction items as [| it items IH]; intros acc Hnd; cbn zeta.
  - split; [exact Hnd |]. intros y. split; [auto |].
    intros [H | (it & [] & _)]. exact H.
  - cbn [fold_left].
    assert (Hstep : NoDup (collectYear "all" acc it)
                    /\ forall y, In y (collectYear "all" acc it)
                                 <-> In y acc
                                     \/ (year it = Some y /\ y <> "")).
    { unfold collectYear. destruct (year it) as [y0 |].
      - cbn [JS.truthy]. change ("all" =? "all") with true. cbn [orb].
        rewrite andb_true_r.
        destruct (String.eqb_spec y0 "") as [-> | Hne]; cbn [negb].
        + split; [exact Hnd |]. intros y. split; [auto |].
          intros [H | [[= <-] Hy]]; [exact H | congruence].
        + split; [now apply setAdd_NoDup |]. intros y. rewrite setAdd_In.
          split.
          * intros [-> | H]; [right; now split | now left].
          * intros [H | [[= ->] _]]; [now right | now left].
      - split; [exact Hnd |]. intros y. split; [auto |].
        intros [H | [[=] _]]. exact H. }
    destruct Hstep as [Hnd' Hin'].
    destruct (IH _ Hnd') as [Hnd'' Hin'']. cbn zeta in *.
    split; [exact Hnd'' |]. intros y. rewrite Hin'', Hin'. cbn [In]. split.
    + intros [[H | [Hy Hne]] | (it' & Hit & Hy & Hne)].
      * now left.
      * right. exists it. auto.
      * right. exists it'. auto.
    + intros [H | (it' & [<- | Hit] & Hy & Hne)].
      * left. now left.
      * left. right. now split.
      * right. exists it'. auto.
Qed.

Lemma digitValue_range (c : ascii) :
  JS.isDigit c = true -> (0 <= JS.digitValue c <= 9)%Z.
Proof.
  unfold JS.isDigit, JS.digitValue. rewrite andb_true_iff, !Nat.leb_le. lia.
Qed.

Lemma digitValue_inj (c d : ascii) :
  JS.isDigit c = true -> JS.isDigit d = true ->
  JS.digitValue c = JS.digitValue d -> c = d.
Proof.
  unfold JS.isDigit, JS.digitValue. rewrite !andb_true_iff, !Nat.leb_le.
  intros Hc Hd H. rewrite <- (ascii_nat_embedding c), <- (ascii_nat_embedding d).
  f_equal. lia.
Qed.

(** [Number] tells four-digit strings apart. *)
Lemma toNumber_inj (a b : string) :
  (String.length a =? 4)%nat && JS.allDigits a = true ->
  (String.length b =? 4)%nat && JS.allDigits b = true ->
  JS.toNumber a = JS.toNumber b -> a = b.
Proof.
  rewrite !andb_true_iff, !Nat.eqb_eq.
  intros [La Da] [Lb Db].
  destruct a as [| a1 [| a2 [| a3 [| a4 [| ? ?]]]]]; try discriminate La.
  destruct b as [| b1 [| b2 [| b3 [| b4 [| ? ?]]]]]; try discriminate Lb.
  cbn [JS.allDigits] in Da, Db. rewrite !andb_true_iff in Da, Db.
  destruct Da as (A1 & A2 & A3 & A4 & _), Db as (B1 & B2 & B3 & B4 & _).
  unfold JS.toNumber. cbn [list_ascii_of_string fold_left].
  pose proof (digitValue_range _ A1). pose proof (digitValue_range _ A2).
  pose proof (digitValue_range _ A3). pose proof (digitValue_range _ A4).
  pose proof (digitValue_range _ B1). pose proof (digitValue_range _ B2).
  pose proof (digitValue_range _ B3). pose proof (digitValue_range _ B4).
  intros E.
  assert (JS.digitValue a1 = JS.digitValue b1) by lia.
  assert (JS.digitValue a2 = JS.digitValue b2) by lia.
  assert (JS.digitValue a3 = JS.digitValue b3) by lia.
  assert (JS.digitValue a4 = JS.digitValue b4) by lia.
  f_equal; [| f_equal; [| f_equal; [| f_equal]]]; now apply digitValue_inj.
Qed.

Lemma sorted_strict (l : list string) :
  Forall (fun y => (String.length y =? 4)%nat && JS.allDigits y = true) l ->
  NoDup l ->
  StronglySorted (fun a b => (JS.toNumber b <= JS.toNumber a)%Z) l ->
  StronglySorted (fun a b => (JS.toNumber b < JS.toNumber a)%Z) l.
Proof.
  induction l as [| x l IH]; intros Hd Hn Hs; [constructor |].
  inversion Hd as [| ? ? Hx Hl]; subst. inversion Hn as [| ? ? Hnx Hnl]; subst.
  inversion Hs as [| ? ? Hsl Hsx]; subst.
  constructor; [now apply IH |].
  rewrite Forall_forall in *. intros y Hy.
  specialize (Hsx y Hy). specialize (Hl y Hy).
  destruct (Z.eq_dec (JS.toNumber y) (JS.toNumber x)) as [E | Hne]; [| lia].
  exfalso. apply Hnx. now rewrite <- (toNumber_inj y x Hl Hx E).
Qed.

(** C9.  For a taxonomy whose Content bucket is flat and whose years are
    four digits, [getYearsForContentType] with "all" returns the years
    present in the Content bucket of the patent type, each once, in
    strictly descending numeric order. *)
Theorem years_for_all_content_types (T : taxonomy) (t : patentType) :
  Spec.contentWellFormed (tab T t) = true ->
  exists ys,
    getYearsForContentType (Some T) t "all" = Some ys
    /\ (forall y, In y ys <-> Spec.contentYear (tab T t) y)
    /\ NoDup ys
    /\ StronglySorted (fun a b => (JS.toNumber b < JS.toNumber a)%Z) ys.
Proof.
  unfold Spec.contentWellFormed, getYearsForContentType, Spec.contentYear.
  destruct (JS.get (tab T t) "Content") as [[items | g] |];
    [| discriminate |].
  - intros Hwf. rewrite forallb_forall in Hwf.
    exists (sortYearsDesc (fold_left (collectYear "all") items [])).
    destruct (collectYear_all items [] (NoDup_nil _)) as [Hnd Hin].
    cbn zeta in Hnd, Hin.
    set (ys := fold_left (collectYear "all") items []) in *.
    assert (Hperm : Permutation (sortYearsDesc ys) ys) by apply sort_perm.
    assert (Hyears : forall y, In y ys
                               <-> exists it, In it items /\ year it = Some y).
    { intros y. rewrite Hin. cbn [In]. split.
      - intros [[] | (it & Hit & Hy & _)]. now exists it.
      - intros (it & Hit & Hy). right. exists it. repeat split; try assumption.
        specialize (Hwf it Hit). rewrite Hy in Hwf.
        intros ->. discriminate Hwf. }
    assert (Hfour : Forall (fun y => (String.length y =? 4)%nat
                                     && JS.allDigits y = true)
                           (sortYearsDesc ys)).
    { apply Forall_forall. intros y Hy. apply (Permutation_in _ Hperm) in Hy.
      apply Hyears in Hy as (it & Hit & Hy). specialize (Hwf it Hit).
      now rewrite Hy in Hwf. }
    assert (Hnd' : NoDup (sortYearsDesc ys))
      by exact (Permutation_NoDup (Permutation_sym Hperm) Hnd).
    split; [reflexivity | split; [| split; [exact Hnd' |]]].
    + intros y. cbn [Spec.bucketItems]. rewrite <- Hyears. split.
      * apply Permutation_in, Hperm.
      * apply Permutation_in, Permutation_sym, Hperm.
    + apply sorted_strict; [exact Hfour | exact Hnd' |].
      unfold sortYearsDesc.
      apply (sort_sorted _ (fun a b => (JS.toNumber b <= JS.toNumber a)%Z));
        intros; lia.
  - intros _. exists []. repeat split; try constructor.
    + intros [].
    + intros (it & [] & _).
Qed.

(** Every taxonomy built by [processData] is well formed in this sense. *)
Lemma processData_contentWellFormed (rawData : list descriptor)
      (t : patentType) :
  Spec.contentWellFormed (tab (processData rawData) t) = true.
Proof.
  unfold Spec.contentWellFormed. rewrite processData_get. cbv zeta.
  change (("Content" =? "People") || ("Content" =? "Geography")) with false.
  cbv iota. unfold aggregated. change ("Content" =? "Essentials") with false.
  cbv iota.
  destruct (Spec.ofCategory t "Content" (map categorizeItem rawData))
    as [| x l] eqn:E; [reflexivity |].
  cbn [option_map]. rewrite <- E. apply forallb_forall. intros it Hit.
  unfold Spec.ofCategory in Hit. apply filter_In in Hit as [Hit _].
  apply in_map_iff in Hit as [d [<- _]].
  unfold categorizeItem, extractYear. cbn [year].
  destruct (detectContentType (table_name d)); [| reflexivity].
  destruct (JS.matchTrailingYear (table_name d)) as [y |] eqn:Ey; [| reflexivity].
  apply matchTrailingYear_spec in Ey as (p & _ & Hy).
  now apply fourDigits_bool.
Qed.

Lemma years_for_all_content_types_witness :
  exists ys,
    getYearsForContentType
      (Some (processData [ mkDescriptor "pg_claims_2020" "Claims" "u";
                           mkDescriptor "pg_abstract_2021" "Abstracts" "u";
                           mkDescriptor "pg_brf_sum_text_2020" "Summaries" "u" ]))
      pregrant "all" = Some ys
    /\ ys = ["2021"; "2020"].
Proof.
  destruct (years_for_all_content_types
              (processData [ mkDescriptor "pg_claims_2020" "Claims" "u";
                             mkDescriptor "pg_abstract_2021" "Abstracts" "u";
                             mkDescriptor "pg_brf_sum_text_2020" "Summaries" "u" ])
              pregrant eq_refl) as (ys & Hys & _).
  exists ys. split; [exact Hys |].
  vm_compute in Hys. now injection Hys as <-.
Defined.

End Facets.

(* ================================================================== *)
(** * Grouping loops                                                   *)
(* ================================================================== *)

Section GroupBy.

Variable key : classified -> string.

Lemma groupBy_snoc (xs : list classified) (x : classified)
      (acc : JS.obj (list classified)) :
  fold_left (groupByStep key) (xs ++ [x]) acc
  = groupByStep key (fold_left (groupByStep key) xs acc) x.
Proof. now rewrite fold_left_app. Qed.

Lemma get_groupByStep (o : JS.obj (list classified)) (x : classified)
      (k : string) :
  JS.get (groupByStep key o x) k
  = if key x =? k
    then Some (match JS.get o (key x) with Some a => a | None => [] end ++ [x])
    else JS.get o k.
Proof.
  unfold groupByStep. rewrite get_pushAt, !get_ensure, String.eqb_refl.
  now destruct (key x =? k).
Qed.

(** Each key of the grouped object holds the items of that key, in input
    order; a key without items is missing. *)
Lemma get_groupBy (xs : list classified) (k : string) :
  JS.get (fold_left (groupByStep key) xs []) k
  = match selected key k xs with
    | [] => None
    | l => Some l
    end.
Proof.
  revert k. induction xs as [| x xs IH] using rev_ind; intros k; [reflexivity |].
  rewrite groupBy_snoc, get_groupByStep. unfold selected in *.
  rewrite filter_app. cbn [filter].
  destruct (String.eqb_spec (key x) k) as [<- | Hne].
  - rewrite IH. rewrite nonempty_snoc.
    now destruct (filter (fun x0 => key x0 =? key x) xs).
  - now rewrite app_nil_r, IH.
Qed.

Lemma keys_groupByStep_NoDup (o : JS.obj (list classified)) (x : classified) :
  NoDup (JS.keys o) -> NoDup (JS.keys (groupByStep key o x)).
Proof.
  intros H. unfold groupByStep, pushAt.
  set (o' := match JS.get o (key x) with
             | None => JS.set o (key x) []
             | Some _ => o
             end).
  assert (H' : NoDup (JS.keys o'))
    by (unfold o'; destruct (JS.get o (key x)); [exact H | now apply keys_set_NoDup]).
  destruct (JS.get o' (key x)); [now apply keys_set_NoDup | exact H'].
Qed.

Lemma keys_groupBy_NoDup (xs : list classified) (acc : JS.obj (list classified)) :
  NoDup (JS.keys acc) -> NoDup (JS.keys (fold_left (groupByStep key) xs acc)).
Proof.
  revert acc. induction xs as [| x xs IH]; intros acc H; [exact H |].
  cbn [fold_left]. now apply IH, keys_groupByStep_NoDup.
Qed.

Lemma keys_groupBy_In (xs : list classified) (k : string) :
  In k (JS.keys (fold_left (groupByStep key) xs []))
  <-> exists x, In x xs /\ key x = k.
Proof.
  split.
  - intros H. apply In_keys_get in H as [v Hv]. rewrite get_groupBy in Hv.
    destruct (selected key k xs) as [| x l] eqn:E; [discriminate |].
    assert (Hx : In x (selected key k xs)) by (rewrite E; now left).
    unfold selected in Hx. apply filter_In in Hx as [Hx Hk].
    apply String.eqb_eq in Hk. now exists x.
  - intros (x & Hx & Hk).
    assert (Hs : In x (selected key k xs)).
    { unfold selected. apply filter_In. split; [exact Hx |].
      now apply String.eqb_eq. }
    destruct (selected key k xs) as [| y l] eqn:E; [destruct Hs |].
    apply (get_Some_In_keys _ _ (y :: l)). now rewrite get_groupBy, E.
Qed.

End GroupBy.

Section Totals.

Context {V : Type} (m : V -> nat).

Lemma totalOf_set (o : JS.obj V) (k : string) (v : V) :
  totalOf m (JS.set o k v)
  + match JS.get o k with Some v0 => m v0 | None => 0 end
  = totalOf m o + m v.
Proof.
  unfold totalOf. induction o as [| [k0 v0] o IH]; cbn [JS.set JS.get map snd].
  - cbn. lia.
  - destruct (k0 =? k); cbn [map snd list_sum]; unfold list_sum in *;
      cbn [fold_right]; lia.
Qed.

(** In an object, the total is the sum over the keys of the measure of
    the value found under the key. *)
Lemma totalOf_keys (o : JS.obj V) :
  NoDup (JS.keys o) ->
  totalOf m o
  = list_sum (map (fun k => match JS.get o k with
                            | Some v => m v
                            | None => 0
                            end) (JS.keys o)).
Proof.
  unfold totalOf. induction o as [| [k v] o IH]; intros H; [reflexivity |].
  cbn [JS.keys map fst snd] in *. inversion H as [| ? ? Hk Ho]; subst.
  cbn [JS.get]. rewrite String.eqb_refl. unfold list_sum in *.
  cbn [fold_right]. f_equal. rewrite (IH Ho). f_equal.
  apply map_ext_in. intros k' Hk'.
  destruct (String.eqb_spec k k') as [-> | _]; [contradiction | reflexivity].
Qed.

End Totals.

Section StringOrder.

Lemma ascii_compare_refl (c : ascii) : Ascii.compare c c = Eq.
Proof. unfold Ascii.compare. apply N.compare_refl. Qed.

Lemma ascii_compare_lt_trans (a b c : ascii) :
  Ascii.compare a b = Lt -> Ascii.compare b c = Lt -> Ascii.compare a c = Lt.
Proof.
  unfold Ascii.compare. rewrite !N.compare_lt_iff. apply N.lt_trans.
Qed.

Lemma string_compare_refl (s : string) : String.compare s s = Eq.
Proof.
  induction s as [| c s IH]; [reflexivity |]. cbn [String.compare].
  now rewrite ascii_compare_refl.
Qed.

Lemma string_compare_lt_trans (a b c : string) :
  String.compare a b = Lt -> String.compare b c = Lt -> String.compare a c = Lt.
Proof.
  revert b c. induction a as [| x a IH]; intros [| y b] [| z c];
    cbn [String.compare]; try easy.
  destruct (Ascii.compare x y) eqn:Exy; try discriminate;
    destruct (Ascii.compare y z) eqn:Eyz; try discriminate.
  - apply Ascii.compare_eq_iff in Exy, Eyz. subst.
    rewrite ascii_compare_refl. apply IH.
  - apply Ascii.compare_eq_iff in Exy. subst. now rewrite Eyz.
  - apply Ascii.compare_eq_iff in Eyz. subst. now rewrite Exy.
  - now rewrite (ascii_compare_lt_trans _ _ _ Exy Eyz).
Qed.

Lemma defaultCompare_le (a b : string) :
  (defaultCompare a b <= 0)%Z <-> String.compare a b <> Gt.
Proof.
  unfold defaultCompare. destruct (String.compare a b); split;
    solve [lia | discriminate | congruence].
Qed.

Lemma notGt_trans (a b c : string) :
  String.compare a b <> Gt -> String.compare b c <> Gt ->
  String.compare a c <> Gt.
Proof.
  intros Hab Hbc.
  destruct (String.compare a b) eqn:Eab; [| | congruence].
  - apply String.compare_eq_iff in Eab. now subst.
  - destruct (String.compare b c) eqn:Ebc; [| | congruence].
    + apply String.compare_eq_iff in Ebc. subst. now rewrite Eab.
    + now rewrite (string_compare_lt_trans _ _ _ Eab Ebc).
Qed.

Lemma notGt_total (a b : string) :
  String.compare a b <> Gt \/ String.compare b a <> Gt.
Proof.
  rewrite (String.compare_antisym b a).
  destruct (String.compare a b); cbn [CompOpp];
    solve [left; discriminate | right; discriminate].
Qed.

Lemma sorted_NoDup_strict {A} (le lt : A -> A -> Prop) (l : list A) :
  (forall a b, le a b -> a <> b -> lt a b) ->
  StronglySorted le l -> NoDup l -> StronglySorted lt l.
Proof.
  intros Hlt. induction 1 as [| x l Hs IH Hx]; intros Hn; [constructor |].
  inversion Hn as [| ? ? Hnx Hnl]; subst. constructor; [now apply IH |].
  rewrite Forall_forall in *. intros y Hy. apply Hlt; [now apply Hx |].
  intros ->. contradiction.
Qed.

(** [sort()] puts distinct strings in strictly ascending order and keeps
    them all. *)
Lemma sortDefault_ascending (l : list string) :
  NoDup l -> ascending (sortDefault l) /\ Permutation (sortDefault l) l.
Proof.
  intros Hn. unfold sortDefault.
  assert (Hp : Permutation (JS.sort defaultCompare l) l) by apply sort_perm.
  split; [| exact Hp]. unfold ascending.
  apply (sorted_NoDup_strict (fun a b => String.compare a b <> Gt)).
  - intros a b Hle Hne. destruct (String.compare a b) eqn:E; [| reflexivity |].
    + now apply String.compare_eq_iff in E.
    + congruence.
  - apply sort_sorted.
    + apply defaultCompare_le.
    + apply notGt_trans.
    + apply notGt_total.
  - exact (Permutation_NoDup (Permutation_sym Hp) Hn).
Qed.

Lemma fold_setAdd (xs acc : list string) :
  NoDup acc ->
  NoDup (fold_left JS.setAdd xs acc)
  /\ forall y, In y (fold_left JS.setAdd xs acc) <-> In y acc \/ In y xs.
Proof.
  revert acc. induction xs as [| x xs IH]; intros acc Hn; cbn [fold_left].
  - split; [exact Hn |]. intros y. cbn [In]. tauto.
  - destruct (IH (JS.setAdd acc x) (setAdd_NoDup _ _ Hn)) as [Hn' Hin].
    split; [exact Hn' |]. intros y. rewrite Hin, setAdd_In. cbn [In].
    intuition.
Qed.

End StringOrder.

(* ================================================================== *)
(** * Person types and matched pairs                                   *)
(* ================================================================== *)

Section PersonTypes.

Lemma groupFiles_orEmpty (fs : list classified) (ty : string) :
  People.orEmpty (People.groupFilesByType fs) ty = selected personTypeOf ty fs.
Proof.
  unfold People.orEmpty.
  change (People.groupFilesByType fs)
    with (fold_left (groupByStep personTypeOf) fs []).
  rewrite get_groupBy. now destruct (selected personTypeOf ty fs).
Qed.

Lemma groupFiles_keys (fs : list classified) (ty : string) :
  In ty (JS.keys (People.groupFilesByType fs))
  <-> exists f, In f fs /\ personTypeOf f = ty.
Proof. apply (keys_groupBy_In personTypeOf). Qed.

Lemma pair_types (dis rw mn : list classified) :
  let tys := map People.personType (People.createMatchedPairs dis rw mn) in
  ascending tys
  /\ forall ty, In ty tys
                <-> exists f, In f (dis ++ rw ++ mn) /\ personTypeOf f = ty.
Proof.
  cbv zeta. unfold People.createMatchedPairs. cbv zeta.
  rewrite map_map. cbn [People.personType]. rewrite map_id.
  set (ks := JS.keys (People.groupFilesByType dis)
             ++ JS.keys (People.groupFilesByType rw)
             ++ JS.keys (People.groupFilesByType mn)).
  destruct (fold_setAdd ks [] (NoDup_nil _)) as [Hn Hin].
  destruct (sortDefault_ascending _ Hn) as [Hasc Hperm].
  split; [exact Hasc |]. intros ty. split.
  - intros H. apply (Permutation_in _ Hperm), Hin in H. cbn [In] in H.
    destruct H as [[] | H]. unfold ks in H. rewrite !in_app_iff in H.
    rewrite !groupFiles_keys in H.
    destruct H as [(f & Hf & E) | [(f & Hf & E) | (f & Hf & E)]];
      exists f; rewrite !in_app_iff; auto.
  - intros (f & Hf & E).
    apply (Permutation_in _ (Permutation_sym Hperm)), Hin. right.
    unfold ks. rewrite !in_app_iff, !groupFiles_keys.
    rewrite !in_app_iff in Hf.
    destruct Hf as [Hf | [Hf | Hf]]; [left | right; left | right; right];
      now exists f.
Qed.

Lemma pair_contents (dis rw mn : list classified) (p : People.pair) :
  In p (People.createMatchedPairs dis rw mn) ->
  People.disambiguated p = selected personTypeOf (People.personType p) dis
  /\ People.raw p = selected personTypeOf (People.personType p) rw
  /\ People.main p = selected personTypeOf (People.personType p) mn.
Proof.
  unfold People.createMatchedPairs. cbv zeta. intros H.
  apply in_map_iff in H as [ty [<- _]].
  cbn [People.disambiguated People.raw People.main People.personType].
  now rewrite !groupFiles_orEmpty.
Qed.

(** X1.  [createMatchedPairs] returns one pair per person type found in
    its three arguments, in strictly ascending order of the type; the
    three lists of a pair are the files of that type of the three
    arguments, in their order; so every file is in exactly the pair of its
    own type. *)
Theorem createMatchedPairs_partitions_by_type (dis rw mn : list classified) :
  let ps := People.createMatchedPairs dis rw mn in
  ascending (map People.personType ps)
  /\ (forall ty, In ty (map People.personType ps)
                 <-> exists f, In f (dis ++ rw ++ mn) /\ personTypeOf f = ty)
  /\ (forall p f,
         In p ps ->
         People.disambiguated p = selected personTypeOf (People.personType p) dis
         /\ People.raw p = selected personTypeOf (People.personType p) rw
         /\ People.main p = selected personTypeOf (People.personType p) mn
         /\ (In f (People.disambiguated p)
             <-> In f dis /\ personTypeOf f = People.personType p)).
Proof.
  cbv zeta. destruct (pair_types dis rw mn) as [Hasc Hin].
  split; [exact Hasc | split; [exact Hin |]].
  intros p f Hp. destruct (pair_contents dis rw mn p Hp) as (Hd & Hr & Hm).
  split; [exact Hd | split; [exact Hr | split; [exact Hm |]]].
  rewrite Hd. unfold selected. rewrite filter_In, String.eqb_eq. tauto.
Qed.

Lemma people_person_type (d : descriptor) :
  category (categorizeItem d) = "People" ->
  In (getPersonType (table_name d))
     ["Assignee"; "Attorney"; "Inventor"; "Applicant"; "Examiner"].
Proof.
  unfold categorizeItem, categoryOf, getPersonType. cbn [category].
  destruct (detectContentType (table_name d)); [discriminate |].
  destruct (JS.includes (table_name d) "assignee"); [cbn; tauto |].
  destruct (JS.includes (table_name d) "attorney"); [cbn; tauto |].
  destruct (JS.includes (table_name d) "lawyer"); [cbn; tauto |].
  destruct (JS.includes (table_name d) "inventor"); [cbn; tauto |].
  destruct (JS.includes (table_name d) "applicant"); [cbn; tauto |].
  destruct (JS.includes (table_name d) "examiner"); [cbn; tauto |].
  cbn [orb]. intros H. exfalso. revert H.
  repeat match goal with
         | |- context [if ?b then _ else _] => destruct b; [discriminate |]
         end.
  discriminate.
Qed.

Lemma filter_none {A} (f : A -> bool) (l : list A) :
  (forall x, In x l -> f x = false) -> filter f l = [].
Proof.
  induction l as [| x l IH]; intros H; [reflexivity |]. cbn [filter].
  rewrite (H x (or_introl eq_refl)). apply IH. intros y Hy. apply H. now right.
Qed.

(** The items of a grouped People category of a filtered view come from
    People items of the input. *)
Lemma view_people_items (rawData : list descriptor) (t : patentType)
      (q yf cf : string) (g : groups) (x : classified) :
  JS.get (filterData (Some (processData rawData)) t q yf cf) "People"
  = Some (Grouped g) ->
  In x (disambiguated g ++ raw g ++ Spec.mainItems g) ->
  exists d, In d rawData /\ x = categorizeItem d /\ category x = "People".
Proof.
  rewrite get_filterData, processData_get. cbv zeta.
  change (("People" =? "People") || ("People" =? "Geography")) with true.
  cbv iota. unfold aggregated. change ("People" =? "Essentials") with false.
  cbv iota.
  destruct (Spec.ofCategory t "People" (map categorizeItem rawData))
    as [| y l] eqn:E; [discriminate |].
  rewrite <- E. clear E y l.
  set (l := Spec.ofCategory t "People" (map categorizeItem rawData)).
  cbn [option_map]. unfold regroup. cbv zeta.
  destruct ((0 <? length (disambiguated (organizeByDisambiguation l)))%nat
            || (0 <? length (raw (organizeByDisambiguation l)))%nat);
    cbn [filterBucket]; [| discriminate].
  intros [= <-]. destruct (organize_filters l) as (Hr & Hd & Hm).
  unfold filterGroups, Spec.mainItems in *. cbn [disambiguated raw main].
  intros Hx.
  assert (Hl : In x l).
  { rewrite !in_app_iff in Hx. destruct Hx as [Hx | [Hx | Hx]].
    - apply filter_In in Hx as [Hx _]. rewrite Hd in Hx.
      now apply filter_In in Hx.
    - apply filter_In in Hx as [Hx _]. rewrite Hr in Hx.
      now apply filter_In in Hx.
    - destruct (main (organizeByDisambiguation l)); [| destruct Hx].
      apply filter_In in Hx as [Hx _]. rewrite Hm in Hx.
      now apply filter_In in Hx. }
  unfold l, Spec.ofCategory in Hl. apply filter_In in Hl as [Hin Hc].
  apply andb_true_iff in Hc as [_ Hc]. apply String.eqb_eq in Hc.
  apply in_map_iff in Hin as [d [<- Hd']]. now exists d.
Qed.

(** X2.  In every filtered view of a built taxonomy, a grouped People
    category has no file of person type "Other": the "Other Files" block is
    empty, and every matched pair is one of Assignee, Attorney, Inventor,
    Applicant, Examiner. *)
Theorem people_view_has_no_other_files (rawData : list descriptor)
        (t : patentType) (q yf cf : string) (g : groups) :
  JS.get (filterData (Some (processData rawData)) t q yf cf) "People"
  = Some (Grouped g) ->
  otherFiles g = []
  /\ forall p,
       In p (People.createMatchedPairs (disambiguated g) (raw g)
                                       (Spec.mainItems g)) ->
       In (People.personType p)
          ["Assignee"; "Attorney"; "Inventor"; "Applicant"; "Examiner"].
Proof.
  intros Hg.
  assert (Hty : forall x,
             In x (disambiguated g ++ raw g ++ Spec.mainItems g) ->
             In (personTypeOf x)
                ["Assignee"; "Attorney"; "Inventor"; "Applicant"; "Examiner"]).
  { intros x Hx.
    destruct (view_people_items rawData t q yf cf g x Hg Hx) as (d & _ & -> & Hc).
    now apply people_person_type. }
  split.
  - unfold otherFiles. destruct (main g) as [m |] eqn:Em; [| reflexivity].
    apply filter_none. intros x Hx.
    assert (Hx' : In x (disambiguated g ++ raw g ++ Spec.mainItems g))
      by (unfold Spec.mainItems; rewrite Em, !in_app_iff; auto).
    apply Hty in Hx'. unfold personTypeOf in Hx'. apply String.eqb_neq.
    intros E. rewrite E in Hx'. cbn in Hx'.
    repeat (destruct Hx' as [Hx' | Hx']; [discriminate Hx' |]). exact Hx'.
  - intros p Hp.
    assert (Hin : In (People.personType p)
                     (map People.personType
                          (People.createMatchedPairs (disambiguated g) (raw g)
                                                     (Spec.mainItems g))))
      by now apply in_map.
    apply (proj2 (pair_types _ _ _)) in Hin as (f & Hf & <-). now apply Hty.
Qed.

Lemma people_view_witness :
  let rawData := [ mkDescriptor "g_inventor_disambiguated" "Inventors" "u";
                   mkDescriptor "g_assignee_not_disambiguated" "Assignees" "u" ] in
  let view := filterData (Some (processData rawData)) granted "" "all" "all" in
  let g := filterGroups ""
             (organizeByDisambiguation (map categorizeItem rawData)) in
  JS.get view "People" = Some (Grouped g) /\ otherFiles g = [].
Proof.
  intros rawData view g.
  assert (Hg : JS.get view "People" = Some (Grouped g))
    by (vm_compute; reflexivity).
  split; [exact Hg |].
  exact (proj1 (people_view_has_no_other_files rawData granted "" "all" "all"
                                               g Hg)).
Defined.

End PersonTypes.

(* ================================================================== *)
(** * Content groups                                                   *)
(* ================================================================== *)

Section ContentGroups.

Lemma get_Some_In_entries {V} (o : JS.obj V) (k : string) (v : V) :
  JS.get o k = Some v -> In (k, v) o.
Proof.
  induction o as [| [k0 v0] o IH]; cbn [JS.get]; [discriminate |].
  destruct (String.eqb_spec k0 k) as [-> | _].
  - intros [= ->]. now left.
  - intros H. right. now apply IH.
Qed.

Lemma In_entries_get {V} (o : JS.obj V) (k : string) (v : V) :
  NoDup (JS.keys o) -> In (k, v) o -> JS.get o k = Some v.
Proof.
  induction o as [| [k0 v0] o IH]; cbn [JS.get JS.keys map fst In];
    intros Hn H; [destruct H |].
  inversion Hn as [| ? ? Hk Ho]; subst.
  destruct H as [[= -> ->] | H].
  - now rewrite String.eqb_refl.
  - destruct (String.eqb_spec k0 k) as [-> | _]; [| now apply IH].
    exfalso. apply Hk. change k with (fst (k, v)). now apply in_map.
Qed.

Lemma total_groupBy (key : classified -> string) (xs : list classified) :
  totalOf (@length classified) (fold_left (groupByStep key) xs [])
  = length xs.
Proof.
  induction xs as [| x xs IH] using rev_ind; [reflexivity |].
  rewrite groupBy_snoc, length_app. cbn [length].
  set (o := fold_left (groupByStep key) xs []) in *.
  unfold groupByStep, pushAt.
  set (o' := match JS.get o (key x) with
             | None => JS.set o (key x) []
             | Some _ => o
             end).
  assert (T1 : totalOf (@length classified) o' = totalOf (@length classified) o).
  { unfold o'. destruct (JS.get o (key x)) eqn:E; [reflexivity |].
    pose proof (totalOf_set (@length classified) o (key x) []) as T.
    rewrite E in T. cbn in T. lia. }
  pose proof (get_ensure o (key x) (key x)) as G. fold o' in G.
  rewrite String.eqb_refl in G. rewrite G.
  pose proof (totalOf_set (@length classified) o' (key x)
                          (match JS.get o (key x) with
                           | Some a => a
                           | None => []
                           end ++ [x])) as T.
  rewrite G, length_app in T. cbn [length] in T. lia.
Qed.

(** X3.  For files whose content types are among the five labels (or
    missing, or "Other"), [sortContentTypes(groupContentByType(files))] has
    one entry per content type found among the files ("Other" standing for
    a missing one); the entry holds the files of that type in their order
    and is never empty; every file is counted once; and the entries follow
    the fixed order Abstract, Brief Summary, Claims, Detailed Description,
    Drawing Description, Other. *)
Theorem content_groups_partition_in_fixed_order (files : list classified) :
  knownContentTypes files = true ->
  let gs := sortContentTypes (groupContentByType files) in
  (forall k l, In (k, l) gs <-> l = selected contentKey k files /\ l <> [])
  /\ NoDup (map fst gs)
  /\ incl (map fst gs) contentTypeOrder
  /\ list_sum (map (fun e => length (snd e)) gs) = length files
  /\ StronglySorted (fun a b => (orderIndex (fst a) <= orderIndex (fst b))%Z) gs.
Proof.
  intros Hknown. cbv zeta. unfold sortContentTypes.
  change (groupContentByType files)
    with (fold_left (groupByStep contentKey) files []).
  set (o := fold_left (groupByStep contentKey) files []).
  set (cmp := fun a b : string * list classified =>
                (orderIndex (fst a) - orderIndex (fst b))%Z).
  assert (Hn : NoDup (JS.keys o))
    by (apply keys_groupBy_NoDup; constructor).
  assert (Hp : Permutation (JS.sort cmp o) o) by apply sort_perm.
  split; [| split; [| split; [| split]]].
  - intros k l. split.
    + intros H. apply (Permutation_in _ Hp) in H.
      apply (In_entries_get _ _ _ Hn) in H. unfold o in H.
      rewrite get_groupBy in H.
      destruct (selected contentKey k files) as [| y ys]; [discriminate |].
      injection H as <-. split; [reflexivity | discriminate].
    + intros [-> Hne]. apply (Permutation_in _ (Permutation_sym Hp)).
      apply get_Some_In_entries. unfold o. rewrite get_groupBy.
      destruct (selected contentKey k files); [congruence | reflexivity].
  - apply (Permutation_NoDup (Permutation_map fst (Permutation_sym Hp))).
    exact Hn.
  - intros k Hk. apply (Permutation_in _ (Permutation_map fst Hp)) in Hk.
    apply (keys_groupBy_In contentKey) in Hk as (x & Hx & <-).
    unfold knownContentTypes in Hknown. rewrite forallb_forall in Hknown.
    apply arrayIncludes_In. now apply Hknown.
  - rewrite (Permutation_map (fun e => length (snd e)) Hp).
    apply (total_groupBy contentKey files).
  - apply sort_sorted; unfold cmp; intros; lia.
Qed.

Lemma content_groups_witness :
  let files := map (fun n => categorizeItem (mkDescriptor n "data" "u"))
                   [ "g_claims_2020"; "g_abstract_2021"; "g_claims_2019" ] in
  let gs := sortContentTypes (groupContentByType files) in
  map fst gs = ["Abstract"; "Claims"]
  /\ list_sum (map (fun e => length (snd e)) gs) = length files.
Proof.
  intros files gs. split; [vm_compute; reflexivity |].
  exact (proj1 (proj2 (proj2 (proj2
           (content_groups_partition_in_fixed_order files eq_refl))))).
Defined.

End ContentGroups.

(* ================================================================== *)
(** * [processData] of dataProcessor.js                                *)
(* ================================================================== *)

Section DataProcessorData.

Lemma filter_filter {A} (f g : A -> bool) (l : list A) :
  filter f (filter g l) = filter (fun x => g x && f x) l.
Proof.
  induction l as [| x l IH]; [reflexivity |]. cbn [filter].
  destruct (g x); cbn [filter andb]; now rewrite IH.
Qed.

Lemma tab_fold_addItem (its : list classified)
      (init : perType (JS.obj (list classified))) (t : patentType) :
  tab (fold_left DataProcessorLib.addItem its init) t
  = fold_left (groupByStep category) (Spec.ofType t its) (tab init t).
Proof.
  revert init. induction its as [| x its IH]; intros init; [reflexivity |].
  cbn [fold_left]. rewrite IH. unfold Spec.ofType. cbn [filter].
  unfold DataProcessorLib.addItem at 1. rewrite tab_setTab.
  destruct (Spec.typeEqb (type x) t) eqn:E; [| reflexivity].
  apply typeEqb_eq in E. subst t. reflexivity.
Qed.

Lemma dataProcessor_category (d : descriptor) :
  category (DataProcessor.categorizeItem d)
  = if category (categorizeItem d) =? "Other" then "General"
    else category (categorizeItem d).
Proof.
  unfold categorizeItem, DataProcessor.categorizeItem. cbn [category].
  unfold DataProcessor.categoryOf, categoryOf.
  destruct (detectContentType (table_name d)); [reflexivity |].
  repeat match goal with
         | |- context [if ?b then _ else _] =>
             match b with
             | (_ =? _) => fail 1
             | _ => destruct b; [reflexivity |]
             end
         end.
  reflexivity.
Qed.

Lemma dataProcessor_category_not (d : descriptor) :
  category (DataProcessor.categorizeItem d) <> "Other"
  /\ category (DataProcessor.categorizeItem d) <> "Essentials".
Proof.
  rewrite dataProcessor_category.
  pose proof (category_not_Essentials d) as He.
  destruct (String.eqb_spec (category (categorizeItem d)) "Other");
    split; congruence.
Qed.

Lemma dataProcessor_get (rawData : list descriptor) (t : patentType)
      (c : string) :
  JS.get (tab (DataProcessorLib.processData rawData) t) c
  = match Spec.ofCategory t c (map DataProcessor.categorizeItem rawData) with
    | [] => None
    | l => Some l
    end.
Proof.
  unfold DataProcessorLib.processData. cbv zeta. rewrite tab_fold_addItem.
  destruct t; cbn [tab ofGranted ofPregrant]; rewrite get_groupBy;
    unfold selected, Spec.ofType, Spec.ofCategory; now rewrite filter_filter.
Qed.

(** X4.  [processData] of dataProcessor.js files every item under its
    patent type and category, in input order; a category without items is
    missing; every item is counted once; and no "Other" and no "Essentials"
    category ever appears. *)
Theorem dataProcessor_processData_groups (rawData : list descriptor)
        (t : patentType) :
  let its := map DataProcessor.categorizeItem rawData in
  let r := tab (DataProcessorLib.processData rawData) t in
  (forall c, JS.get r c = match Spec.ofCategory t c its with
                          | [] => None
                          | l => Some l
                          end)
  /\ NoDup (JS.keys r)
  /\ totalOf (@length classified) r = length (Spec.ofType t its)
  /\ JS.get r "Other" = None
  /\ JS.get r "Essentials" = None.
Proof.
  cbv zeta.
  assert (Hnone : forall c,
             (forall d, category (DataProcessor.categorizeItem d) <> c) ->
             JS.get (tab (DataProcessorLib.processData rawData) t) c = None).
  { intros c Hc. rewrite dataProcessor_get.
    destruct (Spec.ofCategory t c (map DataProcessor.categorizeItem rawData))
      as [| x l] eqn:E; [reflexivity |]. exfalso.
    assert (Hx : In x (Spec.ofCategory t c
                         (map DataProcessor.categorizeItem rawData)))
      by (rewrite E; now left).
    unfold Spec.ofCategory in Hx. apply filter_In in Hx as [Hin Hx].
    apply andb_true_iff in Hx as [_ Hx]. apply String.eqb_eq in Hx.
    apply in_map_iff in Hin as [d [<- _]]. exact (Hc d Hx). }
  split; [intros c; apply dataProcessor_get |].
  split; [| split; [| split]].
  - unfold DataProcessorLib.processData. cbv zeta. rewrite tab_fold_addItem.
    apply keys_groupBy_NoDup. destruct t; constructor.
  - unfold DataProcessorLib.processData. cbv zeta. rewrite tab_fold_addItem.
    destruct t; cbn [tab ofGranted ofPregrant]; apply total_groupBy.
  - apply Hnone. intros d. apply dataProcessor_category_not.
  - apply Hnone. intros d. apply dataProcessor_category_not.
Qed.

(** X5.  The two [processData] functions file the same descriptors: a
    category of dataProcessor.js other than "Other" holds, in the same
    order, the descriptors that the interface classifies into that
    category for that patent type, and its "General" holds in addition
    those the interface classifies as "Other". *)
Theorem dataProcessor_buckets_match_interface (rawData : list descriptor)
        (t : patentType) (c : string) :
  c <> "Other" ->
  map item (match JS.get (tab (DataProcessorLib.processData rawData) t) c with
            | Some l => l
            | None => []
            end)
  = map item
        (filter (fun x => Spec.typeEqb (type x) t
                          && ((category x =? c)
                              || ((c =? "General") && (category x =? "Other"))))
                (map categorizeItem rawData)).
Proof.
  intros Hc. rewrite dataProcessor_get.
  replace (match Spec.ofCategory t c (map DataProcessor.categorizeItem rawData) with
           | [] => None
           | x :: l => Some (x :: l)
           end)
    with (match Spec.ofCategory t c (map DataProcessor.categorizeItem rawData) with
          | [] => None
          | l => Some l
          end) by reflexivity.
  assert (E : match
                match Spec.ofCategory t c
                        (map DataProcessor.categorizeItem rawData) with
                | [] => None
                | l => Some l
                end
              with
              | Some l => l
              | None => []
              end
              = Spec.ofCategory t c (map DataProcessor.categorizeItem rawData))
    by now destruct (Spec.ofCategory t c
                       (map DataProcessor.categorizeItem rawData)).
  rewrite E. clear E. unfold Spec.ofCategory.
  induction rawData as [| d ds IH]; [reflexivity |]. cbn [map filter].
  assert (Hk : (category (DataProcessor.categorizeItem d) =? c)
               = (category (categorizeItem d) =? c)
                 || ((c =? "General") && (category (categorizeItem d) =? "Other"))).
  { rewrite dataProcessor_category.
    destruct (String.eqb_spec (category (categorizeItem d)) "Other") as [-> | Hn].
    - apply String.eqb_neq in Hc. rewrite (String.eqb_sym "Other" c), Hc.
      rewrite andb_true_r. cbn [orb]. apply String.eqb_sym.
    - now rewrite andb_false_r, orb_false_r. }
  change (type (DataProcessor.categorizeItem d)) with (type (categorizeItem d)).
  rewrite Hk.
  destruct (Spec.typeEqb (type (categorizeItem d)) t
            && ((category (categorizeItem d) =? c)
                || ((c =? "General")
                    && (category (categorizeItem d) =? "Other"))));
    cbn [map]; now rewrite IH.
Qed.

Lemma dataProcessor_buckets_witness :
  let rawData := [ mkDescriptor "g_patent" "Patents" "u";
                   mkDescriptor "g_misc" "Misc" "u";
                   mkDescriptor "g_claims_2020" "Claims" "u" ] in
  map item (match JS.get (tab (DataProcessorLib.processData rawData) granted)
                         "General" with
            | Some l => l
            | None => []
            end)
  = [ mkDescriptor "g_patent" "Patents" "u"; mkDescriptor "g_misc" "Misc" "u" ].
Proof.
  intros rawData.
  rewrite (dataProcessor_buckets_match_interface rawData granted "General");
    [vm_compute; reflexivity | discriminate].
Defined.

End DataProcessorData.

(* ================================================================== *)
(** * Shape of a built taxonomy                                        *)
(* ================================================================== *)

Section TaxonomyShape.

Lemma keys_set_present {V} (o : JS.obj V) (k : string) (v : V) :
  JS.get o k <> None -> JS.keys (JS.set o k v) = JS.keys o.
Proof.
  induction o as [| [k0 v0] o IH]; cbn [JS.get JS.set JS.keys map fst];
    [congruence |].
  destruct (k0 =? k); [reflexivity |]. intros H. cbn [map fst]. f_equal.
  now apply IH.
Qed.

Lemma keys_set_head {V} (o : JS.obj V) (k : string) (v : V) (h : string) :
  (exists rest, JS.keys o = h :: rest) ->
  exists rest, JS.keys (JS.set o k v) = h :: rest.
Proof.
  intros [rest H]. destruct o as [| [k0 v0] o]; [discriminate |].
  cbn [JS.keys map fst] in H. injection H as -> _. cbn [JS.set].
  destruct (h =? k); cbn [JS.keys map fst]; eauto.
Qed.

Lemma keys_pushAt_head (o : JS.obj (list classified)) (k : string)
      (x : classified) (h : string) :
  (exists rest, JS.keys o = h :: rest) ->
  exists rest, JS.keys (pushAt o k x) = h :: rest.
Proof.
  intros H. unfold pushAt. destruct (JS.get o k); [now apply keys_set_head | exact H].
Qed.

Lemma keys_pushAt_NoDup (o : JS.obj (list classified)) (k : string)
      (x : classified) :
  NoDup (JS.keys o) -> NoDup (JS.keys (pushAt o k x)).
Proof.
  intros H. unfold pushAt. destruct (JS.get o k); [now apply keys_set_NoDup | exact H].
Qed.

Lemma aggregate_keys (its : list classified) (t : patentType) :
  (exists rest, JS.keys (tab (aggregate its) t) = "Essentials" :: rest)
  /\ NoDup (JS.keys (tab (aggregate its) t)).
Proof.
  induction its as [| x its [IHh IHn]] using rev_ind.
  - destruct t; cbn; split; eauto; repeat constructor; intros [].
  - rewrite aggregate_snoc. unfold addItem. rewrite tab_setTab.
    destruct (Spec.typeEqb (type x) t) eqn:E; [| now split].
    apply typeEqb_eq in E. subst t.
    set (r0 := tab (aggregate its) (type x)) in *.
    set (r1 := match JS.get r0 (category x) with
               | None => JS.set r0 (category x) []
               | Some _ => r0
               end).
    assert (H1 : (exists rest, JS.keys r1 = "Essentials" :: rest)
                 /\ NoDup (JS.keys r1)).
    { unfold r1. destruct (JS.get r0 (category x)); [now split |].
      split; [now apply keys_set_head | now apply keys_set_NoDup]. }
    destruct H1 as [H1h H1n].
    destruct (JS.arrayIncludes essentialFiles (table_name (item x))).
    + split; [now apply keys_pushAt_head, keys_pushAt_head
             | now apply keys_pushAt_NoDup, keys_pushAt_NoDup].
    + split; [now apply keys_pushAt_head | now apply keys_pushAt_NoDup].
Qed.

Lemma keys_asBuckets (o : JS.obj (list classified)) :
  JS.keys (asBuckets o) = JS.keys o.
Proof. unfold asBuckets, JS.keys. rewrite map_map. reflexivity. Qed.

Lemma keys_organizeCategory (r : JS.obj bucket) (c : string) :
  JS.keys (organizeCategory r c) = JS.keys r.
Proof.
  destruct (organizeCategory_regroup r c) as [H | [H _]]; rewrite H;
    [| reflexivity].
  destruct (JS.get r c) eqn:E; [| reflexivity].
  apply keys_set_present. congruence.
Qed.

Lemma keys_processData (rawData : list descriptor) (t : patentType) :
  JS.keys (tab (processData rawData) t)
  = JS.keys (tab (aggregate (map categorizeItem rawData)) t).
Proof.
  assert (E : tab (processData rawData) t
              = organizeType
                  (asBuckets (tab (aggregate (map categorizeItem rawData)) t)))
    by now destruct t.
  rewrite E. unfold organizeType. cbn [fold_left].
  now rewrite !keys_organizeCategory, keys_asBuckets.
Qed.

Lemma processData_bucket (rawData : list descriptor) (t : patentType)
      (c : string) (b : bucket) :
  c <> "Essentials" ->
  JS.get (tab (processData rawData) t) c = Some b ->
  let l := Spec.ofCategory t c (map categorizeItem rawData) in
  l <> []
  /\ (b = Flat l
      \/ ((c = "People" \/ c = "Geography")
          /\ b = Grouped (organizeByDisambiguation l)
          /\ (disambiguated (organizeByDisambiguation l) <> []
              \/ raw (organizeByDisambiguation l) <> []))).
Proof.
  intros Hc. rewrite processData_get. cbv zeta. unfold aggregated.
  apply String.eqb_neq in Hc. rewrite Hc.
  destruct (Spec.ofCategory t c (map categorizeItem rawData)) as [| x l] eqn:E.
  - destruct ((c =? "People") || (c =? "Geography")); discriminate.
  - destruct ((c =? "People") || (c =? "Geography")) eqn:Epg;
      cbn [option_map]; intros [= <-]; (split; [discriminate |]);
      [| now left].
    unfold regroup. cbv zeta.
    destruct (disambiguated (organizeByDisambiguation (x :: l))) as [| d ds] eqn:Ed;
      destruct (raw (organizeByDisambiguation (x :: l))) as [| w ws] eqn:Er;
      cbn [length Nat.ltb Nat.leb orb]; [now left | right | right | right];
      (split; [apply orb_true_iff in Epg;
               rewrite !String.eqb_eq in Epg; exact Epg |]);
      (split; [reflexivity |]); solve [left; discriminate | right; discriminate].
Qed.

(** X6.  In a built taxonomy only People and Geography can be grouped,
    and a grouped one is the split of the items of its category with a
    non-empty disambiguated or raw part; Essentials, Content and every
    other category are flat. *)
Theorem only_people_and_geography_are_grouped (rawData : list descriptor)
        (t : patentType) (c : string) (g : groups) :
  JS.get (tab (processData rawData) t) c = Some (Grouped g) ->
  (c = "People" \/ c = "Geography")
  /\ g = organizeByDisambiguation
           (Spec.ofCategory t c (map categorizeItem rawData))
  /\ (disambiguated g <> [] \/ raw g <> []).
Proof.
  intros H. destruct (String.eqb_spec c "Essentials") as [-> | Hc].
  - rewrite processData_get in H. discriminate H.
  - destruct (processData_bucket rawData t c (Grouped g) Hc H)
      as [_ [Hf | (Hpg & Hg & Hne)]]; [discriminate Hf |].
    injection Hg as ->. auto.
Qed.

Lemma only_people_and_geography_witness :
  let rawData := [ mkDescriptor "g_location_disambiguated" "Locations" "u";
                   mkDescriptor "g_location_not_disambiguated" "Raw" "u" ] in
  let g := organizeByDisambiguation (map categorizeItem rawData) in
  JS.get (tab (processData rawData) granted) "Geography" = Some (Grouped g)
  /\ (disambiguated g <> [] \/ raw g <> []).
Proof.
  intros rawData g.
  assert (Hg : JS.get (tab (processData rawData) granted) "Geography"
               = Some (Grouped g)) by (vm_compute; reflexivity).
  split; [exact Hg |].
  exact (proj2 (proj2 (only_people_and_geography_are_grouped
                         rawData granted "Geography" g Hg))).
Defined.

(** X7.  For every input, the empty one included, and both patent
    types: "Essentials" is the first key of the taxonomy, no key occurs
    twice, every key is one of the twelve ordered categories, and every
    category other than Essentials holds at least one item. *)
Theorem taxonomy_keys_and_buckets (rawData : list descriptor) (t : patentType) :
  let r := tab (processData rawData) t in
  (exists rest, JS.keys r = "Essentials" :: rest)
  /\ NoDup (JS.keys r)
  /\ (forall c, In c (JS.keys r) -> Spec.listed c = true)
  /\ (forall c b, c <> "Essentials" /\ JS.get r c = Some b ->
                  0 < Spec.itemCount b).
Proof.
  cbv zeta. rewrite keys_processData.
  destruct (aggregate_keys (map categorizeItem rawData) t) as [Hh Hn].
  split; [exact Hh | split; [exact Hn | split]].
  - intros c Hc. rewrite <- keys_processData in Hc.
    now apply keys_processData_listed in Hc.
  - intros c b [Hc Hb].
    destruct (processData_bucket rawData t c b Hc Hb) as [Hne [-> | (_ & -> & _)]].
    + cbn [Spec.itemCount].
      destruct (Spec.ofCategory t c (map categorizeItem rawData));
        [congruence | cbn; lia].
    + rewrite itemCount_organize.
      destruct (Spec.ofCategory t c (map categorizeItem rawData));
        [congruence | cbn; lia].
Qed.

(** X8.  The object returned by [organizeByDisambiguation] has a [main]
    property exactly when some item is neither raw nor disambiguated; its
    three parts together hold every item once. *)
Theorem organize_main_property_iff_residual_item (items : list classified) :
  let g := organizeByDisambiguation items in
  (main g = None <-> filter Spec.isMain items = [])
  /\ length (disambiguated g) + length (raw g) + length (Spec.mainItems g)
     = length items.
Proof.
  cbv zeta. split.
  - induction items as [| x items IH] using rev_ind; [now cbn |].
    rewrite organize_snoc, filter_app. unfold organizeStep.
    unfold Spec.isMain, Spec.isDisambiguated, Spec.isRaw in *. cbn [filter].
    destruct (JS.includes (table_name (item x)) "_not_disambiguated");
      [| destruct (JS.includes (table_name (item x)) "_disambiguated")];
      cbn [main negb andb]; rewrite ?app_nil_r; try exact IH.
    split; [discriminate |]. intros H. apply app_eq_nil in H as [_ H].
    discriminate H.
  - destruct (organize_filters items) as (Hr & Hd & Hm).
    rewrite Hr, Hd, Hm. apply three_way_length.
Qed.

End TaxonomyShape.

(* ================================================================== *)
(** * Totals                                                           *)
(* ================================================================== *)

Section TotalFiles.

Lemma fold_sum {A} (f : A -> nat) (l : list A) (a : nat) :
  fold_left (fun s x => s + f x) l a = a + list_sum (map f l).
Proof.
  revert a. induction l as [| x l IH]; intros a; cbn [fold_left map].
  - cbn. lia.
  - rewrite IH. unfold list_sum. cbn [fold_right]. lia.
Qed.

Lemma fold_left_ext_in {A B} (f g : A -> B -> A) (l : list B) (a : A) :
  (forall s x, In x l -> f s x = g s x) -> fold_left f l a = fold_left g l a.
Proof.
  revert a. induction l as [| x l IH]; intros a H; [reflexivity |].
  cbn [fold_left]. rewrite (H a x (or_introl eq_refl)). apply IH.
  intros s y Hy. apply H. now right.
Qed.

(** [getTotalFiles] adds up the counts of all the keys. *)
Lemma getTotalFiles_sum (fd : JS.obj bucket) :
  getTotalFiles fd
  = list_sum (map (fun k => count (categoryWithCount fd k)) (JS.keys fd)).
Proof.
  unfold getTotalFiles.
  rewrite (fold_left_ext_in _ (fun s k => s + count (categoryWithCount fd k))).
  - now rewrite fold_sum.
  - intros s k _. unfold categoryWithCount. cbn [count].
    destruct (JS.get fd k); lia.
Qed.

Lemma sum_filter_nonzero (l : list categoryCount) :
  list_sum (map count (filter (fun cat => (0 <? count cat)%nat) l))
  = list_sum (map count l).
Proof.
  induction l as [| x l IH]; [reflexivity |]. cbn [filter map].
  destruct (Nat.ltb_spec 0 (count x)); cbn [map]; unfold list_sum in *;
    cbn [fold_right]; lia.
Qed.

Lemma sum_counts (fd : JS.obj bucket) :
  list_sum (map count (getCategoriesWithCounts fd)) = getTotalFiles fd.
Proof.
  rewrite getTotalFiles_sum. unfold getCategoriesWithCounts, sortCategories.
  rewrite (Permutation_map count (sort_perm compareCategories _)).
  rewrite sum_filter_nonzero, map_map. reflexivity.
Qed.

(** X9.  The number shown as "datasets available" is the sum of the
    counts of the listed categories, and the list of categories is empty,
    which shows the "No datasets found" message, exactly when that number
    is zero. *)
Theorem total_files_is_sum_of_category_counts (fd : JS.obj bucket) :
  getTotalFiles fd = list_sum (map count (getCategoriesWithCounts fd))
  /\ (getCategoriesWithCounts fd = [] <-> getTotalFiles fd = 0).
Proof.
  split; [symmetry; apply sum_counts |].
  rewrite <- sum_counts. split; [intros ->; reflexivity |].
  intros H. destruct (getCategoriesWithCounts fd) as [| e l] eqn:E;
    [reflexivity |]. exfalso.
  assert (He : In e (getCategoriesWithCounts fd)) by (rewrite E; now left).
  unfold getCategoriesWithCounts, sortCategories in He.
  apply (Permutation_in _ (sort_perm compareCategories _)) in He.
  apply filter_In in He as [_ He]. apply Nat.ltb_lt in He.
  unfold list_sum in H. cbn [map fold_right] in H. lia.
Qed.

Lemma totalOf_split {V} (m : V -> nat) (o : JS.obj V) :
  NoDup (JS.keys o) ->
  totalOf m o
  = totalOutsideEssentials m o
    + match JS.get o "Essentials" with Some v => m v | None => 0 end.
Proof.
  unfold totalOf, totalOutsideEssentials.
  induction o as [| [k v] o IH]; intros Hn; [reflexivity |].
  cbn [JS.keys map fst] in Hn. inversion Hn as [| ? ? Hk Ho]; subst.
  cbn [map filter fst snd JS.get]. specialize (IH Ho).
  destruct (String.eqb_spec k "Essentials") as [-> | Hne]; cbn [negb map snd];
    unfold list_sum in *; cbn [fold_right].
  - assert (E : JS.get o "Essentials" = None).
    { destruct (JS.get o "Essentials") eqn:G; [| reflexivity].
      apply get_Some_In_keys in G. contradiction. }
    rewrite E in IH. lia.
  - lia.
Qed.

Lemma itemCount_neutral (c : string) (b : bucket) :
  Spec.itemCount (filterBucket "" "all" "all" c b) = Spec.itemCount b.
Proof.
  destruct b as [l | g]; cbn [filterBucket Spec.itemCount].
  - f_equal. apply filter_all. intros it. unfold keepFlat.
    now rewrite matchesSearch_empty.
  - unfold filterGroups, Spec.mainItems. cbn [disambiguated raw main].
    rewrite !(filter_all _ _ matchesSearch_empty).
    destruct (main g); [now rewrite (filter_all _ _ matchesSearch_empty) |
                        reflexivity].
Qed.

Lemma getTotalFiles_neutral (T : taxonomy) (t : patentType) :
  NoDup (JS.keys (tab T t)) ->
  getTotalFiles (filterData (Some T) t "" "all" "all")
  = totalOf Spec.itemCount (tab T t).
Proof.
  intros Hn. rewrite getTotalFiles_sum, (totalOf_keys _ _ Hn).
  set (view := filterData (Some T) t "" "all" "all").
  assert (Hp : Permutation (JS.keys view) (JS.keys (tab T t))).
  { apply NoDup_Permutation; [apply keys_filterData_NoDup | exact Hn |].
    intros k. apply keys_filterData. }
  rewrite (Permutation_map _ Hp). f_equal. apply map_ext. intros k.
  unfold categoryWithCount, view. cbn [count]. rewrite get_filterData.
  destruct (JS.get (tab T t) k) as [b |]; [| reflexivity]. cbn [option_map].
  now rewrite countBucket_itemCount, itemCount_neutral.
Qed.

(** X10.  With no filter set, the number of datasets shown for a tab of a
    built taxonomy is the number of input items of that patent type plus
    the number of those on the Essentials allow-list, which are counted
    twice. *)
Theorem unfiltered_total_counts_essentials_twice (rawData : list descriptor)
        (t : patentType) :
  let its := Spec.ofType t (map categorizeItem rawData) in
  getTotalFiles (filterData (Some (processData rawData)) t "" "all" "all")
  = length its + length (filter Spec.isEssential its).
Proof.
  cbv zeta.
  assert (Hn : NoDup (JS.keys (tab (processData rawData) t)))
    by (rewrite keys_processData; apply aggregate_keys).
  rewrite (getTotalFiles_neutral _ _ Hn), (totalOf_split _ _ Hn).
  change (totalOutsideEssentials Spec.itemCount (tab (processData rawData) t))
    with (Spec.naturalTotal (tab (processData rawData) t)).
  rewrite total_processData, processData_get. cbv zeta.
  change (("Essentials" =? "People") || ("Essentials" =? "Geography"))
    with false.
  cbv iota. unfold aggregated. change ("Essentials" =? "Essentials") with true.
  cbv iota. cbn [option_map Spec.itemCount]. unfold Spec.ofType.
  now rewrite filter_filter.
Qed.

End TotalFiles.

(* ================================================================== *)
(** * More on the filter engine                                        *)
(* ================================================================== *)

Section FilterMore.

Lemma lower_upper_char (c : ascii) :
  JS.lowerChar (JS.upperChar c) = JS.lowerChar c.
Proof. destruct c as [[] [] [] [] [] [] [] []]; reflexivity. Qed.

Lemma lower_lower_char (c : ascii) :
  JS.lowerChar (JS.lowerChar c) = JS.lowerChar c.
Proof. destruct c as [[] [] [] [] [] [] [] []]; reflexivity. Qed.

Lemma toLowerCase_toUpperCase (s : string) :
  JS.toLowerCase (JS.toUpperCase s) = JS.toLowerCase s.
Proof.
  unfold JS.toLowerCase, JS.toUpperCase.
  induction s as [| c s IH]; [reflexivity |]. cbn [JS.mapChars].
  now rewrite lower_upper_char, IH.
Qed.

Lemma toLowerCase_idempotent (s : string) :
  JS.toLowerCase (JS.toLowerCase s) = JS.toLowerCase s.
Proof.
  unfold JS.toLowerCase.
  induction s as [| c s IH]; [reflexivity |]. cbn [JS.mapChars].
  now rewrite lower_lower_char, IH.
Qed.

Lemma filterData_same_lower (T : taxonomy) (t : patentType)
      (q q' yf cf : string) :
  JS.toLowerCase q = JS.toLowerCase q' ->
  filterData (Some T) t q yf cf = filterData (Some T) t q' yf cf.
Proof.
  intros E. unfold filterData. apply fold_left_ext_in. intros acc c _.
  assert (Hm : forall it, matchesSearch q it = matchesSearch q' it)
    by (intros it; unfold matchesSearch; now rewrite E).
  unfold filterCategory. destruct (JS.get (tab T t) c) as [[l | g] |];
    [| | reflexivity]; f_equal; f_equal.
  - apply filter_ext. intros it. unfold keepFlat. now rewrite Hm.
  - unfold filterGroups. rewrite !(filter_ext _ _ Hm).
    destruct (main g); [now rewrite (filter_ext _ _ Hm) | reflexivity].
Qed.

(** X11.  The search ignores the case of an ASCII query: the query in
    upper case, or in lower case, gives the same filtered view. *)
Theorem search_ignores_case_of_query (T : taxonomy) (t : patentType)
        (q yf cf : string) :
  isAscii q = true ->
  filterData (Some T) t (JS.toUpperCase q) yf cf = filterData (Some T) t q yf cf
  /\ filterData (Some T) t (JS.toLowerCase q) yf cf
     = filterData (Some T) t q yf cf.
Proof.
  intros _. split; apply filterData_same_lower.
  - apply toLowerCase_toUpperCase.
  - apply toLowerCase_idempotent.
Qed.

Lemma search_ignores_case_witness :
  let T := processData [ mkDescriptor "g_patent" "Patent data" "u";
                         mkDescriptor "g_claims_2020" "Claims" "u" ] in
  filterData (Some T) granted "PAT" "all" "all"
  = filterData (Some T) granted "Pat" "all" "all".
Proof.
  intros T.
  exact (proj1 (search_ignores_case_of_query T granted "Pat" "all" "all"
                                             eq_refl)).
Defined.

(** X12.  The year and content-type filters touch the "Content" category
    only: every other category of the view is what the query alone
    leaves. *)
Theorem facets_only_affect_Content (T : taxonomy) (t : patentType)
        (q yf cf c : string) :
  c <> "Content" ->
  JS.get (filterData (Some T) t q yf cf) c
  = JS.get (filterData (Some T) t q "all" "all") c.
Proof.
  intros Hc. rewrite !get_filterData.
  destruct (JS.get (tab T t) c) as [[l | g] |]; [| reflexivity | reflexivity].
  cbn [option_map filterBucket]. do 2 f_equal. apply filter_ext. intros it.
  unfold keepFlat. apply String.eqb_neq in Hc. rewrite Hc.
  now rewrite !andb_false_r.
Qed.

Lemma facets_only_affect_Content_witness :
  let T := processData [ mkDescriptor "g_patent" "Patents" "u";
                         mkDescriptor "g_claims_2020" "Claims" "u" ] in
  JS.get (filterData (Some T) granted "pat" "2019" "Abstract") "General"
  = JS.get (filterData (Some T) granted "pat" "all" "all") "General".
Proof.
  intros T.
  apply (facets_only_affect_Content T granted "pat" "2019" "Abstract" "General").
  discriminate.
Defined.

End FilterMore.

(* ================================================================== *)
(** * More on the facet lists                                          *)
(* ================================================================== *)

Section Collecting.

Variables (f : list string -> classified -> list string)
          (g : classified -> option string).
Hypothesis f_adds :
  forall acc it, f acc it = match g it with
                            | Some y => JS.setAdd acc y
                            | None => acc
                            end.

Lemma collect_fold (items : list classified) (acc : list string) :
  NoDup acc ->
  NoDup (fold_left f items acc)
  /\ forall y, In y (fold_left f items acc)
               <-> In y acc \/ exists it, In it items /\ g it = Some y.
Proof.
  revert acc. induction items as [| it items IH]; intros acc Hn;
    cbn [fold_left].
  - split; [exact Hn |]. intros y. split; [auto |].
    intros [H | (it & [] & _)]. exact H.
  - assert (Hn' : NoDup (f acc it))
      by (rewrite f_adds; destruct (g it); [now apply setAdd_NoDup | exact Hn]).
    destruct (IH _ Hn') as [Hn'' Hin]. split; [exact Hn'' |].
    intros y. rewrite Hin, f_adds. cbn [In]. split.
    + intros [H | (it' & Hit & Hy)].
      * destruct (g it) as [y0 |] eqn:E; [| now left].
        apply setAdd_In in H as [-> | H]; [| now left].
        right. exists it. auto.
      * right. exists it'. auto.
    + intros [H | (it' & [<- | Hit] & Hy)].
      * left. destruct (g it); [apply setAdd_In; now right | exact H].
      * left. rewrite Hy. apply setAdd_In. now left.
      * right. exists it'. auto.
Qed.

Lemma collect_fold_app (xs ys : list classified) (acc : list string) :
  fold_left f ys (fold_left f xs acc) = fold_left f (xs ++ ys) acc.
Proof. now rewrite fold_left_app. Qed.

(** The collected set depends on the items only through [g]. *)
Lemma collect_fold_same (xs ys : list classified) (acc : list string) :
  map g xs = map g ys -> fold_left f xs acc = fold_left f ys acc.
Proof.
  revert ys acc. induction xs as [| x xs IH]; intros [| y ys] acc H;
    try discriminate; [reflexivity |].
  cbn [map] in H. injection H as Hxy H. cbn [fold_left].
  rewrite !f_adds, Hxy. now apply IH.
Qed.

End Collecting.

Section FacetLists.

Lemma collectYear_pick (ct : string) (acc : list string) (it : classified) :
  collectYear ct acc it = match yearPick ct it with
                          | Some y => JS.setAdd acc y
                          | None => acc
                          end.
Proof.
  unfold collectYear, yearPick. destruct (year it) as [y |]; [| reflexivity].
  now destruct (JS.truthy (Some y)
                && ((ct =? "all") || JS.strictEq (contentType it) ct)).
Qed.

Lemma collectAnyYear_pick (acc : list string) (it : classified) :
  collectAnyYear acc it = match anyYearPick it with
                          | Some y => JS.setAdd acc y
                          | None => acc
                          end.
Proof.
  unfold collectAnyYear, anyYearPick. destruct (year it) as [y |];
    [| reflexivity]. now destruct (JS.truthy (Some y)).
Qed.

Lemma collectContentType_pick (acc : list string) (it : classified) :
  collectContentType acc it = match contentTypePick it with
                              | Some y => JS.setAdd acc y
                              | None => acc
                              end.
Proof.
  unfold collectContentType, contentTypePick.
  destruct (contentType it) as [y |]; [| reflexivity].
  now destruct (JS.truthy (Some y)).
Qed.

Lemma overContent_array (f : list string -> classified -> list string)
      (T : taxonomy) (t : patentType) (s : list string) :
  contentIsArray T t = true ->
  overContent f T (Some s) t = Some (fold_left f (contentItems T t) s).
Proof.
  unfold contentIsArray, overContent, contentItems.
  now destruct (JS.get (tab T t) "Content") as [[l | g] |].
Qed.

Lemma processData_content (rawData : list descriptor) (t : patentType) :
  contentIsArray (processData rawData) t = true
  /\ contentItems (processData rawData) t
     = Spec.ofCategory t "Content" (map categorizeItem rawData).
Proof.
  unfold contentIsArray, contentItems. rewrite processData_get. cbv zeta.
  change (("Content" =? "People") || ("Content" =? "Geography")) with false.
  cbv iota. unfold aggregated. change ("Content" =? "Essentials") with false.
  cbv iota.
  now destruct (Spec.ofCategory t "Content" (map categorizeItem rawData)).
Qed.

Lemma category_Content_iff (d : descriptor) :
  category (categorizeItem d) = "Content"
  <-> contentType (categorizeItem d) <> None.
Proof.
  unfold categorizeItem, categoryOf. cbn [category contentType].
  destruct (detectContentType (table_name d)); [split; congruence |].
  split; [| congruence]. intros H. exfalso. revert H.
  repeat match goal with
         | |- context [if ?b then _ else _] => destruct b; [discriminate |]
         end.
  discriminate.
Qed.

Lemma contentType_label (d : descriptor) (ct : string) :
  contentType (categorizeItem d) = Some ct ->
  In ct (map snd Spec.contentTypePatterns).
Proof.
  unfold categorizeItem, detectContentType. cbn [contentType].
  repeat match goal with
         | |- context [if ?b then _ else _] =>
             destruct b; [intros [= <-]; cbn; tauto |]
         end.
  discriminate.
Qed.

Lemma year_four_digits (d : descriptor) (y : string) :
  year (categorizeItem d) = Some y ->
  (String.length y =? 4)%nat && JS.allDigits y = true
  /\ contentType (categorizeItem d) <> None.
Proof.
  unfold categorizeItem, extractYear. cbn [year contentType].
  destruct (detectContentType (table_name d)); [| discriminate].
  intros H. split; [| discriminate].
  apply matchTrailingYear_spec in H as (p & _ & Hy). now apply fourDigits_bool.
Qed.

(** An item of the input with a content type is a Content item of its
    patent type. *)
Lemma content_item_of_input (rawData : list descriptor) (d : descriptor) :
  In d rawData -> contentType (categorizeItem d) <> None ->
  In (categorizeItem d)
     (contentItems (processData rawData) (type (categorizeItem d))).
Proof.
  intros Hd Hc. rewrite (proj2 (processData_content rawData _)).
  unfold Spec.ofCategory. apply filter_In. split; [now apply in_map |].
  rewrite typeEqb_refl. apply String.eqb_eq. now apply category_Content_iff.
Qed.

Lemma content_item_from_input (rawData : list descriptor) (t : patentType)
      (it : classified) :
  In it (contentItems (processData rawData) t) ->
  exists d, In d rawData /\ it = categorizeItem d.
Proof.
  rewrite (proj2 (processData_content rawData t)). unfold Spec.ofCategory.
  intros H. apply filter_In in H as [H _].
  apply in_map_iff in H as [d [<- Hd]]. now exists d.
Qed.

Lemma sortYearsDesc_descending (l : list string) :
  NoDup l ->
  Forall (fun y => (String.length y =? 4)%nat && JS.allDigits y = true) l ->
  descendingYears (sortYearsDesc l) /\ Permutation (sortYearsDesc l) l.
Proof.
  intros Hn Hf.
  assert (Hp : Permutation (sortYearsDesc l) l) by apply sort_perm.
  split; [| exact Hp]. apply sorted_strict.
  - exact (Permutation_Forall (Permutation_sym Hp) Hf).
  - exact (Permutation_NoDup (Permutation_sym Hp) Hn).
  - apply (sort_sorted _ (fun a b => (JS.toNumber b <= JS.toNumber a)%Z));
      intros; lia.
Qed.

(** X13.  For every input, [getAvailableYears] of the built taxonomy
    returns the years of the input descriptors, each once, in strictly
    descending numeric order. *)
Theorem available_years_of_input (rawData : list descriptor) :
  exists ys,
    getAvailableYears (processData rawData) = Some ys
    /\ descendingYears ys
    /\ forall y, In y ys
                 <-> exists d, In d rawData /\ year (categorizeItem d) = Some y.
Proof.
  set (T := processData rawData).
  set (l := contentItems T granted ++ contentItems T pregrant).
  exists (sortYearsDesc (fold_left collectAnyYear l [])).
  destruct (collect_fold _ _ collectAnyYear_pick l [] (NoDup_nil _))
    as [Hn Hin].
  assert (Hyear : forall y,
             In y (fold_left collectAnyYear l [])
             <-> exists d, In d rawData /\ year (categorizeItem d) = Some y).
  { intros y. rewrite Hin. cbn [In]. split.
    - intros [[] | (it & Hit & Hy)]. unfold l in Hit.
      apply in_app_iff in Hit as [Hit | Hit];
        apply content_item_from_input in Hit as (d & Hd & ->);
        exists d; (split; [exact Hd |]);
        unfold anyYearPick in Hy;
        destruct (year (categorizeItem d)) as [y0 |]; try discriminate;
        destruct (JS.truthy (Some y0)); congruence.
    - intros (d & Hd & Hy). right. exists (categorizeItem d). split.
      + destruct (year_four_digits d y Hy) as [_ Hc].
        pose proof (content_item_of_input rawData d Hd Hc) as Hi.
        unfold l. apply in_app_iff. fold T in Hi.
        destruct (type (categorizeItem d)); auto.
      + unfold anyYearPick. rewrite Hy.
        destruct (year_four_digits d y Hy) as [H4 _].
        destruct y; [discriminate H4 | reflexivity]. }
  assert (Hfour : Forall (fun y => (String.length y =? 4)%nat
                                   && JS.allDigits y = true)
                         (fold_left collectAnyYear l [])).
  { apply Forall_forall. intros y Hy. apply Hyear in Hy as (d & _ & Hy).
    now apply (year_four_digits d y). }
  destruct (sortYearsDesc_descending _ Hn Hfour) as [Hdesc Hperm].
  split; [| split; [exact Hdesc |]].
  - unfold getAvailableYears. cbn [fold_left].
    rewrite overContent_array by apply processData_content.
    rewrite overContent_array by apply processData_content.
    cbn [option_map]. unfold l. now rewrite fold_left_app.
  - intros y. rewrite <- Hyear. split.
    + apply Permutation_in, Hperm.
    + apply Permutation_in, Permutation_sym, Hperm.
Qed.

(** X14.  For every input, [getContentTypes] of the built taxonomy
    returns the content types of the input descriptors, each once, in
    strictly ascending order; they are among the five labels of the
    classifier. *)
Theorem content_types_of_input (rawData : list descriptor) :
  exists cts,
    getContentTypes (processData rawData) = Some cts
    /\ ascending cts
    /\ (forall ct, In ct cts
                   <-> exists d, In d rawData
                                 /\ contentType (categorizeItem d) = Some ct)
    /\ incl cts (map snd Spec.contentTypePatterns).
Proof.
  set (T := processData rawData).
  set (l := contentItems T granted ++ contentItems T pregrant).
  exists (sortDefault (fold_left collectContentType l [])).
  destruct (collect_fold _ _ collectContentType_pick l [] (NoDup_nil _))
    as [Hn Hin].
  destruct (sortDefault_ascending _ Hn) as [Hasc Hperm].
  assert (Hct : forall ct,
             In ct (sortDefault (fold_left collectContentType l []))
             <-> exists d, In d rawData
                           /\ contentType (categorizeItem d) = Some ct).
  { intros ct. split.
    - intros H. apply (Permutation_in _ Hperm), Hin in H. cbn [In] in H.
      destruct H as [[] | (it & Hit & Hy)]. unfold l in Hit.
      apply in_app_iff in Hit as [Hit | Hit];
        apply content_item_from_input in Hit as (d & Hd & ->);
        exists d; (split; [exact Hd |]);
        unfold contentTypePick in Hy;
        destruct (contentType (categorizeItem d)) as [y0 |]; try discriminate;
        destruct (JS.truthy (Some y0)); congruence.
    - intros (d & Hd & Hy).
      apply (Permutation_in _ (Permutation_sym Hperm)), Hin. right.
      exists (categorizeItem d). split.
      + assert (Hc : contentType (categorizeItem d) <> None) by congruence.
        pose proof (content_item_of_input rawData d Hd Hc) as Hi.
        unfold l. apply in_app_iff. fold T in Hi.
        destruct (type (categorizeItem d)); auto.
      + unfold contentTypePick. rewrite Hy.
        apply contentType_label in Hy. cbn in Hy.
        repeat (destruct Hy as [<- | Hy]; [reflexivity |]). destruct Hy. }
  split; [| split; [exact Hasc | split; [exact Hct |]]].
  - unfold getContentTypes. cbn [fold_left].
    rewrite overContent_array by apply processData_content.
    rewrite overContent_array by apply processData_content.
    cbn [option_map]. unfold l. now rewrite fold_left_app.
  - intros ct H. apply Hct in H as (d & _ & Hy).
    now apply (contentType_label d).
Qed.

End FacetLists.

Section FacetSelection.

Lemma yearPick_Some (ct : string) (it : classified) (y : string) :
  yearPick ct it = Some y
  <-> year it = Some y /\ y <> ""
      /\ (ct = "all" \/ contentType it = Some ct).
Proof.
  unfold yearPick, JS.truthy, JS.strictEq.
  destruct (year it) as [y0 |]; [| split; [discriminate | intros [[=] _]]].
  destruct (String.eqb_spec y0 "") as [-> | Hne]; cbn [negb andb].
  - split; [discriminate | intros ([= <-] & H & _); congruence].
  - destruct (String.eqb_spec ct "all") as [-> | Hall]; cbn [orb].
    + split; [intros [= <-]; auto | intros ([= <-] & _); reflexivity].
    + destruct (contentType it) as [c0 |].
      * destruct (String.eqb_spec c0 ct) as [-> | Hc]; split;
          try (intros [= <-]; auto); try discriminate.
        -- intros ([= <-] & _); reflexivity.
        -- intros ([= <-] & _ & [H | [= H]]); congruence.
      * split; [discriminate |]. intros (_ & _ & [H | H]); congruence.
Qed.

Lemma yearPick_passes (ct : string) (it : classified) (y : string) :
  yearPick ct it = Some y -> keepFlat "" y ct "Content" it = true.
Proof.
  intros H. apply yearPick_Some in H as (Hy & _ & Hct).
  unfold keepFlat. rewrite matchesSearch_empty, Hy.
  change ("Content" =? "Content") with true. rewrite !andb_true_r.
  cbn [JS.strictEq andb]. rewrite String.eqb_refl.
  replace (if negb (y =? "all") then true else true) with true
    by now destruct (negb (y =? "all")).
  destruct Hct as [-> | ->]; [reflexivity |].
  cbn [JS.strictEq]. rewrite String.eqb_refl. now destruct (negb (ct =? "all")).
Qed.

(** What [getYearsForContentType] returns when it returns. *)
Lemma getYears_Some (T : taxonomy) (t : patentType) (ct : string)
      (ys : list string) :
  getYearsForContentType (Some T) t ct = Some ys ->
  contentIsArray T t = true
  /\ ys = sortYearsDesc (fold_left (collectYear ct) (contentItems T t) []).
Proof.
  unfold getYearsForContentType, contentIsArray, contentItems.
  destruct (JS.get (tab T t) "Content") as [[l | g] |]; [| discriminate |];
    intros [= <-]; split; reflexivity.
Qed.

Lemma getYears_In (T : taxonomy) (t : patentType) (ct : string)
      (ys : list string) (y : string) :
  getYearsForContentType (Some T) t ct = Some ys ->
  (In y ys <-> exists it, In it (contentItems T t) /\ yearPick ct it = Some y).
Proof.
  intros H. apply getYears_Some in H as [_ ->].
  destruct (collect_fold _ _ (collectYear_pick ct) (contentItems T t) []
                         (NoDup_nil _)) as [_ Hin].
  assert (Hp : Permutation
                 (sortYearsDesc (fold_left (collectYear ct) (contentItems T t) []))
                 (fold_left (collectYear ct) (contentItems T t) []))
    by apply sort_perm.
  split.
  - intros Hy. apply (Permutation_in _ Hp), Hin in Hy. cbn [In] in Hy.
    now destruct Hy as [[] | Hy].
  - intros Hy. apply (Permutation_in _ (Permutation_sym Hp)), Hin. now right.
Qed.

Lemma offered_year_item (T : taxonomy) (t : patentType) (ct y : string)
      (ys : list string) :
  getYearsForContentType (Some T) t ct = Some ys -> In y ys ->
  exists it,
    In it (Spec.bucketItems (JS.get (filterData (Some T) t "" y ct) "Content"))
    /\ year it = Some y.
Proof.
  intros Hys Hy. pose proof (getYears_Some _ _ _ _ Hys) as [Harr _].
  apply (getYears_In _ _ _ _ y Hys) in Hy as (it & Hit & Hpick).
  exists it. split; [| now apply yearPick_Some in Hpick].
  rewrite get_filterData. unfold contentIsArray, contentItems in *.
  destruct (JS.get (tab T t) "Content") as [[l | g] |];
    [| discriminate | destruct Hit].
  cbn [option_map filterBucket Spec.bucketItems] in *. apply filter_In.
  split; [exact Hit | now apply yearPick_passes].
Qed.

(** X15.  For a taxonomy whose Content bucket is flat with four-digit
    years, [getYearsForContentType] with a content type returns, in
    strictly descending order, the years of the Content items of that
    content type (of all of them for "all"), and all of them are among the
    years returned for "all". *)
Theorem years_for_a_content_type (T : taxonomy) (t : patentType) (ct : string) :
  Spec.contentWellFormed (tab T t) = true ->
  exists ys,
    getYearsForContentType (Some T) t ct = Some ys
    /\ descendingYears ys
    /\ (forall y, In y ys
                  <-> exists it, In it (contentItems T t) /\ year it = Some y
                                 /\ (ct = "all" \/ contentType it = Some ct))
    /\ (forall every, getYearsForContentType (Some T) t "all" = Some every ->
                      incl ys every).
Proof.
  intros Hwf.
  assert (Hfour : forall it y, In it (contentItems T t) -> year it = Some y ->
                               (String.length y =? 4)%nat
                               && JS.allDigits y = true).
  { unfold Spec.contentWellFormed, contentItems in *. intros it y Hit Hy.
    destruct (JS.get (tab T t) "Content") as [[l | g] |];
      [| discriminate | destruct Hit].
    rewrite forallb_forall in Hwf. specialize (Hwf it Hit).
    now rewrite Hy in Hwf. }
  assert (Hsome : getYearsForContentType (Some T) t ct
                  = Some (sortYearsDesc
                            (fold_left (collectYear ct) (contentItems T t) []))).
  { unfold Spec.contentWellFormed, getYearsForContentType, contentItems in *.
    now destruct (JS.get (tab T t) "Content") as [[l | g] |]. }
  eexists. split; [exact Hsome |].
  assert (Hin : forall y,
             In y (sortYearsDesc
                     (fold_left (collectYear ct) (contentItems T t) []))
             <-> exists it, In it (contentItems T t) /\ year it = Some y
                            /\ (ct = "all" \/ contentType it = Some ct)).
  { intros y. rewrite (getYears_In _ _ _ _ y Hsome). split.
    - intros (it & Hit & Hp). apply yearPick_Some in Hp as (Hy & _ & Hc).
      now exists it.
    - intros (it & Hit & Hy & Hc). exists it. split; [exact Hit |].
      apply yearPick_Some. split; [exact Hy | split; [| exact Hc]].
      intros ->. now specialize (Hfour it "" Hit Hy). }
  split; [| split; [exact Hin |]].
  - destruct (collect_fold _ _ (collectYear_pick ct) (contentItems T t) []
                           (NoDup_nil _)) as [Hn Hc].
    apply sortYearsDesc_descending; [exact Hn |].
    apply Forall_forall. intros y Hy. apply Hc in Hy. cbn [In] in Hy.
    destruct Hy as [[] | (it & Hit & Hp)].
    apply yearPick_Some in Hp as (Hy & _). now apply (Hfour it).
  - intros every Hev y Hy. apply Hin in Hy as (it & Hit & Hyr & _).
    apply (getYears_In _ _ _ _ y Hev). exists it. split; [exact Hit |].
    apply yearPick_Some. split; [exact Hyr | split; [| now left]].
    intros ->. now specialize (Hfour it "" Hit Hyr).
Qed.

Lemma years_for_a_content_type_witness :
  let T := processData [ mkDescriptor "pg_claims_2020" "Claims" "u";
                         mkDescriptor "pg_abstract_2021" "Abstracts" "u";
                         mkDescriptor "pg_claims_2019" "Claims" "u" ] in
  exists ys,
    getYearsForContentType (Some T) pregrant "Claims" = Some ys
    /\ ys = ["2020"; "2019"].
Proof.
  intros T.
  destruct (years_for_a_content_type T pregrant "Claims" eq_refl)
    as (ys & Hys & _).
  exists ys. split; [exact Hys |].
  vm_compute in Hys. now injection Hys as <-.
Defined.

(** X16.  Every year that [getYearsForContentType] offers for a content
    type has datasets: with that year and that content type selected and
    no query, the Content category of the view holds an item of that
    year. *)
Theorem offered_year_has_datasets (T : taxonomy) (t : patentType)
        (ct y : string) (ys : list string) :
  getYearsForContentType (Some T) t ct = Some ys -> In y ys ->
  exists it,
    In it (Spec.bucketItems (JS.get (filterData (Some T) t "" y ct) "Content"))
    /\ year it = Some y
    /\ (ct = "all" \/ contentType it = Some ct).
Proof.
  intros Hys Hy. pose proof (getYears_Some _ _ _ _ Hys) as [Harr _].
  apply (getYears_In _ _ _ _ y Hys) in Hy as (it & Hit & Hpick).
  exists it. pose proof (proj1 (yearPick_Some _ _ _) Hpick) as (Hyr & _ & Hc).
  split; [| now split].
  rewrite get_filterData. unfold contentIsArray, contentItems in *.
  destruct (JS.get (tab T t) "Content") as [[l | g] |];
    [| discriminate | destruct Hit].
  cbn [option_map filterBucket Spec.bucketItems] in *. apply filter_In.
  split; [exact Hit | now apply yearPick_passes].
Qed.

Lemma offered_year_has_datasets_witness :
  let T := processData [ mkDescriptor "g_claims_2020" "Claims" "u";
                         mkDescriptor "g_abstract_2021" "Abstracts" "u" ] in
  exists it,
    In it (Spec.bucketItems
             (JS.get (filterData (Some T) granted "" "2020" "Claims") "Content"))
    /\ year it = Some "2020"
    /\ ("Claims" = "all" \/ contentType it = Some "Claims").
Proof.
  intros T.
  apply (offered_year_has_datasets T granted "Claims" "2020" ["2020"]).
  - vm_compute. reflexivity.
  - now left.
Defined.

End FacetSelection.

(* ================================================================== *)
(** * The facet lists of dataProcessor.js                              *)
(* ================================================================== *)

Section ModulesAgree.

Lemma dataProcessor_overContent (f : list string -> classified -> list string)
      (rawData : list descriptor) (acc : list string) (t : patentType) :
  DataProcessorLib.overContent f (DataProcessorLib.processData rawData) acc t
  = fold_left f (Spec.ofCategory t "Content"
                   (map DataProcessor.categorizeItem rawData)) acc.
Proof.
  unfold DataProcessorLib.overContent. rewrite dataProcessor_get.
  now destruct (Spec.ofCategory t "Content"
                  (map DataProcessor.categorizeItem rawData)).
Qed.

Lemma same_picks (g : classified -> option string) (rawData : list descriptor)
      (t : patentType) :
  (forall d, g (DataProcessor.categorizeItem d) = g (categorizeItem d)) ->
  map g (Spec.ofCategory t "Content" (map categorizeItem rawData))
  = map g (Spec.ofCategory t "Content"
             (map DataProcessor.categorizeItem rawData)).
Proof.
  intros Hg. unfold Spec.ofCategory.
  induction rawData as [| d ds IH]; [reflexivity |]. cbn [map filter].
  change (type (DataProcessor.categorizeItem d)) with (type (categorizeItem d)).
  assert (Hc : (category (DataProcessor.categorizeItem d) =? "Content")
               = (category (categorizeItem d) =? "Content")).
  { rewrite dataProcessor_category.
    destruct (String.eqb_spec (category (categorizeItem d)) "Other") as [-> | _];
      reflexivity. }
  rewrite Hc.
  destruct (Spec.typeEqb (type (categorizeItem d)) t
            && (category (categorizeItem d) =? "Content"));
    cbn [map]; now rewrite IH, ?Hg.
Qed.

(** X17.  On the same raw data the two modules compute the same facet
    lists: [getAvailableYears] and [getContentTypes] of dataProcessor.js,
    applied to its own [processData], return what the functions of the
    interface return on the interface's taxonomy. *)
Theorem facet_lists_agree_between_modules (rawData : list descriptor) :
  getAvailableYears (processData rawData)
  = Some (DataProcessorLib.getAvailableYears
            (DataProcessorLib.processData rawData))
  /\ getContentTypes (processData rawData)
     = Some (DataProcessorLib.getContentTypes
               (DataProcessorLib.processData rawData)).
Proof.
  unfold getAvailableYears, getContentTypes,
    DataProcessorLib.getAvailableYears, DataProcessorLib.getContentTypes.
  cbn [fold_left].
  rewrite !overContent_array by apply processData_content.
  rewrite !dataProcessor_overContent.
  rewrite !(proj2 (processData_content rawData _)).
  cbn [option_map]. rewrite !collect_fold_app.
  split; do 2 f_equal.
  - apply (collect_fold_same _ _ collectAnyYear_pick).
    rewrite !map_app. f_equal; now apply same_picks.
  - apply (collect_fold_same _ _ collectContentType_pick).
    rewrite !map_app. f_equal; now apply same_picks.
Qed.

End ModulesAgree.

(* ================================================================== *)
(** * View state                                                       *)
(* ================================================================== *)

Section ViewState.

(** X18.  After the effect that follows a change of filter or tab has
    run on loaded data, the year filter is "all" or one of the years on
    offer; the effect only ever resets it to "all", changes nothing else
    but the list of years on offer, and running it again changes
    nothing. *)
Theorem yearsEffect_keeps_year_filter_valid (T : taxonomy)
        (st st' : View.state) :
  View.yearsEffect (Some T) st = Some st' ->
  (View.yearFilter st' = "all"
   \/ In (View.yearFilter st') (View.filteredYears st'))
  /\ (View.yearFilter st' = View.yearFilter st \/ View.yearFilter st' = "all")
  /\ getYearsForContentType (Some T) (View.activeTab st)
                            (View.contentTypeFilter st)
     = Some (View.filteredYears st')
  /\ View.activeTab st' = View.activeTab st
  /\ View.search st' = View.search st
  /\ View.contentTypeFilter st' = View.contentTypeFilter st
  /\ View.expandedGroups st' = View.expandedGroups st
  /\ View.yearsEffect (Some T) st' = Some st'.
Proof.
  unfold View.yearsEffect.
  destruct (getYearsForContentType (Some T) (View.activeTab st)
                                   (View.contentTypeFilter st))
    as [years |] eqn:E; [| discriminate].
  intros [= <-].
  cbn [View.yearFilter View.filteredYears View.activeTab View.search
       View.contentTypeFilter View.expandedGroups].
  rewrite E.
  destruct (String.eqb_spec (View.yearFilter st) "all") as [Hall | Hne];
    cbn [negb andb].
  - rewrite Hall. change ("all" =? "all") with true. cbn [negb andb].
    repeat split; auto.
  - destruct (JS.arrayIncludes years (View.yearFilter st)) eqn:Hin;
      cbn [negb].
    + apply String.eqb_neq in Hne. rewrite Hne, Hin. cbn [negb andb].
      apply arrayIncludes_In in Hin. repeat split; auto.
    + change ("all" =? "all") with true. cbn [negb andb].
      repeat split; auto.
Qed.

Lemma yearsEffect_witness :
  let T := processData [ mkDescriptor "g_claims_2020" "Claims" "u";
                         mkDescriptor "g_abstract_2021" "Abstracts" "u" ] in
  let st := View.mkState granted "" "2021" "Claims" [] [] in
  let st' := View.mkState granted "" "all" "Claims" ["2020"] [] in
  View.yearsEffect (Some T) st = Some st'
  /\ (View.yearFilter st' = "all"
      \/ In (View.yearFilter st') (View.filteredYears st')).
Proof.
  intros T st st'.
  assert (H : View.yearsEffect (Some T) st = Some st')
    by (vm_compute; reflexivity).
  split; [exact H |].
  exact (proj1 (yearsEffect_keeps_year_filter_valid T st st' H)).
Defined.

(** X19.  After that effect, with no query, a selected year always has
    datasets: the Content category of the filtered view holds an item of
    the selected year. *)
Theorem selected_year_has_datasets (T : taxonomy) (st st' : View.state) :
  View.yearsEffect (Some T) st = Some st' ->
  View.search st = "" ->
  View.yearFilter st' <> "all" ->
  exists it,
    In it (Spec.bucketItems (JS.get (View.filteredData (Some T) st') "Content"))
    /\ year it = Some (View.yearFilter st').
Proof.
  unfold View.yearsEffect, View.filteredData.
  destruct (getYearsForContentType (Some T) (View.activeTab st)
                                   (View.contentTypeFilter st))
    as [years |] eqn:E; [| discriminate].
  intros [= <-] Hq.
  cbn [View.yearFilter View.filteredYears View.activeTab View.search
       View.contentTypeFilter].
  rewrite Hq.
  destruct (String.eqb_spec (View.yearFilter st) "all") as [Hall | Hne];
    cbn [negb andb]; [congruence |].
  destruct (JS.arrayIncludes years (View.yearFilter st)) eqn:Hin;
    cbn [negb]; [| congruence].
  intros _. apply arrayIncludes_In in Hin.
  exact (offered_year_item T _ _ _ years E Hin).
Qed.

Lemma selected_year_has_datasets_witness :
  let T := processData [ mkDescriptor "g_claims_2020" "Claims" "u";
                         mkDescriptor "g_abstract_2021" "Abstracts" "u" ] in
  let st := View.mkState granted "" "2020" "Claims" [] [] in
  let st' := View.mkState granted "" "2020" "Claims" ["2020"] [] in
  exists it,
    In it (Spec.bucketItems (JS.get (View.filteredData (Some T) st') "Content"))
    /\ year it = Some "2020".
Proof.
  intros T st st'.
  apply (selected_year_has_datasets T st st').
  - vm_compute. reflexivity.
  - reflexivity.
  - discriminate.
Defined.

Lemma get_fold_expand (ks : list string) (acc : JS.obj bool) (c : string) :
  JS.get (fold_left (fun (st : JS.obj bool) (cat : string) =>
                       JS.set st cat (negb (cat =? "Content"))) ks acc) c
  = if existsb (fun k => k =? c) ks then Some (negb (c =? "Content"))
    else JS.get acc c.
Proof.
  revert acc. induction ks as [| k ks IH]; intros acc; [reflexivity |].
  cbn [fold_left existsb]. rewrite IH, get_set.
  destruct (existsb (fun k0 => k0 =? c) ks); [now rewrite orb_true_r |].
  rewrite orb_false_r. destruct (String.eqb_spec k c) as [-> | _]; reflexivity.
Qed.

Lemma existsb_eqb_In (ks : list string) (c : string) :
  existsb (fun k => k =? c) ks = true <-> In c ks.
Proof.
  rewrite existsb_exists. split.
  - intros (k & Hk & E). apply String.eqb_eq in E. now subst.
  - intros H. exists c. split; [exact H | apply String.eqb_refl].
Qed.

(** X20.  After loading a built taxonomy, a category is expanded exactly
    when it is a key of the granted or of the pregrant taxonomy and is not
    "Content"; [toggleGroup] on a category name then flips the group it
    names, leaves every other group and every filter as they are, and two
    toggles restore the expanded state of every group. *)
Theorem expanded_groups_initial_and_toggle (rawData : list descriptor)
        (st : View.state) (grp c : string) :
  In grp categoryOrder ->
  (View.isExpanded
     (View.mkState granted "" "all" "all" []
                   (View.initialExpandedState (processData rawData))) c = true
   <-> (In c (JS.keys (ofGranted (processData rawData)))
        \/ In c (JS.keys (ofPregrant (processData rawData))))
       /\ c <> "Content")
  /\ View.isExpanded (View.toggleGroup grp st) grp
     = negb (View.isExpanded st grp)
  /\ (c <> grp ->
      View.isExpanded (View.toggleGroup grp st) c = View.isExpanded st c)
  /\ View.isExpanded (View.toggleGroup grp (View.toggleGroup grp st)) c
     = View.isExpanded st c
  /\ View.yearFilter (View.toggleGroup grp st) = View.yearFilter st
  /\ View.contentTypeFilter (View.toggleGroup grp st)
     = View.contentTypeFilter st
  /\ View.search (View.toggleGroup grp st) = View.search st.
Proof.
  intros _. generalize (processData rawData) as T. intros T.
  assert (Hsame : View.isExpanded (View.toggleGroup grp st) grp
                  = negb (View.isExpanded st grp)).
  { unfold View.isExpanded, View.toggleGroup, View.notProp.
    cbn [View.expandedGroups]. rewrite get_set_eq.
    now destruct (JS.get (View.expandedGroups st) grp) as [[] |]. }
  assert (Hother : forall s c', c' <> grp ->
                     View.isExpanded (View.toggleGroup grp s) c'
                     = View.isExpanded s c').
  { intros s c' Hc. unfold View.isExpanded, View.toggleGroup.
    cbn [View.expandedGroups]. rewrite get_set_ne by congruence. reflexivity. }
  split; [| split; [exact Hsame | split; [apply Hother | split]]].
  - unfold View.isExpanded, View.initialExpandedState.
    cbn [View.expandedGroups]. rewrite !get_fold_expand. cbn [JS.get].
    rewrite <- !existsb_eqb_In.
    destruct (existsb (fun k => k =? c) (JS.keys (ofPregrant T)));
      destruct (existsb (fun k => k =? c) (JS.keys (ofGranted T)));
      destruct (String.eqb_spec c "Content"); cbn [negb];
      split; intros H; try discriminate; try tauto;
      try (destruct H as [[H | H] _]; discriminate);
      try (split; [auto | assumption]).
  - destruct (String.eqb_spec c grp) as [-> | Hc].
    + unfold View.isExpanded, View.toggleGroup, View.notProp.
      cbn [View.expandedGroups]. rewrite !get_set_eq.
      destruct (JS.get (View.expandedGroups st) grp) as [[] |]; reflexivity.
    + now rewrite !Hother.
  - repeat split.
Qed.

Lemma expanded_groups_witness :
  let rawData := [ mkDescriptor "g_inventor_disambiguated" "Inventors" "u";
                   mkDescriptor "g_claims_2020" "Claims" "u" ] in
  let st := View.mkState granted "" "all" "all" []
                         (View.initialExpandedState (processData rawData)) in
  View.isExpanded st "People" = true
  /\ View.isExpanded st "Content" = false
  /\ View.isExpanded (View.toggleGroup "People" st) "People"
     = negb (View.isExpanded st "People").
Proof.
  intros rawData st.
  split; [vm_compute; reflexivity | split; [vm_compute; reflexivity |]].
  assert (Hin : In "People" categoryOrder) by (cbn; tauto).
  exact (proj1 (proj2 (expanded_groups_initial_and_toggle
                         rawData st "People" "People" Hin))).
Defined.

End ViewState.

(* ================================================================== *)
(** * More on the classifier and the shown names                       *)
(* ================================================================== *)

Section ShownNames.

Lemma toUpperCase_append (a b : string) :
  JS.toUpperCase (a ++ b)%string
  = (JS.toUpperCase a ++ JS.toUpperCase b)%string.
Proof.
  unfold JS.toUpperCase. induction a as [| c a IH]; [reflexivity |].
  cbn [append JS.mapChars]. now rewrite IH.
Qed.

Lemma replaceFirstCI_ciEqual (pat s : string) :
  Spec.ciEqual (JS.replaceFirstCI pat s) s.
Proof.
  destruct (replaceFirstCI_first pat s)
    as [(pre & m & post & -> & Hm & _ & ->) | [_ ->]]; [| reflexivity].
  unfold Spec.ciEqual in *. rewrite !toUpperCase_append. now rewrite Hm.
Qed.

Lemma formatDisplayName_ciEqual (s : string) :
  Spec.ciEqual (formatDisplayName s) s.
Proof.
  unfold formatDisplayName. generalize abbreviations as acrs.
  intros acrs. revert s. induction acrs as [| a acrs IH]; intros s;
    [reflexivity |].
  cbn [fold_left]. unfold Spec.ciEqual in *. rewrite IH.
  apply replaceFirstCI_ciEqual.
Qed.

Lemma includes_underscore_cons (c : ascii) (s : string) :
  JS.includes (String c s) "_" = Ascii.eqb c "_" || JS.includes s "_".
Proof.
  cbn [JS.includes prefix].
  destruct (Ascii.eqb_spec c "_") as [-> | Hne].
  - destruct (ascii_dec "_" "_") as [_ | N]; [now destruct s | congruence].
  - destruct (ascii_dec "_" c) as [E | _]; [congruence | reflexivity].
Qed.

Lemma includes_underscore_upper (s : string) :
  JS.includes (JS.toUpperCase s) "_" = JS.includes s "_".
Proof.
  unfold JS.toUpperCase. induction s as [| c s IH]; [reflexivity |].
  cbn [JS.mapChars]. rewrite !includes_underscore_cons, IH. f_equal.
  destruct (Ascii.eqb_spec c "_") as [-> | Hne]; [reflexivity |].
  apply Ascii.eqb_neq. intros E. now apply upperChar_underscore in E.
Qed.

Lemma noUnderscore_includes (s : string) :
  noUnderscore s -> JS.includes s "_" = false.
Proof.
  unfold noUnderscore, JS.replaceAllChar.
  induction s as [| c s IH]; [reflexivity |]. cbn [JS.mapChars].
  rewrite includes_underscore_cons.
  destruct (Ascii.eqb_spec c "_") as [-> | Hne]; [discriminate |].
  intros [= H]. now apply IH.
Qed.

(** X21.  On any name, [formatDisplayName] changes the case of letters
    and nothing else: the result has the same length and the same
    upper-case form as the name. *)
Theorem formatDisplayName_changes_case_only (s : string) :
  JS.toUpperCase (formatDisplayName s) = JS.toUpperCase s
  /\ String.length (formatDisplayName s) = String.length s.
Proof.
  split; [apply formatDisplayName_ciEqual |].
  apply ciEqual_length, formatDisplayName_ciEqual.
Qed.

(** X22.  The display name of a classified item contains no underscore,
    whatever the identifier, and neither does the name shown on its
    card. *)
Theorem shown_name_has_no_underscore (it : descriptor) :
  JS.includes (displayName (categorizeItem it)) "_" = false
  /\ JS.includes (formatDisplayName (displayName (categorizeItem it))) "_"
     = false.
Proof.
  assert (H : JS.includes (displayName (categorizeItem it)) "_" = false).
  { apply noUnderscore_includes.
    change (displayName (categorizeItem it))
      with (makeDisplayName (table_name it)).
    rewrite makeDisplayName_plain. unfold Spec.plainDisplayName.
    apply join_noUnderscore, Forall_map.
    eapply Forall_impl; [| apply split_noUnderscore].
    intros w. apply capitalize_noUnderscore. }
  split; [exact H |].
  rewrite <- includes_underscore_upper.
  rewrite (formatDisplayName_ciEqual (displayName (categorizeItem it))).
  now rewrite includes_underscore_upper.
Qed.

Lemma dataProcessor_Content_iff (d : descriptor) :
  category (DataProcessor.categorizeItem d) = "Content"
  <-> contentType (DataProcessor.categorizeItem d) <> None.
Proof.
  rewrite dataProcessor_category.
  change (contentType (DataProcessor.categorizeItem d))
    with (contentType (categorizeItem d)).
  rewrite <- category_Content_iff.
  destruct (String.eqb_spec (category (categorizeItem d)) "Other") as [E | _];
    [| reflexivity].
  rewrite E. split; discriminate.
Qed.

(** X23.  For both classifiers the category is "Content" exactly when a
    content type was assigned, a year is set only on Content items, it is a
    string of four digits, and the content type is one of the five
    labels. *)
Theorem content_category_iff_content_type (d : descriptor) :
  (category (categorizeItem d) = "Content"
   <-> contentType (categorizeItem d) <> None)
  /\ (category (DataProcessor.categorizeItem d) = "Content"
      <-> contentType (DataProcessor.categorizeItem d) <> None)
  /\ (forall y, year (categorizeItem d) = Some y ->
                category (categorizeItem d) = "Content"
                /\ Spec.fourDigits y)
  /\ (forall ct, contentType (categorizeItem d) = Some ct ->
                 In ct (map snd Spec.contentTypePatterns)).
Proof.
  split; [apply category_Content_iff |].
  split; [apply dataProcessor_Content_iff |].
  split; [| intros ct; apply contentType_label].
  intros y Hy. destruct (year_four_digits d y Hy) as [H4 Hc].
  split; [now apply category_Content_iff | now apply fourDigits_bool].
Qed.

End ShownNames.

Section TabChange.

(** X24.  Switching tabs clears both facets and keeps the query: once the
    effect has run, the view is the one the query alone gives on the new
    tab, and the years on offer are all the years of that tab. *)
Theorem tab_change_clears_facets (T : taxonomy) (t : patentType)
        (st st' : View.state) :
  View.yearsEffect (Some T) (View.handleTabChange t st) = Some st' ->
  View.activeTab st' = t
  /\ View.yearFilter st' = "all"
  /\ View.contentTypeFilter st' = "all"
  /\ View.search st' = View.search st
  /\ getYearsForContentType (Some T) t "all" = Some (View.filteredYears st')
  /\ View.filteredData (Some T) st'
     = filterData (Some T) t (View.search st) "all" "all".
Proof.
  unfold View.yearsEffect, View.handleTabChange, View.filteredData.
  cbn [View.activeTab View.contentTypeFilter View.yearFilter View.search
       View.filteredYears View.expandedGroups].
  destruct (getYearsForContentType (Some T) t "all") as [years |];
    [| discriminate].
  intros [= <-]. change ("all" =? "all") with true. cbn [negb andb].
  cbn [View.activeTab View.contentTypeFilter View.yearFilter View.search
       View.filteredYears]. repeat split.
Qed.

Lemma tab_change_clears_facets_witness :
  let T := processData [ mkDescriptor "g_claims_2020" "Claims" "u";
                         mkDescriptor "pg_abstract_2021" "Abstracts" "u" ] in
  let st := View.mkState granted "abs" "2020" "Claims" ["2020"] [] in
  let st' := View.mkState pregrant "abs" "all" "all" ["2021"] [] in
  View.yearsEffect (Some T) (View.handleTabChange pregrant st) = Some st'
  /\ View.filteredData (Some T) st'
     = filterData (Some T) pregrant "abs" "all" "all".
Proof.
  intros T st st'.
  assert (H : View.yearsEffect (Some T) (View.handleTabChange pregrant st)
              = Some st') by (vm_compute; reflexivity).
  split; [exact H |].
  exact (proj2 (proj2 (proj2 (proj2 (proj2
           (tab_change_clears_facets T pregrant st st' H)))))).
Defined.

End TabChange.
